(** * Venture.ly company-data aggregation: merge engine, derived metrics,
      aggregator loop and funding-amount extraction

    A shallow embedding of [src/data_aggregator.py] (class
    [CompanyDataAggregator]) and of the funding-amount parser shared by
    [src/simple_web_scraper.py] and [src/selenium_scraper.py], together with
    the other text parsers and the retry loop of [src/selenium_scraper.py] and
    the extraction and cleaning steps of the two search collectors,
    [src/simple_web_scraper.py] and [src/web_search_scraper.py].

    Python dictionaries that are used as maps are [gmap string _]; lists stay
    lists; exceptions are an explicit error result; the collectors, which do
    network I/O, are functions from the company name to an outcome, and the
    calls the aggregator makes are recorded in a trace.  Text is modelled as
    ASCII byte strings. *)

From Stdlib Require Import ZArith QArith Ascii String DecimalString.
From stdpp Require Import gmap strings list fin_maps.

Set Warnings "-register-all".

(** ** Python values *)

(** A Python [float]: the special values and the finite ones, a finite one
    being the rational it denotes.  The code below only compares floats (and
    subtracts a year from 2024), so no rounding is involved in what is proved
    about them. *)
Inductive pyfloat :=
| FNaN
| FNegInf
| FPosInf
| FFin (q : Q).

(** JSON-shaped Python values, as the collectors report them. *)
Inductive pyval :=
| VNone
| VBool (b : bool)
| VInt (z : Z)
| VFloat (f : pyfloat)
| VStr (s : string)
| VList (l : list pyval)
| VDict (d : gmap string pyval).

(** Exceptions the modelled code can raise. *)
Inductive exn :=
| TypeError (msg : string)
| ValueError (msg : string).

Inductive result (A : Type) :=
| Ok (a : A)
| Raise (e : exn).
Arguments Ok {A} a.
Arguments Raise {A} e.

#[global] Instance result_ret : MRet result := fun A a => Ok a.
#[global] Instance result_bind : MBind result :=
  fun A B k r => match r with Ok a => k a | Raise e => Raise e end.

(** [bool(v)]: Python truthiness. *)
Definition py_truthy (v : pyval) : bool :=
  match v with
  | VNone => false
  | VBool b => b
  | VInt z => negb (z =? 0)%Z
  | VFloat (FFin q) => negb (Qeq_bool q 0)
  | VFloat _ => true
  | VStr s => negb (String.eqb s "")
  | VList l => match l with [] => false | _ => true end
  | VDict d => negb (bool_decide (d = ∅))
  end.

(** [isinstance(v, (int, float))] together with the number's value: [bool] is
    a subclass of [int], [True] being 1. *)
Definition as_number (v : pyval) : option pyfloat :=
  match v with
  | VBool b => Some (FFin (if b then 1 else 0))
  | VInt z => Some (FFin (inject_Z z))
  | VFloat f => Some f
  | _ => None
  end.

(** [isinstance(v, int)] with the integer's value. *)
Definition as_int (v : pyval) : option Z :=
  match v with
  | VBool b => Some (if b then 1 else 0)%Z
  | VInt z => Some z
  | _ => None
  end.

Definition Qlt_bool (a b : Q) : bool := negb (Qle_bool b a).

(** [x < y] on numbers; Python compares an int with a float exactly, and
    every comparison with NaN is false. *)
Definition flt_ltb (x y : pyfloat) : bool :=
  match x, y with
  | FNaN, _ | _, FNaN => false
  | _, FNegInf => false
  | FNegInf, _ => true
  | FPosInf, _ => false
  | _, FPosInf => true
  | FFin a, FFin b => Qlt_bool a b
  end.

(** The order of the extended rationals, as a proposition. *)
Definition flt_le (x y : pyfloat) : Prop :=
  match x, y with
  | FNaN, _ | _, FNaN => False
  | FNegInf, _ => True
  | _, FPosInf => True
  | FFin a, FFin b => (a <= b)%Q
  | _, _ => False
  end.

Definition flt_lt (x y : pyfloat) : Prop :=
  match x, y with
  | FNaN, _ | _, FNaN => False
  | _, FNegInf => False
  | FNegInf, _ => True
  | FPosInf, _ => False
  | _, FPosInf => True
  | FFin a, FFin b => (a < b)%Q
  end.

Definition of_Z (z : Z) : pyfloat := FFin (inject_Z z).

(** [max(values)] and [max(values, key=...)] on a non-empty list: the running
    maximum is replaced only by a strictly greater item, so the first of
    several maximal items is returned. *)
Definition py_max {A : Type} (gt : A -> A -> bool) (values : list A) : option A :=
  match values with
  | [] => None
  | v :: rest => Some (fold_left (fun m item => if gt item m then item else m) rest v)
  end.

(** [a > b] on two numbers (values that passed the isinstance test). *)
Definition num_gt (a b : pyval) : bool :=
  match as_number a, as_number b with
  | Some x, Some y => flt_ltb y x
  | _, _ => false
  end.

(** Characters [str.strip()] removes, among ASCII: tab to carriage return, the
    four separators 28..31 and the space. *)
Definition is_py_space (c : ascii) : bool :=
  let n := nat_of_ascii c in
  ((9 <=? n) && (n <=? 13)) || ((28 <=? n) && (n <=? 32)).

Fixpoint lstrip (s : string) : string :=
  match s with
  | String c s' => if is_py_space c then lstrip s' else s
  | EmptyString => EmptyString
  end.

Fixpoint rstrip (s : string) : string :=
  match s with
  | String c s' =>
      match rstrip s' with
      | EmptyString => if is_py_space c then EmptyString else String c EmptyString
      | r => String c r
      end
  | EmptyString => EmptyString
  end.

(** [s.strip()] *)
Definition py_strip (s : string) : string := rstrip (lstrip s).

(** [type(v).__name__] *)
Definition type_name (v : pyval) : string :=
  match v with
  | VNone => "NoneType"
  | VBool _ => "bool"
  | VInt _ => "int"
  | VFloat _ => "float"
  | VStr _ => "str"
  | VList _ => "list"
  | VDict _ => "dict"
  end.

(** The default of [sys.int_max_str_digits]: since Python 3.11 the conversions
    between [int] and [str] refuse more digits, in both directions (earlier
    interpreters have no such limit). *)
Definition int_max_str_digits : nat := 4300.

(** ** The merge engine: [CompanyDataAggregator._merge_data_sources] *)

(** Two builtins of Python whose results depend on the interpreter are taken
    as given: [py_str v], what formatting [v] in an f-string gives, which is a
    text or an exception (a [ValueError] for an int of more than 4300 digits,
    also inside a container), and [set_list xs], the order in which
    [list(set(xs))] enumerates the distinct items of [xs]. *)
Section MergeEngine.

Variable py_str : pyval -> result string.
Variable set_list : list pyval -> list pyval.

Definition source_priority : list string :=
  ["crunchbase"; "linkedin"; "web_search"; "simple_web"].

(** [data_sources[source][field]], guarded by
    [source in data_sources and field in data_sources[source]]. *)
Definition reported (data_sources : gmap string (gmap string pyval))
  (source field : string) : option pyval :=
  data_sources !! source ≫= (fun r => r !! field).

(** One pass [for source in source_priority] over a field: the values that
    pass the test [keep], in priority order. *)
Definition collect {A : Type} (data_sources : gmap string (gmap string pyval))
  (field : string) (keep : pyval -> option A) : list A :=
  omap (fun source => reported data_sources source field ≫= keep) source_priority.

(** [value and isinstance(value, (int, float)) and value > 0] *)
Definition is_positive_number (value : pyval) : bool :=
  py_truthy value &&
  match as_number value with
  | Some x => flt_ltb (of_Z 0) x
  | None => false
  end.

Definition keep_if (test : pyval -> bool) (value : pyval) : option pyval :=
  if test value then Some value else None.

(** The four numeric fields: the positive numbers reported, then their [max]. *)
Definition numeric_values (data_sources : gmap string (gmap string pyval))
  (field : string) : list pyval :=
  collect data_sources field (keep_if is_positive_number).

Definition merge_numeric (data_sources : gmap string (gmap string pyval))
  (field : string) : option pyval :=
  py_max num_gt (numeric_values data_sources field).

(** [x and isinstance(x, list)], giving the list's items. *)
Definition nonempty_list (value : pyval) : option (list pyval) :=
  match value with
  | VList (x :: l) => Some (x :: l)
  | _ => None
  end.

(** [all_founders], [all_investors], [all_rounds]: the reported lists, one
    after the other. *)
Definition all_items (data_sources : gmap string (gmap string pyval))
  (field : string) : list pyval :=
  concat (collect data_sources field nonempty_list).

(** [set(xs)] raises on the first unhashable item. *)
Fixpoint unhashable_error (xs : list pyval) : option exn :=
  match xs with
  | [] => None
  | (VList _ as x) :: _ | (VDict _ as x) :: _ =>
      Some (TypeError ("unhashable type: '" +:+ type_name x +:+ "'"))
  | _ :: xs' => unhashable_error xs'
  end.

Definition py_list_set (xs : list pyval) : result (list pyval) :=
  match unhashable_error xs with
  | Some e => Raise e
  | None => Ok (set_list xs)
  end.

(** [if all_founders: merged['founders'] = list(set([f for f in all_founders if f]))] *)
Definition merge_names (data_sources : gmap string (gmap string pyval))
  (field : string) : result (option pyval) :=
  match all_items data_sources field with
  | [] => Ok None
  | all_names =>
      names ← py_list_set (List.filter py_truthy all_names);
      Ok (Some (VList names))
  end.

(** [x and isinstance(x, str) and x.strip()], giving [x.strip()]. *)
Definition stripped_text (value : pyval) : option pyval :=
  match value with
  | VStr s =>
      if negb (String.eqb s "") && negb (String.eqb (py_strip s) "")
      then Some (VStr (py_strip s)) else None
  | _ => None
  end.

(** [year and isinstance(year, int) and year > 1900] *)
Definition valid_year (value : pyval) : option pyval :=
  match as_int value with
  | Some z => if py_truthy value && (1900 <? z)%Z then Some value else None
  | None => None
  end.

(** [website and isinstance(website, str) and website.strip() and
    website.startswith('http')], giving [website.strip()]. *)
Definition valid_website (value : pyval) : option pyval :=
  match value with
  | VStr s =>
      if negb (String.eqb s "") && negb (String.eqb (py_strip s) "")
         && String.prefix "http" s
      then Some (VStr (py_strip s)) else None
  | _ => None
  end.

(** A loop that stops at its first hit ([break]). *)
Definition first_valid (data_sources : gmap string (gmap string pyval))
  (field : string) (keep : pyval -> option pyval) : option pyval :=
  head (collect data_sources field keep).

Definition text_of (value : pyval) : string :=
  match value with VStr s => s | _ => EmptyString end.

(** [max(descriptions, key=len)] over the stripped descriptions. *)
Definition merge_description (data_sources : gmap string (gmap string pyval))
  : option pyval :=
  py_max (fun a b => (String.length (text_of b) <? String.length (text_of a))%nat)
    (collect data_sources "description" stripped_text).

(** [f"{round_data.get('amount', '')}-{round_data.get('type', '')}"] *)
Definition round_key (round_data : gmap string pyval) : result string :=
  amount ← py_str (default (VStr "") (round_data !! "amount"));
  type ← py_str (default (VStr "") (round_data !! "type"));
  Ok (amount +:+ "-" +:+ type).

(** One turn of the loop over [all_rounds]; the state is
    [(unique_rounds, seen_rounds)]. *)
Definition dedup_step (acc : list pyval * gset string) (round_data : pyval)
  : result (list pyval * gset string) :=
  match round_data with
  | VDict d =>
      key ← round_key d;
      if decide (key ∈ acc.2) then Ok acc
      else Ok (acc.1 ++ [round_data], acc.2 ∪ {[ key ]})
  | _ => Ok acc
  end.

(** [for round_data in all_rounds]: the loop ends at the first round whose
    key cannot be formatted. *)
Fixpoint dedup_loop (all_rounds : list pyval) (acc : list pyval * gset string)
  : result (list pyval * gset string) :=
  match all_rounds with
  | [] => Ok acc
  | round_data :: rest => acc ← dedup_step acc round_data; dedup_loop rest acc
  end.

Definition unique_rounds (all_rounds : list pyval) : result (list pyval) :=
  acc ← dedup_loop all_rounds ([], ∅); Ok acc.1.

Definition merge_rounds (data_sources : gmap string (gmap string pyval))
  : result (option pyval) :=
  match all_items data_sources "funding_rounds" with
  | [] => Ok None
  | all_rounds => rounds ← unique_rounds all_rounds; Ok (Some (VList rounds))
  end.

(** [merged[key] = value] when the guard of the assignment held. *)
Definition set_opt (key : string) (value : option pyval) (merged : gmap string pyval)
  : gmap string pyval :=
  match value with
  | Some v => <[key := v]> merged
  | None => merged
  end.

(** ** Derived metrics: [CompanyDataAggregator._calculate_derived_metrics] *)

Definition current_year : Z := 2024.

(** [n - v] for an int literal [n]. *)
Definition py_int_minus (n : Z) (v : pyval) : result pyval :=
  match v with
  | VBool b => Ok (VInt (n - (if b then 1 else 0)))
  | VInt z => Ok (VInt (n - z))
  | VFloat FNaN => Ok (VFloat FNaN)
  | VFloat FNegInf => Ok (VFloat FPosInf)
  | VFloat FPosInf => Ok (VFloat FNegInf)
  | VFloat (FFin q) => Ok (VFloat (FFin (inject_Z n - q)))
  | _ => Raise (TypeError ("unsupported operand type(s) for -: 'int' and '"
                         +:+ type_name v +:+ "'"))
  end.

(** [v < n] for an int literal [n]. *)
Definition py_lt_int (v : pyval) (n : Z) : result bool :=
  match as_number v with
  | Some x => Ok (flt_ltb x (of_Z n))
  | None => Raise (TypeError ("'<' not supported between instances of '"
                            +:+ type_name v +:+ "' and 'int'"))
  end.

(** The [if]/[elif] chain over thresholds, shared by the two bucket fields. *)
Fixpoint bucket (v : pyval) (thresholds : list (Z * string)) (otherwise : string)
  : result string :=
  match thresholds with
  | [] => Ok otherwise
  | (n, label) :: rest =>
      below ← py_lt_int v n;
      if (below : bool) then Ok label else bucket v rest otherwise
  end.

Definition funding_stage (funding : pyval) : result string :=
  bucket funding
    [(1000000, "Pre-Seed"); (5000000, "Seed"); (20000000, "Series A");
     (50000000, "Series B"); (100000000, "Series C+")]%Z
    "Late Stage".

Definition employee_size (employees : pyval) : result string :=
  bucket employees
    [(10, "Startup (1-9)"); (50, "Small (10-49)"); (200, "Medium (50-199)");
     (1000, "Large (200-999)")]%Z
    "Enterprise (1000+)".

(** [if data.get(key): data[target] = f(data[key])] *)
Definition derive (key target : string) (f : pyval -> result pyval)
  (data : gmap string pyval) : result (gmap string pyval) :=
  match data !! key with
  | Some v =>
      if py_truthy v then (d ← f v; Ok (<[target := d]> data)) else Ok data
  | None => Ok data
  end.

Definition _calculate_derived_metrics (data : gmap string pyval)
  : result (gmap string pyval) :=
  data ← derive "founded_year" "company_age" (py_int_minus current_year) data;
  data ← derive "funding_raised" "funding_stage"
           (fun funding => s ← funding_stage funding; Ok (VStr s)) data;
  derive "employees" "employee_size"
    (fun employees => s ← employee_size employees; Ok (VStr s)) data.

(** The record before the derived metrics are added, given the two merged
    name lists and the merged rounds. *)
Definition merged_fields (data_sources : gmap string (gmap string pyval))
  (company_name : string) (founders investors rounds : option pyval)
  : gmap string pyval :=
  let merged : gmap string pyval := {[ "name" := VStr company_name ]} in
  let merged := set_opt "funding_raised" (merge_numeric data_sources "funding_raised") merged in
  let merged := set_opt "valuation" (merge_numeric data_sources "valuation") merged in
  let merged := set_opt "employees" (merge_numeric data_sources "employees") merged in
  let merged := set_opt "revenue" (merge_numeric data_sources "revenue") merged in
  let merged := set_opt "founders" founders merged in
  let merged := set_opt "investors" investors merged in
  let merged := set_opt "ceo" (first_valid data_sources "ceo" stripped_text) merged in
  let merged := set_opt "founded_year" (first_valid data_sources "founded_year" valid_year) merged in
  let merged := set_opt "description" (merge_description data_sources) merged in
  let merged := set_opt "website" (first_valid data_sources "website" valid_website) merged in
  let merged := set_opt "location" (first_valid data_sources "location" stripped_text) merged in
  set_opt "funding_rounds" rounds merged.

Definition _merge_data_sources (data_sources : gmap string (gmap string pyval))
  (company_name : string) : result (gmap string pyval) :=
  founders ← merge_names data_sources "founders";
  investors ← merge_names data_sources "investors";
  rounds ← merge_rounds data_sources;
  _calculate_derived_metrics
    (merged_fields data_sources company_name founders investors rounds).

End MergeEngine.

(** ** The aggregator: [CompanyDataAggregator.get_comprehensive_data] *)

(** What a collector call does: hand back a mapping, or raise (the message
    being [str(e)]). *)
Inductive outcome :=
| Returns (data : gmap string pyval)
| Throws (msg : string).

(** A scraper object with the two entry points the aggregator calls; an entry
    point a class lacks is one that raises. *)
Record Scraper := {
  scrape_company_data : string -> outcome;
  search_company_data : string -> outcome
}.

(** [self.scrapers], as its items in registration order. *)
Record CompanyDataAggregator := {
  scrapers : list (string * Scraper)
}.

(** [__init__]: the four sources, in this order. *)
Definition CompanyDataAggregator_init (crunchbase linkedin web_search simple_web : Scraper)
  : CompanyDataAggregator :=
  {| scrapers := [("crunchbase", crunchbase); ("linkedin", linkedin);
                  ("web_search", web_search); ("simple_web", simple_web)] |}.

(** What the aggregator does to the outside world, in order. *)
Inductive event :=
| Progress (message : string) (fraction : Q)
| CollectorCall (source_name company_name : string)
| Sleep (seconds : Z).

(** The loop's variables: [all_data] with the insertion order of its keys
    ([scraped]), the success counter and the trace so far. *)
Record run_state := {
  all_data : gmap string (gmap string pyval);
  scraped : list string;
  successful_sources : Z;
  trace : list event
}.

Definition log (e : event) (st : run_state) : run_state :=
  {| all_data := all_data st; scraped := scraped st;
     successful_sources := successful_sources st; trace := trace st ++ [e] |}.

(** [all_data[source_name] = data] *)
Definition store (source_name : string) (data : gmap string pyval) (st : run_state)
  : run_state :=
  {| all_data := <[source_name := data]> (all_data st);
     scraped := if decide (is_Some (all_data st !! source_name))
                then scraped st else scraped st ++ [source_name];
     successful_sources := successful_sources st; trace := trace st |}.

Definition count_success (st : run_state) : run_state :=
  {| all_data := all_data st; scraped := scraped st;
     successful_sources := successful_sources st + 1; trace := trace st |}.

(** The [if]/[elif]/[else] on [source_name] that picks the entry point. *)
Definition dispatch (source_name : string) (scraper : Scraper) : string -> outcome :=
  if String.eqb source_name "web_search" then search_company_data scraper
  else if String.eqb source_name "simple_web" then search_company_data scraper
  else scrape_company_data scraper.

Definition error_record (e : pyval) : gmap string pyval := {[ "error" := e ]}.

(** [str(e)] *)
Definition exn_message (e : exn) : string :=
  match e with TypeError msg | ValueError msg => msg end.

(** The body of the [for] loop for the [i]-th source.  A progress callback
    returns [None], or [Some msg] when it raises; whatever is raised inside
    the [try] ends the turn in the [except] branch: that includes the f-string
    of the warning, which formats the error of a failed collector before the
    error is stored.  [py_str] is the formatting of an f-string. *)
Definition scrape_one (py_str : pyval -> result string) (company_name : string)
  (progress_callback : option (string -> Q -> option string)) (total_sources : nat)
  (i : nat) (source_name : string) (scraper : Scraper) (st : run_state) : run_state :=
  let message := "Scraping " +:+ source_name +:+ "..." in
  let fraction := (Z.of_nat (i + 1) # Pos.of_nat total_sources)%Q in
  let st := match progress_callback with
            | Some _ => log (Progress message fraction) st
            | None => st
            end in
  match progress_callback ≫= (fun f => f message fraction) with
  | Some msg => store source_name (error_record (VStr msg)) st
  | None =>
      let st := log (CollectorCall source_name company_name) st in
      match dispatch source_name scraper company_name with
      | Throws msg => store source_name (error_record (VStr msg)) st
      | Returns data =>
          if negb (bool_decide (data = ∅)) && negb (bool_decide (is_Some (data !! "error")))
          then log (Sleep 2) (count_success (store source_name data st))
          else
            match py_str (default (VStr "Unknown error") (data !! "error")) with
            | Ok _ =>
                log (Sleep 2)
                  (store source_name
                     (error_record (default (VStr "No data found") (data !! "error"))) st)
            | Raise e => store source_name (error_record (VStr (exn_message e))) st
            end
      end
  end.

(** [for i, (source_name, scraper) in enumerate(self.scrapers.items())] *)
Fixpoint scrape_all (py_str : pyval -> result string) (company_name : string)
  (progress_callback : option (string -> Q -> option string)) (total_sources : nat)
  (i : nat) (items : list (string * Scraper)) (st : run_state) : run_state :=
  match items with
  | [] => st
  | (source_name, scraper) :: rest =>
      scrape_all py_str company_name progress_callback total_sources (S i) rest
        (scrape_one py_str company_name progress_callback total_sources i source_name
           scraper st)
  end.

Definition metadata (st : run_state) (total_sources : nat) (now : Q) : pyval :=
  VDict {[ "successful_sources" := VInt (successful_sources st);
           "total_sources" := VInt (Z.of_nat total_sources);
           "scraped_sources" := VList (VStr <$> scraped st);
           "timestamp" := VFloat (FFin now) ]}.

Section Aggregator.

Variable py_str : pyval -> result string.
Variable set_list : list pyval -> list pyval.

(** The state after the loop over the scrapers. *)
Definition collected (self : CompanyDataAggregator) (company_name : string)
  (progress_callback : option (string -> Q -> option string)) : run_state :=
  scrape_all py_str company_name progress_callback (length (scrapers self)) 0
    (scrapers self)
    {| all_data := ∅; scraped := []; successful_sources := 0; trace := [] |}.

(** The call's result (the merged record with its metadata, or what was
    raised) and the trace of its effects; [now] is what [time.time()] reads. *)
Definition get_comprehensive_data (self : CompanyDataAggregator) (company_name : string)
  (progress_callback : option (string -> Q -> option string)) (now : Q)
  : result (gmap string pyval) * list event :=
  let total_sources := length (scrapers self) in
  let st := collected self company_name progress_callback in
  (merged_data ← _merge_data_sources py_str set_list (all_data st) company_name;
   Ok (<["metadata" := metadata st total_sources now]> merged_data),
   trace st).

End Aggregator.

(** The collector calls of a trace, in order. *)
Definition collector_calls (t : list event) : list (string * string) :=
  omap (fun e => match e with
                 | CollectorCall source_name company_name => Some (source_name, company_name)
                 | _ => None
                 end) t.

(** ** The funding-amount extractor

    [parse_funding_amount] of [selenium_scraper.py] (the same text as
    [_parse_funding_amount] of [simple_web_scraper.py]) and
    [_extract_funding_amounts] of [simple_web_scraper.py], over a small
    backtracking matcher for the regular expressions they use. *)

(** The patterns of the source need: the empty pattern, one character of a
    class, sequence, ordered alternative, and greedy repetition of a class. *)
Inductive regex :=
| Eps
| Chr (p : ascii -> bool)
| Cat (r1 r2 : regex)
| Alt (r1 r2 : regex)
| Star (p : ascii -> bool).

(** Greedy [p*]: take a character when possible, give it back when the rest
    of the pattern (the continuation [k]) fails. *)
Fixpoint star_match (p : ascii -> bool) (s : string) (k : string -> option string)
  : option string :=
  match s with
  | String c s' =>
      if p c then
        match star_match p s' k with
        | Some rest => Some rest
        | None => k s
        end
      else k s
  | EmptyString => k s
  end.

(** [re_match r s k]: match [r] at the start of [s], then [k] on what is left;
    the answer is what is left after the whole match. *)
Fixpoint re_match (r : regex) (s : string) (k : string -> option string)
  : option string :=
  match r with
  | Eps => k s
  | Chr p =>
      match s with
      | String c s' => if p c then k s' else None
      | EmptyString => None
      end
  | Cat r1 r2 => re_match r1 s (fun s1 => re_match r2 s1 k)
  | Alt r1 r2 =>
      match re_match r1 s k with
      | Some rest => Some rest
      | None => re_match r2 s k
      end
  | Star p => star_match p s k
  end.

(** The match at the start of [s]: the matched text and what follows it. *)
Definition match_at (r : regex) (s : string) : option (string * string) :=
  rest ← re_match r s Some;
  Some (substring 0 (String.length s - String.length rest) s, rest).

(** [re.search(r, s).group()]: the leftmost match. *)
Fixpoint re_search (r : regex) (s : string) : option string :=
  match match_at r s with
  | Some (m, _) => Some m
  | None =>
      match s with
      | String _ s' => re_search r s'
      | EmptyString => None
      end
  end.

(** [re.findall(r, s)] for a pattern without groups: the matches from left to
    right, each search starting where the previous match ended (one character
    further after an empty match). *)
Fixpoint findall_from (fuel : nat) (r : regex) (s : string) : list string :=
  match fuel with
  | O => []
  | S fuel' =>
      let skip := match s with
                  | String _ s' => findall_from fuel' r s'
                  | EmptyString => []
                  end in
      match match_at r s with
      | Some (EmptyString, _) => EmptyString :: skip
      | Some (m, rest) => m :: findall_from fuel' r rest
      | None => skip
      end
  end.

Definition re_findall (r : regex) (s : string) : list string :=
  findall_from (S (String.length s)) r s.

(** Character classes. *)
Definition is_digit (c : ascii) : bool :=
  let n := nat_of_ascii c in (48 <=? n) && (n <=? 57).

Definition is_digit_or_comma (c : ascii) : bool := is_digit c || Ascii.eqb c ",".

Definition upper_char (c : ascii) : ascii :=
  let n := nat_of_ascii c in
  if (97 <=? n) && (n <=? 122) then ascii_of_nat (n - 32) else c.

(** [text.upper()] *)
Fixpoint py_upper (s : string) : string :=
  match s with
  | String c s' => String (upper_char c) (py_upper s')
  | EmptyString => EmptyString
  end.

Definition lit (c : ascii) : regex := Chr (Ascii.eqb c).

(** A literal character under [re.IGNORECASE]. *)
Definition lit_i (c : ascii) : regex :=
  Chr (fun x => Ascii.eqb (upper_char x) (upper_char c)).

Fixpoint word_i (w : string) : regex :=
  match w with
  | String c w' => Cat (lit_i c) (word_i w')
  | EmptyString => Eps
  end.

Definition plus (p : ascii -> bool) : regex := Cat (Chr p) (Star p).
Definition opt (r : regex) : regex := Alt r Eps.

(** [[\d,]+\.?\d*] *)
Definition number_re : regex :=
  Cat (plus is_digit_or_comma) (Cat (opt (lit ".")) (Star is_digit)).

(** [\$[\d,]+\.?\d*\s*(?:million|billion|M|B)], case ignored *)
Definition amount_re : regex :=
  Cat (lit "$")
    (Cat number_re
       (Cat (Star is_py_space)
          (Alt (word_i "million") (Alt (word_i "billion") (Alt (lit_i "M") (lit_i "B")))))).

(** The four patterns of [_extract_funding_amounts]. *)
Definition funding_patterns : list regex :=
  [ amount_re;
    Cat (word_i "raised") (Cat (plus is_py_space) amount_re);
    Cat (word_i "funding")
      (Cat (plus is_py_space) (Cat (word_i "of") (Cat (plus is_py_space) amount_re)));
    Cat (word_i "valuation")
      (Cat (plus is_py_space) (Cat (word_i "of") (Cat (plus is_py_space) amount_re))) ].

Fixpoint keep_chars (p : ascii -> bool) (s : string) : string :=
  match s with
  | String c s' => if p c then String c (keep_chars p s') else keep_chars p s'
  | EmptyString => EmptyString
  end.

Fixpoint contains_char (c : ascii) (s : string) : bool :=
  match s with
  | String x s' => Ascii.eqb x c || contains_char c s'
  | EmptyString => false
  end.

(** The characters [re.sub(r'[^\d.,$MBK]', '', ...)] leaves. *)
Definition amount_char (c : ascii) : bool :=
  is_digit c || contains_char c ".,$MBK".

(** The value of a run of decimal digits, read after [acc]; [None] when a
    character is not a digit. *)
Fixpoint digits_value (acc : N) (s : string) : option N :=
  match s with
  | String c s' =>
      if is_digit c
      then digits_value (acc * 10 + N.of_nat (nat_of_ascii c - 48)) s'
      else None
  | EmptyString => Some acc
  end.

(** The text before the first dot, and the text after it if there is one. *)
Fixpoint split_dot (s : string) : string * option string :=
  match s with
  | String c s' =>
      if Ascii.eqb c "." then (EmptyString, Some s')
      else let '(a, b) := split_dot s' in (String c a, b)
  | EmptyString => (EmptyString, None)
  end.

(** [float(s)] on the texts that reach it here, which hold digits and dots
    only: digits with at most one dot and at least one digit are a number,
    anything else is a [ValueError].  The value is the exact decimal. *)
Definition py_float (s : string) : result Q :=
  let '(whole, fraction) := split_dot s in
  let fraction := default EmptyString fraction in
  match digits_value 0 whole, digits_value 0 fraction with
  | Some a, Some b =>
      if String.eqb whole "" && String.eqb fraction ""
      then Raise (ValueError ("could not convert string to float: '" +:+ s +:+ "'"))
      else
        let scale := (10 ^ N.of_nat (String.length fraction))%N in
        Ok (Qred (Z.of_N (a * scale + b) # N.succ_pos (N.pred scale)))
  | _, _ => Raise (ValueError ("could not convert string to float: '" +:+ s +:+ "'"))
  end.

(** [parse_funding_amount(text)] *)
Definition parse_funding_amount (text : string) : result (option Q) :=
  if String.eqb text "" then Ok None
  else
    let text := keep_chars amount_char (py_upper text) in
    match re_search number_re text with
    | None => Ok None
    | Some found =>
        amount ← py_float (keep_chars (fun c => negb (Ascii.eqb c ",")) found);
        Ok (Some (Qred (if contains_char "B" text then amount * 1000000000
                        else if contains_char "M" text then amount * 1000000
                        else if contains_char "K" text then amount * 1000
                        else amount)))
    end.

(** The inner loop over the matches of one pattern. *)
Fixpoint parse_matches (amounts : list Q) (matches : list string) : result (list Q) :=
  match matches with
  | [] => Ok amounts
  | m :: rest =>
      amount ← parse_funding_amount m;
      match amount with
      | Some a => parse_matches (if Qeq_bool a 0 then amounts else amounts ++ [a]) rest
      | None => parse_matches amounts rest
      end
  end.

Fixpoint extract_with (patterns : list regex) (amounts : list Q) (text : string)
  : result (list Q) :=
  match patterns with
  | [] => Ok amounts
  | pattern :: rest =>
      amounts ← parse_matches amounts (re_findall pattern text);
      extract_with rest amounts text
  end.

(** [_extract_funding_amounts(text)] *)
Definition _extract_funding_amounts (text : string) : result (list Q) :=
  extract_with funding_patterns [] text.

(** ** Stand-ins for the two builtins, used by the examples

    [str_model] is CPython's [str] on [None], booleans, integers (an integer
    has more digits than the limit when its absolute value reaches ten to the
    power of the limit), strings, the special floats and the floats of
    integral value; other floats are written as a fraction and containers are
    abbreviated.  [set_first]
    enumerates the distinct items in the order of their first occurrence.
    The theorems below hold for every choice of the two builtins. *)

Definition str_model (v : pyval) : result string :=
  match v with
  | VNone => Ok "None"
  | VBool b => Ok (if b then "True" else "False")
  | VInt z =>
      if (10 ^ Z.of_nat int_max_str_digits <=? Z.abs z)%Z
      then Raise (ValueError
                    ("Exceeds the limit (4300 digits) for integer string conversion; "
                     +:+ "use sys.set_int_max_str_digits() to increase the limit"))
      else Ok (NilZero.string_of_int (Z.to_int z))
  | VFloat FNaN => Ok "nan"
  | VFloat FNegInf => Ok "-inf"
  | VFloat FPosInf => Ok "inf"
  | VFloat (FFin q) =>
      let r := Qred q in
      if (Qden r =? 1)%positive
      then Ok (NilZero.string_of_int (Z.to_int (Qnum r)) +:+ ".0")
      else Ok (NilZero.string_of_int (Z.to_int (Qnum r)) +:+ "/" +:+
               NilZero.string_of_int (Z.to_int (Z.pos (Qden r))))
  | VStr s => Ok s
  | VList _ => Ok "[...]"
  | VDict _ => Ok "{...}"
  end.

(** [a == b] on hashable values. *)
Definition py_eqb (a b : pyval) : bool :=
  match a, b with
  | VNone, VNone => true
  | VStr s, VStr t => String.eqb s t
  | _, _ =>
      match as_number a, as_number b with
      | Some (FFin x), Some (FFin y) => Qeq_bool x y
      | Some FNegInf, Some FNegInf | Some FPosInf, Some FPosInf => true
      | _, _ => false
      end
  end.

Fixpoint set_first_from (seen xs : list pyval) : list pyval :=
  match xs with
  | [] => []
  | x :: xs' =>
      if existsb (py_eqb x) seen then set_first_from seen xs'
      else x :: set_first_from (x :: seen) xs'
  end.

Definition set_first (xs : list pyval) : list pyval := set_first_from [] xs.

(** ** What the specification says, as propositions *)

(** A positive number: an int, bool or float whose value exceeds zero. *)
Definition positive_value (v : pyval) : Prop :=
  exists x, as_number v = Some x /\ flt_lt (of_Z 0) x.

(** Some source of the priority list reports the positive number [v] for
    [field]. *)
Definition reports_positive (data_sources : gmap string (gmap string pyval))
  (field : string) (v : pyval) : Prop :=
  exists source, source ∈ source_priority /\
    reported data_sources source field = Some v /\ positive_value v.

(** [a <= b] as numbers. *)
Definition value_le (a b : pyval) : Prop :=
  exists x y, as_number a = Some x /\ as_number b = Some y /\ flt_le x y.

Definition numeric_fields : list string :=
  ["funding_raised"; "valuation"; "employees"; "revenue"].

(** The fields the merge engine can set, and the three derived ones. *)
Definition base_fields : list string :=
  ["name"; "funding_raised"; "valuation"; "employees"; "revenue"; "founders";
   "investors"; "ceo"; "founded_year"; "description"; "website"; "location";
   "funding_rounds"].

Definition derived_fields : list string := ["company_age"; "funding_stage"; "employee_size"].

Definition record_fields : list string := base_fields ++ derived_fields.

Definition name_fields : list string := ["founders"; "investors"].

(** The funding-stage buckets, low bound included, high bound excluded. *)
Definition stage_bucket (x : pyfloat) (stage : string) : Prop :=
  (flt_lt x (of_Z 1000000) /\ stage = "Pre-Seed") \/
  (flt_le (of_Z 1000000) x /\ flt_lt x (of_Z 5000000) /\ stage = "Seed") \/
  (flt_le (of_Z 5000000) x /\ flt_lt x (of_Z 20000000) /\ stage = "Series A") \/
  (flt_le (of_Z 20000000) x /\ flt_lt x (of_Z 50000000) /\ stage = "Series B") \/
  (flt_le (of_Z 50000000) x /\ flt_lt x (of_Z 100000000) /\ stage = "Series C+") \/
  (flt_le (of_Z 100000000) x /\ stage = "Late Stage").

(** The deduplication keys of the mappings in a list of rounds. *)
Definition round_keys (py_str : pyval -> result string) (l : list pyval) : list string :=
  omap (fun r => match r with
                 | VDict d => match round_key py_str d with
                              | Ok key => Some key
                              | Raise _ => None
                              end
                 | _ => None
                 end) l.

(** Exactly one entry of [l] has the key [key]. *)
Definition exactly_one_with_key (py_str : pyval -> result string) (l : list pyval)
  (key : string)
  : Prop :=
  exists i, round_keys py_str l !! i = Some key /\
            forall j, round_keys py_str l !! j = Some key -> j = i.

(** A progress callback that returns normally whenever it is called (or no
    callback at all). *)
Definition callback_returns (progress_callback : option (string -> Q -> option string))
  : Prop :=
  forall f message fraction, progress_callback = Some f -> f message fraction = None.

(** A collector outcome that the loop records as an error: an exception, an
    empty mapping, or a mapping with an ["error"] key (an error SourceResult). *)
Definition fails (o : outcome) : Prop :=
  match o with
  | Returns data => data = ∅ \/ is_Some (data !! "error")
  | Throws _ => True
  end.

(** ** Scenarios used as examples *)

(** Two sources disagree on the funding; one also reports a market cap. *)
Definition scenario_max : gmap string (gmap string pyval) :=
  {[ "crunchbase" := {[ "funding_raised" := VInt 2000000 ]};
     "linkedin" := {[ "funding_raised" := VInt 6000000; "employees" := VInt 40;
                      "market_cap" := VFloat (FFin 9000000) ]} ]}.

Definition scenario_max_merged : gmap string pyval :=
  {[ "name" := VStr "Acme"; "funding_raised" := VInt 6000000; "employees" := VInt 40;
     "funding_stage" := VStr "Series A"; "employee_size" := VStr "Small (10-49)" ]}.

(** One source failed, another one reports data. *)
Definition scenario_error : gmap string (gmap string pyval) :=
  {[ "crunchbase" := error_record (VStr "No Crunchbase page found for this company");
     "web_search" := {[ "name" := VStr "Acme"; "funding_raised" := VFloat (FFin 5000000);
                        "founded_year" := VInt 2015 ]} ]}.

Definition scenario_error_merged : gmap string pyval :=
  {[ "name" := VStr "Acme"; "funding_raised" := VFloat (FFin 5000000);
     "founded_year" := VInt 2015; "company_age" := VInt 9;
     "funding_stage" := VStr "Series A" ]}.

(** Funding of exactly five million, as an int. *)
Definition scenario_boundary : gmap string (gmap string pyval) :=
  {[ "linkedin" := {[ "funding_raised" := VInt 5000000 ]} ]}.

Definition scenario_boundary_merged : gmap string pyval :=
  {[ "name" := VStr "Acme"; "funding_raised" := VInt 5000000;
     "funding_stage" := VStr "Series A" ]}.

(** Descriptions of different lengths; the first source has none. *)
Definition scenario_description : gmap string (gmap string pyval) :=
  {[ "crunchbase" := {[ "ceo" := VStr " Ada Lovelace " ]};
     "linkedin" := {[ "description" := VStr "short" ]};
     "web_search" := {[ "description" := VStr "a much longer description of the company" ]} ]}.

Definition seed_round : pyval :=
  VDict {[ "amount" := VInt 5000000; "type" := VStr "Seed" ]}.

(** Two sources report the same round. *)
Definition scenario_rounds : gmap string (gmap string pyval) :=
  {[ "crunchbase" := {[ "funding_rounds" := VList [seed_round] ]};
     "web_search" := {[ "funding_rounds" := VList [seed_round] ]} ]}.

Definition scenario_rounds_merged : gmap string pyval :=
  {[ "name" := VStr "Acme"; "funding_rounds" := VList [seed_round] ]}.

(** A round that has a date only. *)
Definition dated_round : pyval := VDict {[ "date" := VStr "2021-03-01" ]}.

Definition scenario_bare_round : gmap string (gmap string pyval) :=
  {[ "crunchbase" := {[ "funding_rounds" := VList [dated_round] ]} ]}.

(** The least int with more digits than the limit: a one and 4300 zeros. *)
Definition over_limit : Z := 10 ^ Z.of_nat int_max_str_digits.

(** One source reports one round, which has an amount only. *)
Definition round_only (amount : pyval) : gmap string (gmap string pyval) :=
  {[ "crunchbase" := {[ "funding_rounds" := VList [VDict {[ "amount" := amount ]}] ]} ]}.

(** A round whose amount is an int of 4301 digits. *)
Definition scenario_huge_amount : gmap string (gmap string pyval) :=
  round_only (VInt over_limit).

(** Founders with an empty and a blank name among them. *)
Definition scenario_names : gmap string (gmap string pyval) :=
  {[ "linkedin" := {[ "founders" := VList [VStr ""; VStr "   "; VStr "Ada Lovelace"] ]} ]}.

Definition scenario_names_merged : gmap string pyval :=
  {[ "name" := VStr "Acme"; "founders" := VList [VStr "   "; VStr "Ada Lovelace"] ]}.

(** A collector that always finds something, and one that never does. *)
Definition found_scraper : Scraper :=
  {| scrape_company_data := fun company_name => Returns {[ "name" := VStr company_name ]};
     search_company_data := fun company_name => Returns {[ "name" := VStr company_name ]} |}.

Definition failing_scraper : Scraper :=
  {| scrape_company_data := fun _ => Returns (error_record (VStr "No page found"));
     search_company_data := fun _ => Throws "connection refused" |}.

Definition found_aggregator : CompanyDataAggregator :=
  CompanyDataAggregator_init found_scraper found_scraper found_scraper found_scraper.

Definition failing_aggregator : CompanyDataAggregator :=
  CompanyDataAggregator_init failing_scraper failing_scraper failing_scraper failing_scraper.

(** A number that is not NaN. *)
Definition ordered (x : pyfloat) : Prop := x <> FNaN.

(** What a derived field holds, given the field it is computed from. *)
Definition derived_value (source : option pyval) (f : pyval -> result pyval) : option pyval :=
  match source with
  | Some v => if py_truthy v then match f v with Ok d => Some d | Raise _ => None end else None
  | None => None
  end.

(** The invariant of the deduplication loop: the rounds kept are mappings
    with distinct keys, and [seen_rounds] holds exactly their keys. *)
Definition dedup_inv (py_str : pyval -> result string) (acc : list pyval * gset string)
  : Prop :=
  Forall (fun r => exists d, r = VDict d) acc.1 /\
  NoDup (round_keys py_str acc.1) /\
  forall k, k ∈ acc.2 <-> k ∈ round_keys py_str acc.1.

(** The aggregator loop has recorded nothing but errors so far. *)
Definition only_errors (st : run_state) : Prop :=
  successful_sources st = 0%Z /\
  forall source r, all_data st !! source = Some r -> exists e, r = error_record e.

(** Every character of [s] satisfies [p]. *)
Fixpoint all_chars (p : ascii -> bool) (s : string) : bool :=
  match s with
  | String c s' => p c && all_chars p s'
  | EmptyString => true
  end.

(** ** The other parsers, the retry loop and the search collectors *)

(** Some source of the priority list reports a text for [field] whose
    stripped form [t] is not empty. *)
Definition reports_text (data_sources : gmap string (gmap string pyval))
  (field : string) (t : string) : Prop :=
  exists source s, source ∈ source_priority /\
    reported data_sources source field = Some (VStr s) /\ t = py_strip s /\ t <> "".

(** The test a first-valid field applies to a reported value. *)
Definition first_valid_fields : list (string * (pyval -> option pyval)) :=
  [("ceo", stripped_text); ("founded_year", valid_year); ("website", valid_website);
   ("location", stripped_text)].

(** [v] is what the first source of the priority list with a valid value for
    [field] gives. *)
Definition first_by_priority (data_sources : gmap string (gmap string pyval))
  (field : string) (keep : pyval -> option pyval) (v : pyval) : Prop :=
  exists i source, source_priority !! i = Some source /\
    reported data_sources source field ≫= keep = Some v /\
    forall j earlier, j < i -> source_priority !! j = Some earlier ->
      reported data_sources earlier field ≫= keep = None.

(** The employee-size buckets, low bound included, high bound excluded. *)
Definition size_bucket (x : pyfloat) (size : string) : Prop :=
  (flt_lt x (of_Z 10) /\ size = "Startup (1-9)") \/
  (flt_le (of_Z 10) x /\ flt_lt x (of_Z 50) /\ size = "Small (10-49)") \/
  (flt_le (of_Z 50) x /\ flt_lt x (of_Z 200) /\ size = "Medium (50-199)") \/
  (flt_le (of_Z 200) x /\ flt_lt x (of_Z 1000) /\ size = "Large (200-999)") \/
  (flt_le (of_Z 1000) x /\ size = "Enterprise (1000+)").

(** A truthy item of the founders or investors lists that [set] cannot hash. *)
Definition unhashable_name (data_sources : gmap string (gmap string pyval)) : Prop :=
  exists field x, field ∈ name_fields /\ x ∈ all_items data_sources field /\
    py_truthy x = true /\ ((exists l, x = VList l) \/ (exists d, x = VDict d)).

(** A mapping among the funding rounds of the sources whose key the f-string
    cannot format. *)
Definition unprintable_round (py_str : pyval -> result string)
  (data_sources : gmap string (gmap string pyval)) : Prop :=
  exists d e, VDict d ∈ all_items data_sources "funding_rounds" /\
    round_key py_str d = Raise e.

(** The collector registered as [item] succeeds for [company_name]: it returns
    a non-empty mapping without an ["error"] key. *)
Definition succeeds (company_name : string) (item : string * Scraper) : bool :=
  match dispatch item.1 item.2 company_name with
  | Returns data =>
      negb (bool_decide (data = ∅)) && negb (bool_decide (is_Some (data !! "error")))
  | Throws _ => false
  end.

(** The progress reports of a trace, in order. *)
Definition progress_reports (t : list event) : list (string * Q) :=
  omap (fun e => match e with
                 | Progress message fraction => Some (message, fraction)
                 | _ => None
                 end) t.

(** A progress callback that raises whenever it is called. *)
Definition callback_raises (progress_callback : option (string -> Q -> option string))
  : Prop :=
  exists f, progress_callback = Some f /\ forall message fraction, is_Some (f message fraction).

(** Every character of the class [p] is [c]. *)
Definition class_only (p : ascii -> bool) (c : ascii) : bool :=
  forallb (fun n => let x := ascii_of_nat n in implb (p x) (Ascii.eqb x c)) (seq 0 256).

(** Every text the pattern matches holds the character [c]. *)
Fixpoint requires_char (c : ascii) (r : regex) : bool :=
  match r with
  | Eps => false
  | Chr p => class_only p c
  | Cat r1 r2 => requires_char c r1 || requires_char c r2
  | Alt r1 r2 => requires_char c r1 && requires_char c r2
  | Star _ => false
  end.

(** The three patterns of [_extract_funding_amounts] in [web_search_scraper.py]:
    those of [simple_web_scraper.py] without the valuation pattern. *)
Definition web_funding_patterns : list regex :=
  [ amount_re;
    Cat (word_i "raised") (Cat (plus is_py_space) amount_re);
    Cat (word_i "funding")
      (Cat (plus is_py_space) (Cat (word_i "of") (Cat (plus is_py_space) amount_re))) ].

(** [WebSearchScraper._extract_funding_amounts(text)] *)
Definition web_extract_funding_amounts (text : string) : result (list Q) :=
  extract_with web_funding_patterns [] text.

(** [revenue\s+(?:of\s+)?] and the like: an optional word followed by blanks. *)
Definition opt_word (w : string) : regex := opt (Cat (word_i w) (plus is_py_space)).

(** The two patterns of [_extract_revenue]. *)
Definition revenue_patterns : list regex :=
  [ Cat (word_i "revenue") (Cat (plus is_py_space) (Cat (opt_word "of") amount_re));
    Cat (word_i "annual")
      (Cat (plus is_py_space) (Cat (word_i "revenue") (Cat (plus is_py_space) amount_re))) ].

(** The two patterns of [_extract_market_cap]. *)
Definition market_cap_patterns : list regex :=
  [ Cat (word_i "market")
      (Cat (plus is_py_space)
         (Cat (word_i "cap")
            (Cat (opt (word_i "italization"))
               (Cat (plus is_py_space) (Cat (opt_word "of") amount_re)))));
    Cat (word_i "valued")
      (Cat (plus is_py_space) (Cat (word_i "at") (Cat (plus is_py_space) amount_re))) ].

(** The loop shared by [_extract_revenue] and [_extract_market_cap]: the first
    pattern that is found decides, whatever the parser then answers. *)
Fixpoint extract_first (patterns : list regex) (text : string) : result (option Q) :=
  match patterns with
  | [] => Ok None
  | pattern :: rest =>
      match re_search pattern text with
      | Some found => parse_funding_amount found
      | None => extract_first rest text
      end
  end.

(** [_extract_revenue(text)] *)
Definition _extract_revenue (text : string) : result (option Q) :=
  extract_first revenue_patterns text.

(** [_extract_market_cap(text)] *)
Definition _extract_market_cap (text : string) : result (option Q) :=
  extract_first market_cap_patterns text.

(** [int(s)] on the texts that reach it here, which hold decimal digits only. *)
Definition py_int (s : string) : result Z :=
  match s, digits_value 0 s with
  | String _ _, Some n =>
      if int_max_str_digits <? String.length s
      then Raise (ValueError
                    ("Exceeds the limit (4300 digits) for integer string conversion: value has "
                     +:+ NilZero.string_of_uint (Nat.to_uint (String.length s))
                     +:+ " digits; use sys.set_int_max_str_digits() to increase the limit"))
      else Ok (Z.of_N n)
  | _, _ => Raise (ValueError ("invalid literal for int() with base 10: '" +:+ s +:+ "'"))
  end.

(** [parse_employee_count(text)] of [selenium_scraper.py]: the first run of
    digits of the text without its commas. *)
Definition parse_employee_count (text : string) : result (option Z) :=
  if String.eqb text "" then Ok None
  else
    match re_findall (plus is_digit) (keep_chars (fun c => negb (Ascii.eqb c ",")) text) with
    | first :: _ => n ← py_int first; Ok (Some n)
    | [] => Ok None
    end.

(** [\w], among ASCII. *)
Definition is_word_char (c : ascii) : bool :=
  let n := nat_of_ascii c in
  is_digit c || ((65 <=? n) && (n <=? 90)) || ((97 <=? n) && (n <=? 122)) || Ascii.eqb c "_".

(** What [\b] asks of what follows a match that ends in a word character. *)
Definition at_word_end (rest : string) : option string :=
  match rest with
  | String c _ => if is_word_char c then None else Some rest
  | EmptyString => Some rest
  end.

(** [re.search(r'\b...\b', s)] for a pattern whose matches begin and end with
    a word character: a match may start only where the character before is
    not a word character ([prev_word] tells whether it is), and must end where
    the character after is not one. *)
Fixpoint search_word (r : regex) (prev_word : bool) (s : string) : option string :=
  let here :=
    if prev_word then None
    else rest ← re_match r s at_word_end;
         Some (substring 0 (String.length s - String.length rest) s) in
  match here with
  | Some found => Some found
  | None =>
      match s with
      | String c s' => search_word r (is_word_char c) s'
      | EmptyString => None
      end
  end.

(** [(19|20)\d{2}] *)
Definition year_re : regex :=
  Cat (Alt (Cat (lit "1") (lit "9")) (Cat (lit "2") (lit "0")))
    (Cat (Chr is_digit) (Chr is_digit)).

(** [parse_year(text)] of [selenium_scraper.py] *)
Definition parse_year (text : string) : result (option Z) :=
  if String.eqb text "" then Ok None
  else
    match search_word year_re false text with
    | Some found => n ← py_int found; Ok (Some n)
    | None => Ok None
    end.

(** The longest prefix of [s] in the class [p], and what follows it. *)
Fixpoint take_chars (p : ascii -> bool) (s : string) : string :=
  match s with
  | String c s' => if p c then String c (take_chars p s') else EmptyString
  | EmptyString => EmptyString
  end.

Fixpoint drop_chars (p : ascii -> bool) (s : string) : string :=
  match s with
  | String c s' => if p c then drop_chars p s' else s
  | EmptyString => EmptyString
  end.

(** The f-string of the warning that follows a failed attempt: it formats
    the attempt's number and [max_retries], and either can raise. *)
Definition retry_warning (py_str : pyval -> result string) (attempt : nat)
  (max_retries : Z) (msg : string) : result string :=
  number ← py_str (VInt (Z.of_nat attempt + 1));
  total ← py_str (VInt max_retries);
  Ok ("Navigation failed (attempt " +:+ number +:+ "/" +:+ total +:+ "): " +:+ msg).

(** The loop of [navigate_with_retry]: [driver_get k] is what the [k]-th call
    of [self.driver.get(url)] does, [None] when it returns and [Some msg] when
    it raises.  The answer is the value returned, or what the warning raises
    from within the [except] branch, and the number of calls made. *)
Fixpoint retry_loop (py_str : pyval -> result string) (driver_get : nat -> option string)
  (max_retries : Z) (attempt remaining : nat) : result bool * nat :=
  match remaining with
  | O => (Ok false, attempt)
  | S remaining' =>
      match driver_get attempt with
      | None => (Ok true, S attempt)
      | Some msg =>
          match retry_warning py_str attempt max_retries msg with
          | Ok _ => retry_loop py_str driver_get max_retries (S attempt) remaining'
          | Raise e => (Raise e, S attempt)
          end
      end
  end.

(** [navigate_with_retry(url, max_retries)] of [selenium_scraper.py] *)
Definition navigate_with_retry (py_str : pyval -> result string)
  (driver_get : nat -> option string) (max_retries : Z) : result bool * nat :=
  retry_loop py_str driver_get max_retries 0 (Z.to_nat max_retries).

(** The numbers the warnings of [navigate_with_retry] may have to format. *)
Definition counts_format (py_str : pyval -> result string) (max_retries : Z) : Prop :=
  forall k, (0 < k <= max_retries)%Z -> exists s, py_str (VInt k) = Ok s.

(** A page that loads at the second attempt. *)
Definition loads_at_second (attempt : nat) : option string :=
  match attempt with
  | O => Some "timeout"
  | _ => None
  end.

(** [a > b] on hashable values: numbers compare by value and strings by
    their characters; other pairs raise. *)
Definition py_gt (a b : pyval) : result bool :=
  match as_number a, as_number b with
  | Some x, Some y => Ok (flt_ltb y x)
  | _, _ =>
      match a, b with
      | VStr s, VStr t => Ok (String.ltb t s)
      | _, _ => Raise (TypeError ("'>' not supported between instances of '"
                                  +:+ type_name a +:+ "' and '" +:+ type_name b +:+ "'"))
      end
  end.

(** [max(values)] on values of any kind: the comparison may raise. *)
Fixpoint max_from (m : pyval) (items : list pyval) : result pyval :=
  match items with
  | [] => Ok m
  | item :: rest => greater ← py_gt item m; max_from (if (greater : bool) then item else m) rest
  end.

Definition py_max_values (values : list pyval) : result pyval :=
  match values with
  | [] => Raise (ValueError "max() arg is an empty sequence")
  | v :: rest => max_from v rest
  end.

Definition financial_keys : list string := ["funding_raised"; "revenue"; "market_cap"].

(** One turn of the loop of [_clean_and_merge_data]. *)
Definition clean_entry (set_list : list pyval -> list pyval) (cleaned : gmap string pyval)
  (key : string) (values : pyval) : result (gmap string pyval) :=
  match values with
  | VList l =>
      unique_values ← py_list_set set_list (List.filter py_truthy l);
      match unique_values with
      | [] => Ok cleaned
      | _ =>
          if bool_decide (key ∈ financial_keys)
          then m ← py_max_values unique_values; Ok (<[key := m]> cleaned)
          else Ok (<[key := VList unique_values]> cleaned)
      end
  | _ => Ok (<[key := values]> cleaned)
  end.

Fixpoint clean_entries (set_list : list pyval -> list pyval) (cleaned : gmap string pyval)
  (items : list (string * pyval)) : result (gmap string pyval) :=
  match items with
  | [] => Ok cleaned
  | (key, values) :: rest =>
      cleaned ← clean_entry set_list cleaned key values;
      clean_entries set_list cleaned rest
  end.

(** [_clean_and_merge_data(all_data, company_name)] of [simple_web_scraper.py]
    and [web_search_scraper.py]; [all_data] is given by its items. *)
Definition _clean_and_merge_data (set_list : list pyval -> list pyval)
  (all_data : list (string * pyval)) (company_name : string) : result (gmap string pyval) :=
  clean_entries set_list {[ "name" := VStr company_name ]} all_data.

(** The values of [all_data] are lists, as [search_company_data] builds them. *)
Definition lists_only (all_data : list (string * pyval)) : Prop :=
  Forall (fun item => exists l, item.2 = VList l) all_data.

(** What is left of [s] after an optional dot and the digits that follow. *)
Definition number_rest (s : string) : string :=
  match s with
  | String "." s' => drop_chars is_digit s'
  | _ => drop_chars is_digit s
  end.

(** [search_company_data] of the two search collectors,
    [simple_web_scraper.py] and [web_search_scraper.py]. *)
Module WebSearch.

(** [all_data[key].extend(new)], after [if key not in all_data:
    all_data[key] = []]; [all_data] is given by its items, in insertion
    order. *)
Fixpoint extend_key (key : string) (new : list pyval)
  (all_data : list (string * list pyval)) : list (string * list pyval) :=
  match all_data with
  | [] => [(key, new)]
  | (k, l) :: rest =>
      if String.eqb k key then (k, l ++ new) :: rest else (k, l) :: extend_key key new rest
  end.

(** The loop over the items of one query's [extracted_data]. *)
Definition merge_extracted (all_data : list (string * list pyval))
  (extracted_data : list (string * pyval)) : list (string * list pyval) :=
  fold_left (fun all_data '(key, value) =>
               if py_truthy value
               then extend_key key (match value with VList l => l | _ => [value] end) all_data
               else all_data)
    extracted_data all_data.

(** [search_company_data(company_name)], given what the search and the
    extraction of each query yield: the items of [extracted_data], or [None]
    when they raise and the query is skipped. *)
Definition search_company_data (set_list : list pyval -> list pyval)
  (queries : list (option (list (string * pyval)))) (company_name : string)
  : result (gmap string pyval) :=
  let all_data :=
    fold_left (fun all_data query =>
                 match query with
                 | Some extracted_data => merge_extracted all_data extracted_data
                 | None => all_data
                 end) queries [] in
  _clean_and_merge_data set_list ((fun '(key, l) => (key, VList l)) <$> all_data) company_name.

End WebSearch.

(** What the aggregator stores for a search collector: an error record, or
    what [search_company_data] returned. *)
Definition search_record (set_list : list pyval -> list pyval) (r : gmap string pyval)
  : Prop :=
  (exists e, r = error_record e) \/
  (exists queries company_name,
     WebSearch.search_company_data set_list queries company_name = Ok r).

Definition search_sources : list string := ["web_search"; "simple_web"].
Definition page_sources : list string := ["crunchbase"; "linkedin"].

(** ** More scenarios *)

(** A fuller profile: the website, the year and the CEO of the first source
    are not valid, and its description is the shorter one. *)
Definition scenario_profile : gmap string (gmap string pyval) :=
  {[ "crunchbase" := {[ "name" := VStr "ACME Corporation"; "employees" := VInt 12;
                        "website" := VStr "www.acme.example"; "founded_year" := VInt 1850;
                        "ceo" := VStr "  "; "description" := VStr "Anvils." ]};
     "linkedin" := {[ "employees" := VInt 40; "website" := VStr "https://acme.example  ";
                      "founded_year" := VInt 2015; "ceo" := VStr " Ada Lovelace ";
                      "description" := VStr "  Maker of anvils and rockets  " ]} ]}.

Definition scenario_profile_merged : gmap string pyval :=
  {[ "name" := VStr "Acme"; "employees" := VInt 40; "ceo" := VStr "Ada Lovelace";
     "founded_year" := VInt 2015; "description" := VStr "Maker of anvils and rockets";
     "website" := VStr "https://acme.example"; "company_age" := VInt 9;
     "employee_size" := VStr "Small (10-49)" ]}.

(** Two collectors find the company and two fail. *)
Definition mixed_aggregator : CompanyDataAggregator :=
  CompanyDataAggregator_init found_scraper failing_scraper found_scraper failing_scraper.

Definition mixed_record : gmap string pyval :=
  {[ "name" := VStr "Acme";
     "metadata" := VDict {[ "successful_sources" := VInt 2; "total_sources" := VInt 4;
                            "scraped_sources" :=
                              VList [VStr "crunchbase"; VStr "linkedin"; VStr "web_search";
                                     VStr "simple_web"];
                            "timestamp" := VFloat (FFin 1730000000) ]} ]}.

(** A progress callback whose widget is gone. *)
Definition closed_progress_bar : option (string -> Q -> option string) :=
  Some (fun _ _ => Some "progress bar closed").

(** What four queries of a search collector yield; the third one raised. *)
Definition search_queries : list (option (list (string * pyval))) :=
  [ Some [("funding_raised", VFloat (FFin 5000000));
          ("investors", VList [VStr "Initech Ventures"])];
    Some [("ceo", VStr "Ada Lovelace"); ("employees", VInt 250)];
    None;
    Some [("funding_raised", VFloat (FFin 7500000))] ].

Definition search_cleaned : gmap string pyval :=
  {[ "name" := VStr "Acme"; "funding_raised" := VFloat (FFin 7500000);
     "investors" := VList [VStr "Initech Ventures"]; "ceo" := VList [VStr "Ada Lovelace"];
     "employees" := VList [VInt 250] ]}.

(** A page collector and the two search collectors, one of which failed. *)
Definition scenario_search : gmap string (gmap string pyval) :=
  {[ "linkedin" := {[ "employees" := VInt 40 ]};
     "web_search" := search_cleaned;
     "simple_web" := error_record (VStr "connection refused") ]}.

Definition scenario_search_merged : gmap string pyval :=
  {[ "name" := VStr "Acme"; "funding_raised" := VFloat (FFin 7500000);
     "employees" := VInt 40; "investors" := VList [VStr "Initech Ventures"];
     "funding_stage" := VStr "Series A"; "employee_size" := VStr "Small (10-49)" ]}.

(** The amounts a search collector gathered over its queries. *)
Definition gathered_amounts : list pyval :=
  [VFloat (FFin 5000000); VFloat (FFin 7500000); VFloat (FFin 5000000)].

Definition gathered_data : list (string * pyval) :=
  [("funding_raised", VList gathered_amounts);
   ("investors", VList [VStr "Initech Ventures"])].

Definition gathered_cleaned : gmap string pyval :=
  {[ "name" := VStr "Acme"; "funding_raised" := VFloat (FFin 7500000);
     "investors" := VList [VStr "Initech Ventures"] ]}.

(** Outside the name and the financial keys, a cleaned record holds lists. *)
Definition lists_elsewhere (cleaned : gmap string pyval) : Prop :=
  forall key v, key ∉ financial_keys -> key <> "name" -> cleaned !! key = Some v ->
    exists l, v = VList l.

(** A float with a value: neither NaN nor an infinity. *)
Definition finite_float (v : pyval) : Prop := exists q, v = VFloat (FFin q).

(** A closed equation, checked by evaluating its left-hand side. *)
Ltac by_vm :=
  lazymatch goal with |- _ = ?rhs => vm_cast_no_check (@eq_refl _ rhs) end.

(** [k ∉ [k1; ...; kn]] for literal strings. *)
Ltac not_in_list :=
  let H := fresh in
  intros H; repeat (apply elem_of_cons in H as [H|H]; [discriminate H|]);
  by apply elem_of_nil in H.

(** * Properties *)

(** ** Numbers and their order *)

Lemma Qlt_bool_iff a b : Qlt_bool a b = true <-> (a < b)%Q.
Proof.
  unfold Qlt_bool. rewrite negb_true_iff. split.
  - intros H. apply Qnot_le_lt. intros Hle. apply Qle_bool_iff in Hle. congruence.
  - intros H. destruct (Qle_bool b a) eqn:E; [|done].
    apply Qle_bool_iff in E. exfalso. by apply (Qlt_not_le a b).
Qed.

Lemma flt_ltb_lt x y : flt_ltb x y = true <-> flt_lt x y.
Proof.
  destruct x, y; simpl; try apply Qlt_bool_iff; split; (done || intros []).
Qed.

Lemma flt_le_refl x : ordered x -> flt_le x x.
Proof. destruct x; simpl; try done. intros _. apply Qle_refl. Qed.

Lemma flt_le_trans x y z : flt_le x y -> flt_le y z -> flt_le x z.
Proof. destruct x, y, z; simpl; try done. apply Qle_trans. Qed.

Lemma flt_lt_le x y : flt_lt x y -> flt_le x y.
Proof. destruct x, y; simpl; try done. apply Qlt_le_weak. Qed.

Lemma flt_not_ltb_le x y : ordered x -> ordered y -> flt_ltb x y = false -> flt_le y x.
Proof.
  destruct x, y; simpl; try done.
  intros _ _ H. unfold Qlt_bool in H. apply negb_false_iff, Qle_bool_iff in H. done.
Qed.

(** [max] returns an item of the list that no other item exceeds, for any
    comparison that is a total preorder on the items. *)
Section PyMax.
Context {A : Type} (gt : A -> A -> bool) (le : A -> A -> Prop) (P : A -> Prop).
Hypothesis le_refl : forall a, P a -> le a a.
Hypothesis le_trans : forall a b c, le a b -> le b c -> le a c.
Hypothesis gt_le : forall a b, P a -> P b -> gt a b = true -> le b a.
Hypothesis not_gt_le : forall a b, P a -> P b -> gt a b = false -> le a b.

Lemma fold_max_spec rest : forall v, P v -> Forall P rest ->
  let r := fold_left (fun m item => if gt item m then item else m) rest v in
  r ∈ v :: rest /\ P r /\ forall w, w ∈ v :: rest -> le w r.
Proof.
  induction rest as [|x rest IH]; intros v Hv Hrest; simpl.
  - split; [apply list_elem_of_here|]. split; [done|]. intros w Hw.
    apply list_elem_of_singleton in Hw as ->. by apply le_refl.
  - apply Forall_cons in Hrest as [Hx Hrest].
    destruct (gt x v) eqn:E.
    + destruct (IH x Hx Hrest) as (Hin & HP & Hmax).
      split; [by apply list_elem_of_further|]. split; [done|]. intros w Hw.
      apply elem_of_cons in Hw as [->|Hw]; [|by apply Hmax].
      apply (le_trans _ x); [by apply gt_le|]. apply Hmax, list_elem_of_here.
    + destruct (IH v Hv Hrest) as (Hin & HP & Hmax).
      split.
      { apply elem_of_cons in Hin as [->|Hin]; [apply list_elem_of_here|].
        by do 2 apply list_elem_of_further. }
      split; [done|]. intros w Hw.
      apply elem_of_cons in Hw as [->|Hw]; [apply Hmax, list_elem_of_here|].
      apply elem_of_cons in Hw as [->|Hw]; [|by apply Hmax, list_elem_of_further].
      apply (le_trans _ v); [by apply not_gt_le|]. apply Hmax, list_elem_of_here.
Qed.

Lemma py_max_spec values : Forall P values ->
  match py_max gt values with
  | Some r => r ∈ values /\ forall w, w ∈ values -> le w r
  | None => values = []
  end.
Proof.
  destruct values as [|v rest]; [done|]. intros H. simpl.
  apply Forall_cons in H as [Hv Hrest].
  destruct (fold_max_spec rest v Hv Hrest) as (? & ? & ?). done.
Qed.
End PyMax.

Lemma is_positive_number_spec v : is_positive_number v = true <-> positive_value v.
Proof.
  unfold is_positive_number, positive_value. split.
  - intros [Ht H]%andb_true_iff. destruct (as_number v) as [x|]; [|done].
    exists x. split; [done|]. by apply flt_ltb_lt.
  - intros (x & Hx & Hlt). rewrite Hx. apply flt_ltb_lt in Hlt as Hltb. rewrite Hltb, andb_true_r.
    destruct v as [|b|z|f| | |]; simplify_eq/=.
    + destruct b; [done|]. by apply Qlt_irrefl in Hlt.
    + unfold Qlt in Hlt. simpl in Hlt. apply negb_true_iff, Z.eqb_neq. lia.
    + destruct x; try done. apply negb_true_iff. destruct (Qeq_bool q 0) eqn:E; [|done].
      apply Qeq_bool_iff in E. rewrite E in Hlt. by apply Qlt_irrefl in Hlt.
Qed.

Lemma positive_ordered v : positive_value v -> exists x, as_number v = Some x /\ ordered x.
Proof. intros (x & Hx & Hlt). exists x. split; [done|]. intros ->. by destruct (of_Z 0). Qed.

(** ** The error monad and the record under construction *)

Lemma bind_Ok {A B} (r : result A) (k : A -> result B) b :
  r ≫= k = Ok b <-> exists a, r = Ok a /\ k a = Ok b.
Proof.
  destruct r as [a|e]; simpl; split.
  - intros H. by exists a.
  - by intros (? & [= ->] & ?).
  - done.
  - by intros (? & ? & ?).
Qed.

Lemma lookup_set_opt_ne key value (merged : gmap string pyval) k :
  key <> k -> set_opt key value merged !! k = merged !! k.
Proof. intros H. destruct value; simpl; [by rewrite lookup_insert_ne|done]. Qed.

Lemma lookup_set_opt_eq key value (merged : gmap string pyval) :
  merged !! key = None -> set_opt key value merged !! key = value.
Proof. intros H. destruct value; simpl; [by rewrite lookup_insert_eq|done]. Qed.

Lemma set_opt_is_Some key value (merged : gmap string pyval) k :
  is_Some (set_opt key value merged !! k) -> k = key \/ is_Some (merged !! k).
Proof.
  destruct value as [v|]; simpl; [|by right].
  destruct (decide (key = k)) as [->|Hne]; [by left|]. rewrite lookup_insert_ne by done. by right.
Qed.

Lemma derive_lookup_ne key target f (data data' : gmap string pyval) k :
  derive key target f data = Ok data' -> target <> k -> data' !! k = data !! k.
Proof.
  unfold derive. intros H Hne.
  destruct (data !! key) as [v|]; [|by simplify_eq].
  destruct (py_truthy v); [|by simplify_eq].
  apply bind_Ok in H as (d & _ & [= <-]). by rewrite lookup_insert_ne.
Qed.

Lemma derive_lookup_target key target f (data data' : gmap string pyval) :
  derive key target f data = Ok data' -> data !! target = None ->
  data' !! target =
    match data !! key with
    | Some v => if py_truthy v then
                  match f v with Ok d => Some d | Raise _ => None end
                else None
    | None => None
    end.
Proof.
  unfold derive. intros H Hnone.
  destruct (data !! key) as [v|]; [|by simplify_eq].
  destruct (py_truthy v); [|by simplify_eq].
  apply bind_Ok in H as (d & -> & [= <-]). by rewrite lookup_insert_eq.
Qed.

Lemma derive_is_Some key target f (data data' : gmap string pyval) k :
  derive key target f data = Ok data' -> is_Some (data' !! k) ->
  k = target \/ is_Some (data !! k).
Proof.
  intros H Hk. destruct (decide (target = k)) as [->|Hne]; [by left|].
  right. by rewrite <- (derive_lookup_ne _ _ _ _ _ _ H Hne).
Qed.

Lemma derive_total key target f (data : gmap string pyval) :
  (forall v, data !! key = Some v -> py_truthy v = true -> exists d, f v = Ok d) ->
  exists data', derive key target f data = Ok data'.
Proof.
  intros H. unfold derive. destruct (data !! key) as [v|]; [|by eexists].
  destruct (py_truthy v) eqn:Hv; [|by eexists].
  destruct (H v eq_refl Hv) as [d ->]. by eexists.
Qed.

(** ** The loop over the sources *)

Lemma elem_of_collect {A} ds field (keep : pyval -> option A) (a : A) :
  a ∈ collect ds field keep <->
  exists source v, source ∈ source_priority /\ reported ds source field = Some v /\ keep v = Some a.
Proof.
  unfold collect. rewrite list_elem_of_omap. split.
  - intros (source & Hs & H). destruct (reported ds source field) as [v|] eqn:E; [|done].
    exists source, v. done.
  - intros (source & v & Hs & Hr & Hk). exists source. split; [done|]. by rewrite Hr.
Qed.

Lemma collect_ext {A} ds ds' field (keep : pyval -> option A) :
  (forall source, reported ds source field = reported ds' source field) ->
  collect ds field keep = collect ds' field keep.
Proof.
  intros H. unfold collect. induction source_priority as [|source l IH]; [done|].
  csimpl. by rewrite H, IH.
Qed.

Lemma first_valid_elem ds field keep v :
  first_valid ds field keep = Some v ->
  exists source w, source ∈ source_priority /\ reported ds source field = Some w /\
                   keep w = Some v.
Proof.
  unfold first_valid. intros H. apply elem_of_collect.
  destruct (collect ds field keep) as [|x l]; simplify_eq/=. apply list_elem_of_here.
Qed.

Lemma valid_year_spec w v : valid_year w = Some v -> exists z, v = VInt z /\ (1900 < z)%Z.
Proof.
  unfold valid_year. destruct w as [|b|z| | | |]; simpl; try done.
  - destruct b; simpl; done.
  - destruct (negb (z =? 0)%Z && (1900 <? z)%Z) eqn:E; [|done].
    intros [= <-]. exists z. split; [done|]. apply andb_true_iff in E as [_ E]. lia.
Qed.

Lemma numeric_values_spec ds field v :
  v ∈ numeric_values ds field <-> reports_positive ds field v.
Proof.
  unfold numeric_values, reports_positive. rewrite elem_of_collect. split.
  - intros (source & w & Hs & Hr & Hk). unfold keep_if in Hk.
    destruct (is_positive_number w) eqn:E; [|done]. simplify_eq.
    exists source. by rewrite <- is_positive_number_spec.
  - intros (source & Hs & Hr & Hp). exists source, v. unfold keep_if.
    apply is_positive_number_spec in Hp. by rewrite Hp.
Qed.

Lemma merge_numeric_spec ds field :
  match merge_numeric ds field with
  | Some v => reports_positive ds field v /\
              forall w, reports_positive ds field w -> value_le w v
  | None => forall w, ~ reports_positive ds field w
  end.
Proof.
  unfold merge_numeric.
  pose proof (py_max_spec num_gt value_le
                (fun v => exists x, as_number v = Some x /\ ordered x)) as Hmax.
  specialize (Hmax ltac:(intros a (x & Hx & Ho); exists x, x; eauto using flt_le_refl)).
  specialize (Hmax ltac:(intros a b c (x & y & Hx & Hy & Hxy) (y' & z & Hy' & Hz & Hyz);
                         simplify_eq; exists x, z; eauto using flt_le_trans)).
  specialize (Hmax ltac:(intros a b (x & Hx & Ho) (y & Hy & Ho') Hgt; unfold num_gt in Hgt;
                         rewrite Hx, Hy in Hgt; exists y, x;
                         split_and!; [done..|]; by apply flt_lt_le, flt_ltb_lt)).
  specialize (Hmax ltac:(intros a b (x & Hx & Ho) (y & Hy & Ho') Hgt; unfold num_gt in Hgt;
                         rewrite Hx, Hy in Hgt; exists x, y;
                         split_and!; [done..|]; by apply flt_not_ltb_le)).
  specialize (Hmax (numeric_values ds field)).
  destruct (py_max num_gt (numeric_values ds field)) as [v|].
  - destruct Hmax as [Hin Hle].
    { apply Forall_forall. intros w (? & ? & ? & ?)%numeric_values_spec.
      by apply positive_ordered. }
    split; [by apply numeric_values_spec|].
    intros w Hw. by apply Hle, numeric_values_spec.
  - intros w Hw. apply numeric_values_spec in Hw. rewrite Hmax in Hw; [by apply elem_of_nil in Hw|].
    apply Forall_forall. intros w' (? & ? & ? & ?)%numeric_values_spec.
    by apply positive_ordered.
Qed.

Lemma merge_numeric_number ds field v :
  merge_numeric ds field = Some v -> exists x, as_number v = Some x /\ flt_lt (of_Z 0) x.
Proof.
  intros H. pose proof (merge_numeric_spec ds field) as Hs. rewrite H in Hs.
  destruct Hs as [(source & _ & _ & Hp) _]. exact Hp.
Qed.

(** ** Derived metrics *)

Lemma derived_metrics_lookup_ne (data m : gmap string pyval) k :
  _calculate_derived_metrics data = Ok m -> k ∉ derived_fields -> m !! k = data !! k.
Proof.
  unfold _calculate_derived_metrics. intros H Hk.
  apply bind_Ok in H as (d1 & H1 & H). apply bind_Ok in H as (d2 & H2 & H3).
  rewrite (derive_lookup_ne _ _ _ _ _ k H3), (derive_lookup_ne _ _ _ _ _ k H2),
    (derive_lookup_ne _ _ _ _ _ k H1); [done|..]; intros <-; apply Hk;
    unfold derived_fields; repeat constructor.
Qed.

Lemma derived_metrics_keys (data m : gmap string pyval) k :
  _calculate_derived_metrics data = Ok m -> is_Some (m !! k) ->
  k ∈ derived_fields \/ is_Some (data !! k).
Proof.
  unfold _calculate_derived_metrics, derived_fields. intros H Hk.
  apply bind_Ok in H as (d1 & H1 & H). apply bind_Ok in H as (d2 & H2 & H3).
  apply (derive_is_Some _ _ _ _ _ _ H3) in Hk as [->|Hk]; [left; by repeat constructor|].
  apply (derive_is_Some _ _ _ _ _ _ H2) in Hk as [->|Hk]; [left; by repeat constructor|].
  apply (derive_is_Some _ _ _ _ _ _ H1) in Hk as [->|Hk]; [left; by repeat constructor|].
  by right.
Qed.

Lemma derived_metrics_spec (data m : gmap string pyval) :
  _calculate_derived_metrics data = Ok m ->
  (forall k, k ∈ derived_fields -> data !! k = None) ->
  m !! "company_age" = derived_value (data !! "founded_year") (py_int_minus current_year) /\
  m !! "funding_stage" =
    derived_value (data !! "funding_raised") (fun v => s ← funding_stage v; Ok (VStr s)) /\
  m !! "employee_size" =
    derived_value (data !! "employees") (fun v => s ← employee_size v; Ok (VStr s)).
Proof.
  unfold _calculate_derived_metrics, derived_fields. intros H Hnone.
  apply bind_Ok in H as (d1 & H1 & H). apply bind_Ok in H as (d2 & H2 & H3).
  assert (data !! "company_age" = None) as Ha by (apply Hnone; repeat constructor).
  assert (data !! "funding_stage" = None) as Hs by (apply Hnone; repeat constructor).
  assert (data !! "employee_size" = None) as He by (apply Hnone; repeat constructor).
  split_and!.
  - rewrite (derive_lookup_ne _ _ _ _ _ _ H3), (derive_lookup_ne _ _ _ _ _ _ H2) by done.
    by rewrite (derive_lookup_target _ _ _ _ _ H1).
  - rewrite (derive_lookup_ne _ _ _ _ _ _ H3) by done.
    rewrite (derive_lookup_target _ _ _ _ _ H2).
    + by rewrite (derive_lookup_ne _ _ _ _ _ _ H1).
    + by rewrite (derive_lookup_ne _ _ _ _ _ _ H1).
  - rewrite (derive_lookup_target _ _ _ _ _ H3).
    + by rewrite (derive_lookup_ne _ _ _ _ _ _ H2), (derive_lookup_ne _ _ _ _ _ _ H1).
    + by rewrite (derive_lookup_ne _ _ _ _ _ _ H2), (derive_lookup_ne _ _ _ _ _ _ H1).
Qed.

Lemma bucket_total v x thresholds otherwise :
  as_number v = Some x -> exists s, bucket v thresholds otherwise = Ok s.
Proof.
  intros Hx. induction thresholds as [|[n label] rest IH]; simpl; [by eexists|].
  unfold py_lt_int. rewrite Hx. simpl. destruct (flt_ltb x (of_Z n)); [by eexists|done].
Qed.

Lemma derived_metrics_total (data : gmap string pyval) :
  (forall v, data !! "founded_year" = Some v -> is_Some (as_int v)) ->
  (forall v, data !! "funding_raised" = Some v -> is_Some (as_number v)) ->
  (forall v, data !! "employees" = Some v -> is_Some (as_number v)) ->
  exists m, _calculate_derived_metrics data = Ok m.
Proof.
  intros Hy Hf He. unfold _calculate_derived_metrics.
  destruct (derive_total "founded_year" "company_age" (py_int_minus current_year) data)
    as [d1 H1].
  { intros v Hv _. destruct (Hy v Hv) as [z Hz]. destruct v; simplify_eq/=; by eexists. }
  rewrite H1. simpl.
  destruct (derive_total "funding_raised" "funding_stage"
              (fun funding => s ← funding_stage funding; Ok (VStr s)) d1) as [d2 H2].
  { intros v Hv _. rewrite (derive_lookup_ne _ _ _ _ _ _ H1) in Hv by done.
    destruct (Hf v Hv) as [x Hx].
    destruct (bucket_total v x
      [(1000000, "Pre-Seed"); (5000000, "Seed"); (20000000, "Series A");
       (50000000, "Series B"); (100000000, "Series C+")]%Z "Late Stage" Hx) as [s Hs].
    unfold funding_stage. rewrite Hs. by eexists. }
  rewrite H2. simpl.
  apply derive_total. intros v Hv _.
  rewrite (derive_lookup_ne _ _ _ _ _ _ H2), (derive_lookup_ne _ _ _ _ _ _ H1) in Hv by done.
  destruct (He v Hv) as [x Hx].
  destruct (bucket_total v x
    [(10, "Startup (1-9)"); (50, "Small (10-49)"); (200, "Medium (50-199)");
     (1000, "Large (200-999)")]%Z "Enterprise (1000+)" Hx) as [s Hs].
  unfold employee_size. rewrite Hs. by eexists.
Qed.

Lemma funding_stage_spec v x :
  as_number v = Some x -> ordered x ->
  exists stage, funding_stage v = Ok stage /\ stage_bucket x stage.
Proof.
  intros Hx Ho. unfold funding_stage, bucket, py_lt_int. rewrite Hx. simpl.
  unfold stage_bucket.
  assert (forall n, flt_ltb x (of_Z n) = false -> flt_le (of_Z n) x) as Hle.
  { intros n. by apply flt_not_ltb_le. }
  destruct (flt_ltb x (of_Z 1000000)) eqn:E1.
  { apply flt_ltb_lt in E1. eexists. split; [done|]. by left. }
  destruct (flt_ltb x (of_Z 5000000)) eqn:E2.
  { apply flt_ltb_lt in E2. eexists. split; [done|]. right; left. split_and!; auto. }
  destruct (flt_ltb x (of_Z 20000000)) eqn:E3.
  { apply flt_ltb_lt in E3. eexists. split; [done|]. do 2 right; left. split_and!; auto. }
  destruct (flt_ltb x (of_Z 50000000)) eqn:E4.
  { apply flt_ltb_lt in E4. eexists. split; [done|]. do 3 right; left. split_and!; auto. }
  destruct (flt_ltb x (of_Z 100000000)) eqn:E5.
  { apply flt_ltb_lt in E5. eexists. split; [done|]. do 4 right; left. split_and!; auto. }
  eexists. split; [done|]. do 5 right. split_and!; auto.
Qed.

(** ** The merged record, field by field *)

Lemma merged_fields_keys ds name founders investors rounds k :
  is_Some (merged_fields ds name founders investors rounds !! k) -> k ∈ base_fields.
Proof.
  unfold merged_fields, base_fields. intros H.
  repeat (apply set_opt_is_Some in H as [->|H]; [by repeat constructor|]).
  destruct (decide (k = "name")) as [->|Hne]; [by repeat constructor|].
  rewrite lookup_singleton_ne in H by done. by destruct H.
Qed.

Lemma merged_numeric_lookup ds name founders investors rounds field :
  field ∈ numeric_fields ->
  merged_fields ds name founders investors rounds !! field = merge_numeric ds field.
Proof.
  intros H. unfold merged_fields, numeric_fields in *.
  repeat (apply elem_of_cons in H as [->|H]);
    [..|by apply elem_of_nil in H];
    repeat (rewrite lookup_set_opt_ne by done);
    rewrite lookup_set_opt_eq; try done;
    repeat (rewrite lookup_set_opt_ne by done); done.
Qed.

Section MergedFacts.
Context (ds : gmap string (gmap string pyval)) (name : string).
Context (founders investors rounds : option pyval).

Lemma merged_fields_lookup_derived k :
  k ∈ derived_fields -> merged_fields ds name founders investors rounds !! k = None.
Proof.
  intros Hk. apply eq_None_not_Some. intros H%merged_fields_keys. revert H.
  unfold derived_fields in Hk.
  repeat (apply elem_of_cons in Hk as [->|Hk]); [..|by apply elem_of_nil in Hk];
    unfold base_fields; not_in_list.
Qed.

Lemma merged_fields_founded_year :
  merged_fields ds name founders investors rounds !! "founded_year"
  = first_valid ds "founded_year" valid_year.
Proof.
  unfold merged_fields. repeat (rewrite lookup_set_opt_ne by done).
  rewrite lookup_set_opt_eq; [done|]. by repeat (rewrite lookup_set_opt_ne by done).
Qed.

Lemma merged_fields_name :
  merged_fields ds name founders investors rounds !! "name" = Some (VStr name).
Proof. unfold merged_fields. by repeat (rewrite lookup_set_opt_ne by done). Qed.

Lemma merged_fields_founders :
  merged_fields ds name founders investors rounds !! "founders" = founders.
Proof.
  unfold merged_fields. repeat (rewrite lookup_set_opt_ne by done).
  rewrite lookup_set_opt_eq; [done|]. by repeat (rewrite lookup_set_opt_ne by done).
Qed.

Lemma merged_fields_investors :
  merged_fields ds name founders investors rounds !! "investors" = investors.
Proof.
  unfold merged_fields. repeat (rewrite lookup_set_opt_ne by done).
  rewrite lookup_set_opt_eq; [done|]. by repeat (rewrite lookup_set_opt_ne by done).
Qed.

Lemma merged_fields_funding_rounds :
  merged_fields ds name founders investors rounds !! "funding_rounds" = rounds.
Proof.
  unfold merged_fields. by rewrite lookup_set_opt_eq
    by by repeat (rewrite lookup_set_opt_ne by done).
Qed.
End MergedFacts.

Lemma merge_inv py_str set_list ds name m :
  _merge_data_sources py_str set_list ds name = Ok m ->
  exists founders investors rounds,
    merge_names set_list ds "founders" = Ok founders /\
    merge_names set_list ds "investors" = Ok investors /\
    merge_rounds py_str ds = Ok rounds /\
    _calculate_derived_metrics (merged_fields ds name founders investors rounds) = Ok m.
Proof.
  unfold _merge_data_sources. intros H.
  apply bind_Ok in H as (fo & Hfo & H). apply bind_Ok in H as (inv & Hinv & H).
  apply bind_Ok in H as (ro & Hro & H). by exists fo, inv, ro.
Qed.

Lemma merge_name py_str set_list ds name m :
  _merge_data_sources py_str set_list ds name = Ok m -> m !! "name" = Some (VStr name).
Proof.
  intros Hm. apply merge_inv in Hm as (fo & inv & ro & _ & _ & _ & Hd).
  rewrite (derived_metrics_lookup_ne _ _ "name" Hd) by not_in_list.
  apply merged_fields_name.
Qed.

Lemma unhashable_error_type xs e :
  unhashable_error xs = Some e -> exists msg, e = TypeError msg.
Proof.
  induction xs as [|x xs IH]; [done|]. destruct x; simpl; try done; intros [= <-]; by eexists.
Qed.

Lemma merge_names_spec set_list ds field names :
  merge_names set_list ds field = Ok names ->
  match names with
  | Some v => v = VList (set_list (List.filter py_truthy (all_items ds field)))
  | None => all_items ds field = []
  end.
Proof.
  unfold merge_names, py_list_set. destruct (all_items ds field) as [|x l]; [by intros [= <-]|].
  destruct (unhashable_error _); simpl; [done|]. by intros [= <-].
Qed.

Lemma merge_names_result set_list ds field :
  (exists names, merge_names set_list ds field = Ok names) \/
  (exists msg, merge_names set_list ds field = Raise (TypeError msg)).
Proof.
  unfold merge_names, py_list_set. destruct (all_items ds field) as [|x l]; [left; by eexists|].
  destruct (unhashable_error _) as [e|] eqn:E; simpl; [|left; by eexists].
  apply unhashable_error_type in E as [msg ->]. right. by eexists.
Qed.

(** The merge reads the mapping only through [reported], and never the
    ["error"] key. *)
Section Ext.
Context (py_str : pyval -> result string) (set_list : list pyval -> list pyval).
Context (ds ds' : gmap string (gmap string pyval)).
Hypothesis agree : forall source field,
  field <> "error" -> reported ds source field = reported ds' source field.

Lemma collect_agree {A} field (keep : pyval -> option A) :
  field <> "error" -> collect ds field keep = collect ds' field keep.
Proof. intros H. apply collect_ext. intros source. by apply agree. Qed.

Lemma merge_ext name :
  _merge_data_sources py_str set_list ds name = _merge_data_sources py_str set_list ds' name.
Proof.
  unfold _merge_data_sources, merge_names, merged_fields, merge_numeric, numeric_values,
    first_valid, merge_description, merge_rounds, all_items.
  by rewrite !collect_agree by discriminate.
Qed.
End Ext.

(** ** Funding rounds *)

Section Rounds.
Context (py_str : pyval -> result string).

Lemma round_keys_app l1 l2 :
  round_keys py_str (l1 ++ l2) = round_keys py_str l1 ++ round_keys py_str l2.
Proof. unfold round_keys. apply omap_app. Qed.

Lemma round_keys_singleton d key :
  round_key py_str d = Ok key -> round_keys py_str [VDict d] = [key].
Proof. intros H. unfold round_keys. simpl. by rewrite H. Qed.

Lemma dedup_step_inv acc r acc' :
  dedup_inv py_str acc -> dedup_step py_str acc r = Ok acc' -> dedup_inv py_str acc'.
Proof.
  intros (Hd & Hnd & Hseen). unfold dedup_step.
  destruct r as [| | | | | |d]; try (by intros [= <-]).
  intros H. apply bind_Ok in H as (key & Hkey & H).
  destruct (decide (key ∈ acc.2)) as [Hin|Hnin]; injection H as <-; [done|].
  split_and!; simpl.
  - apply Forall_app. split; [done|]. apply Forall_singleton. by eexists.
  - rewrite round_keys_app, (round_keys_singleton d key Hkey).
    apply NoDup_app. split_and!; [done| |apply NoDup_singleton].
    intros k Hk Hk'. apply list_elem_of_singleton in Hk' as ->. by apply Hnin, Hseen.
  - intros k. rewrite round_keys_app, (round_keys_singleton d key Hkey).
    rewrite elem_of_app, elem_of_union, Hseen.
    by rewrite elem_of_singleton, list_elem_of_singleton.
Qed.

Lemma dedup_step_mono acc r acc' k :
  dedup_step py_str acc r = Ok acc' -> k ∈ acc.2 -> k ∈ acc'.2.
Proof.
  unfold dedup_step. destruct r as [| | | | | |d]; try (by intros [= <-]).
  intros H. apply bind_Ok in H as (key & Hkey & H).
  destruct (decide (key ∈ acc.2)); injection H as <-; [done|]. simpl.
  intros Hk. apply elem_of_union. by left.
Qed.

Lemma dedup_loop_spec l : forall acc acc',
  dedup_inv py_str acc -> dedup_loop py_str l acc = Ok acc' ->
  dedup_inv py_str acc' /\
  (forall k, k ∈ acc.2 -> k ∈ acc'.2) /\
  (forall d, VDict d ∈ l -> exists key, round_key py_str d = Ok key /\ key ∈ acc'.2) /\
  (forall r, r ∈ acc'.1 -> r ∈ acc.1 \/ r ∈ l).
Proof.
  induction l as [|r l IH]; intros acc acc' Hinv; simpl.
  - intros [= <-]. split_and!; [done|done| |by left]. intros d Hd. by apply elem_of_nil in Hd.
  - intros H. apply bind_Ok in H as (acc1 & Hstep & H).
    destruct (IH _ _ (dedup_step_inv acc r acc1 Hinv Hstep) H)
      as (Hinv' & Hmono & Hcover & Hfrom).
    split_and!; [done|..].
    + intros k Hk. by eapply Hmono, dedup_step_mono.
    + intros d [<-|Hd]%elem_of_cons; [|by apply Hcover].
      unfold dedup_step in Hstep. apply bind_Ok in Hstep as (key & Hkey & Hstep).
      exists key. split; [done|]. apply Hmono.
      destruct (decide (key ∈ acc.2)); injection Hstep as <-; [done|]. simpl.
      apply elem_of_union. right. by apply elem_of_singleton.
    + intros r' Hr'. apply Hfrom in Hr' as [Hr'|Hr']; [|right; by apply list_elem_of_further].
      unfold dedup_step in Hstep.
      destruct r as [| | | | | |d]; try (injection Hstep as <-; by left).
      apply bind_Ok in Hstep as (key & Hkey & Hstep).
      destruct (decide (key ∈ acc.2)); injection Hstep as <-; [by left|]. simpl in Hr'.
      apply elem_of_app in Hr' as [Hr'|Hr']; [by left|right].
      apply list_elem_of_singleton in Hr' as ->. apply list_elem_of_here.
Qed.

Lemma unique_rounds_spec l rounds :
  unique_rounds py_str l = Ok rounds ->
  (forall r, r ∈ rounds -> exists d, r = VDict d /\ r ∈ l) /\
  forall d, VDict d ∈ l ->
    exists key, round_key py_str d = Ok key /\ exactly_one_with_key py_str rounds key.
Proof.
  unfold unique_rounds. intros H. apply bind_Ok in H as (acc & Hloop & [= <-]).
  destruct (dedup_loop_spec l ([], ∅) acc) as ((Hd & Hnd & Hseen) & _ & Hcover & Hfrom);
    [|done|].
  { split_and!; simpl; [done|apply NoDup_nil_2|]. intros k.
    by rewrite elem_of_empty, elem_of_nil. }
  split.
  - intros r Hr. destruct (Hfrom r Hr) as [Hnil|Hl]; [by apply elem_of_nil in Hnil|].
    rewrite Forall_forall in Hd. destruct (Hd r Hr) as [d ->]. by exists d.
  - intros d Hin. destruct (Hcover d Hin) as (key & Hkey & Hk). exists key. split; [done|].
    apply Hseen, list_elem_of_lookup in Hk as [i Hi].
    exists i. split; [done|]. intros j Hj. by eapply NoDup_lookup.
Qed.

Lemma round_key_same d d' :
  d !! "amount" = d' !! "amount" -> d !! "type" = d' !! "type" ->
  round_key py_str d = round_key py_str d'.
Proof. unfold round_key. by intros -> ->. Qed.

(** The loop raises exactly when the key of one of the mappings cannot be
    formatted. *)
Lemma dedup_loop_raises l : forall acc,
  (exists e, dedup_loop py_str l acc = Raise e) <->
  exists d e, VDict d ∈ l /\ round_key py_str d = Raise e.
Proof.
  induction l as [|r l IH]; intros acc; simpl.
  - split; [by intros [e ?]|]. intros (d & e & Hd & _). by apply elem_of_nil in Hd.
  - destruct (dedup_step py_str acc r) as [acc1|e1] eqn:Hstep; simpl.
    + rewrite IH. split.
      * intros (d & e & Hd & He). exists d, e. split; [by apply list_elem_of_further|done].
      * intros (d & e & [<-|Hd]%elem_of_cons & He); [|by exists d, e].
        unfold dedup_step in Hstep. by rewrite He in Hstep.
    + split; [|by eexists]. intros _. unfold dedup_step in Hstep.
      destruct r as [| | | | | |d]; try done.
      destruct (round_key py_str d) as [key|e] eqn:Hkey; simpl in Hstep.
      * by destruct (decide (key ∈ acc.2)).
      * exists d, e. split; [apply list_elem_of_here|done].
Qed.
End Rounds.

(** ** The aggregator loop *)

Lemma collector_calls_app t1 t2 :
  collector_calls (t1 ++ t2) = collector_calls t1 ++ collector_calls t2.
Proof. unfold collector_calls. apply omap_app. Qed.

Lemma scrape_one_calls py_str name cb total i source scraper st :
  callback_returns cb ->
  collector_calls (trace (scrape_one py_str name cb total i source scraper st))
  = collector_calls (trace st) ++ [(source, name)].
Proof.
  intros Hcb. unfold scrape_one.
  assert (forall message fraction, cb ≫= (fun f => f message fraction) = None) as ->.
  { intros message fraction. destruct cb as [f|]; [|done]. simpl. by eapply Hcb. }
  destruct (dispatch source scraper name) as [data|msg];
    [destruct (_ && _); [|destruct (py_str _)]|]; destruct cb; simpl;
    rewrite ?collector_calls_app; simpl; by rewrite ?app_nil_r, <- ?app_assoc.
Qed.

Lemma scrape_all_calls py_str name cb total items : forall i st,
  callback_returns cb ->
  collector_calls (trace (scrape_all py_str name cb total i items st))
  = collector_calls (trace st) ++ ((fun p => (p.1, name)) <$> items).
Proof.
  induction items as [|[source scraper] items IH]; intros i st Hcb; simpl.
  - by rewrite app_nil_r.
  - rewrite IH, scrape_one_calls by done. by rewrite <- app_assoc.
Qed.

Lemma store_error_only source e st :
  only_errors st -> only_errors (store source (error_record e) st).
Proof.
  intros [Hs Hall]. split; [done|]. intros s r. simpl.
  destruct (decide (source = s)) as [->|Hne].
  - rewrite lookup_insert_eq. intros [= <-]. by eexists.
  - rewrite lookup_insert_ne by done. apply Hall.
Qed.

Lemma log_only_errors e st : only_errors st -> only_errors (log e st).
Proof. by intros [??]. Qed.

Lemma scrape_one_only_errors py_str name cb total i source scraper st :
  fails (dispatch source scraper name) ->
  only_errors st -> only_errors (scrape_one py_str name cb total i source scraper st).
Proof.
  intros Hfail Hst. unfold scrape_one.
  set (st' := match cb with Some _ => log _ st | None => st end).
  assert (only_errors st') as Hst'.
  { unfold st'. destruct cb; [by apply log_only_errors|done]. }
  destruct (cb ≫= _) as [msg|]; [by apply store_error_only|].
  destruct (dispatch source scraper name) as [data|msg];
    [|by apply store_error_only, log_only_errors].
  simpl in Hfail.
  assert (negb (bool_decide (data = ∅)) && negb (bool_decide (is_Some (data !! "error")))
          = false) as ->.
  { apply andb_false_iff. destruct Hfail as [->|He]; [left|right];
      apply negb_false_iff; by apply bool_decide_eq_true. }
  destruct (py_str _); [by apply log_only_errors, store_error_only, log_only_errors|].
  by apply store_error_only, log_only_errors.
Qed.

Lemma scrape_all_only_errors py_str name cb total items : forall i st,
  (forall source scraper, (source, scraper) ∈ items -> fails (dispatch source scraper name)) ->
  only_errors st -> only_errors (scrape_all py_str name cb total i items st).
Proof.
  induction items as [|[source scraper] items IH]; intros i st Hfail Hst; simpl; [done|].
  apply IH.
  - intros s sc Hin. apply Hfail. by apply list_elem_of_further.
  - apply scrape_one_only_errors; [|done]. apply Hfail, list_elem_of_here.
Qed.

(** ** The stand-in for [list(set(...))] *)

Lemma set_first_from_sound xs : forall seen x, x ∈ set_first_from seen xs -> x ∈ xs.
Proof.
  induction xs as [|y xs IH]; intros seen x; simpl; [done|].
  destruct (existsb (py_eqb y) seen).
  - intros H%IH. by apply list_elem_of_further.
  - intros [->|H%IH]%elem_of_cons; [apply list_elem_of_here|by apply list_elem_of_further].
Qed.

Lemma set_first_sound xs x : x ∈ set_first xs -> x ∈ xs.
Proof. apply set_first_from_sound. Qed.

Lemma py_eqb_str s v : py_eqb (VStr s) v = true -> v = VStr s.
Proof.
  destruct v; simpl; try done. intros H%String.eqb_eq. by subst.
Qed.

Lemma set_first_from_complete xs : forall seen s,
  VStr s ∈ xs -> VStr s ∈ set_first_from seen xs \/ VStr s ∈ seen.
Proof.
  induction xs as [|y xs IH]; intros seen s Hin; simpl; [by apply elem_of_nil in Hin|].
  apply elem_of_cons in Hin as [<-|Hin].
  - destruct (existsb (py_eqb (VStr s)) seen) eqn:E.
    + right. apply existsb_exists in E as (v & Hv & Heq).
      apply py_eqb_str in Heq as ->. by apply list_elem_of_In.
    + left. apply list_elem_of_here.
  - destruct (existsb (py_eqb y) seen).
    + by apply IH.
    + destruct (IH (y :: seen) s Hin) as [H|H]; [left; by apply list_elem_of_further|].
      apply elem_of_cons in H as [<-|H]; [left; apply list_elem_of_here|by right].
Qed.

Lemma set_first_complete xs s : VStr s ∈ xs -> VStr s ∈ set_first xs.
Proof.
  intros H. destruct (set_first_from_complete xs [] s H) as [?|Hnil]; [done|].
  by apply elem_of_nil in Hnil.
Qed.

(** ** The funding-amount parser *)

Example parse_5_2M : parse_funding_amount "$5.2M" = Ok (Some 5200000%Q).
Proof. by_vm. Qed.

Example parse_words :
  parse_funding_amount "raised $1,250 million" = Ok (Some 1250000000%Q).
Proof. by_vm. Qed.

Example parse_no_number : parse_funding_amount "no amount here" = Ok None.
Proof. by_vm. Qed.

Example extract_two :
  _extract_funding_amounts "Acme raised $5M in 2020 and $2.5 billion later"
  = Ok [5000000%Q; 2500000000%Q; 5000000%Q].
Proof. by_vm. Qed.

Example extract_nothing : _extract_funding_amounts "Acme makes anvils" = Ok [].
Proof. by_vm. Qed.

Lemma upper_char_digit_or_comma c :
  is_digit_or_comma (upper_char c) = is_digit_or_comma c.
Proof. destruct c as [[] [] [] [] [] [] [] []]; reflexivity. Qed.

Lemma all_chars_keep p q s : all_chars p s = true -> all_chars p (keep_chars q s) = true.
Proof.
  induction s as [|c s IH]; simpl; [done|]. intros [Hc Hs]%andb_true_iff.
  destruct (q c); simpl; [rewrite Hc|]; by apply IH.
Qed.

Lemma all_chars_upper s :
  all_chars (fun c => negb (is_digit_or_comma c)) s = true ->
  all_chars (fun c => negb (is_digit_or_comma c)) (py_upper s) = true.
Proof.
  induction s as [|c s IH]; simpl; [done|]. intros [Hc Hs]%andb_true_iff.
  by rewrite upper_char_digit_or_comma, Hc, IH.
Qed.

(** Without a digit or a comma there is no number to find. *)
Lemma re_search_number_none s :
  all_chars (fun c => negb (is_digit_or_comma c)) s = true -> re_search number_re s = None.
Proof.
  induction s as [|c s IH]; simpl; [done|]. intros [Hc Hs]%andb_true_iff.
  apply negb_true_iff in Hc. unfold match_at. simpl. rewrite Hc. simpl. by apply IH.
Qed.

(** When the text holds no digit and no comma, [parse_funding_amount] answers
    [None] and does not raise. *)
Lemma parse_funding_amount_no_number text :
  all_chars (fun c => negb (is_digit_or_comma c)) text = true ->
  parse_funding_amount text = Ok None.
Proof.
  intros H. unfold parse_funding_amount. destruct (String.eqb text ""); [done|].
  by rewrite re_search_number_none by by apply all_chars_keep, all_chars_upper.
Qed.


(** ** The scenarios, evaluated *)

Example scenario_max_result :
  _merge_data_sources str_model set_first scenario_max "Acme" = Ok scenario_max_merged.
Proof. by_vm. Qed.

Example scenario_error_result :
  _merge_data_sources str_model set_first scenario_error "Acme" = Ok scenario_error_merged.
Proof. by_vm. Qed.

Example scenario_boundary_result :
  _merge_data_sources str_model set_first scenario_boundary "Acme"
  = Ok scenario_boundary_merged.
Proof. by_vm. Qed.

(** The longest description wins whatever the priority of its source, and the
    CEO's name is stripped. *)
Example scenario_description_result :
  _merge_data_sources str_model set_first scenario_description "Acme"
  = Ok {[ "name" := VStr "Acme"; "ceo" := VStr "Ada Lovelace";
          "description" := VStr "a much longer description of the company" ]}.
Proof. by_vm. Qed.

Example scenario_rounds_result :
  _merge_data_sources str_model set_first scenario_rounds "Acme" = Ok scenario_rounds_merged.
Proof. by_vm. Qed.

Example scenario_names_result :
  _merge_data_sources str_model set_first scenario_names "Acme" = Ok scenario_names_merged.
Proof. by_vm. Qed.

(** An unhashable founder makes the merge raise. *)
Example unhashable_founder_raises :
  _merge_data_sources str_model set_first
    {[ "crunchbase" := {[ "founders" := VList [VList [VStr "Ada"]] ]} ]} "Acme"
  = Raise (TypeError "unhashable type: 'list'").
Proof. by_vm. Qed.

(** [str] refuses an int of 4301 digits. *)
Lemma str_model_over_limit :
  str_model (VInt over_limit)
  = Raise (ValueError
             ("Exceeds the limit (4300 digits) for integer string conversion; "
              +:+ "use sys.set_int_max_str_digits() to increase the limit")).
Proof.
  unfold str_model, over_limit.
  rewrite Z.abs_eq by (apply Z.pow_nonneg; lia). by rewrite Z.leb_refl.
Qed.

(** An amount that cannot be formatted makes the merge raise: the f-string of
    the deduplication key is not guarded. *)
Lemma unformattable_amount_raises py_str set_list amount e name :
  py_str amount = Raise e ->
  _merge_data_sources py_str set_list (round_only amount) name = Raise e.
Proof.
  intros H. unfold _merge_data_sources, merge_names, merge_rounds, unique_rounds.
  assert (all_items (round_only amount) "founders" = []) as -> by by_vm.
  assert (all_items (round_only amount) "investors" = []) as -> by by_vm.
  assert (all_items (round_only amount) "funding_rounds"
          = [VDict {[ "amount" := amount ]}]) as -> by by_vm.
  simpl. unfold round_key. rewrite lookup_singleton_eq. simpl. by rewrite H.
Qed.

Example huge_amount_raises :
  _merge_data_sources str_model set_first scenario_huge_amount "Acme"
  = Raise (ValueError
             ("Exceeds the limit (4300 digits) for integer string conversion; "
              +:+ "use sys.set_int_max_str_digits() to increase the limit")).
Proof. apply unformattable_amount_raises, str_model_over_limit. Qed.

(** * The claims *)

(** C1. Each of the four numeric fields of the merged record holds the maximum
    of the positive numbers that the sources of the priority list report for
    it: the value is one of those reports and no report exceeds it.  The field
    is absent exactly when no source reports a positive number for it. *)
Theorem merge_numeric_fields_max py_str set_list ds name m field :
  field ∈ numeric_fields ->
  _merge_data_sources py_str set_list ds name = Ok m ->
  match m !! field with
  | Some v => reports_positive ds field v /\
              forall w, reports_positive ds field w -> value_le w v
  | None => forall w, ~ reports_positive ds field w
  end.
Proof.
  intros Hf Hm. apply merge_inv in Hm as (fo & inv & ro & _ & _ & _ & Hd).
  rewrite (derived_metrics_lookup_ne _ _ field Hd).
  - rewrite merged_numeric_lookup by done. apply merge_numeric_spec.
  - unfold numeric_fields in Hf.
    repeat (apply elem_of_cons in Hf as [->|Hf]); [..|by apply elem_of_nil in Hf];
      not_in_list.
Qed.

Lemma merge_numeric_fields_max_witness :
  "funding_raised" ∈ numeric_fields /\
  _merge_data_sources str_model set_first scenario_max "Acme" = Ok scenario_max_merged /\
  match scenario_max_merged !! "funding_raised" with
  | Some v => reports_positive scenario_max "funding_raised" v /\
              forall w, reports_positive scenario_max "funding_raised" w -> value_le w v
  | None => forall w, ~ reports_positive scenario_max "funding_raised" w
  end.
Proof.
  split; [repeat constructor|]. split; [by_vm|].
  apply (merge_numeric_fields_max str_model set_first scenario_max "Acme" scenario_max_merged
           "funding_raised"); [repeat constructor|by_vm].
Defined.

(** C2. A source that is present only as an error descriptor contributes
    nothing: the merge gives the same result (the same record, or the same
    exception) as on the mapping without that source. *)
Theorem errored_source_is_ignored py_str set_list ds name source e :
  ds !! source = Some (error_record e) ->
  _merge_data_sources py_str set_list (delete source ds) name
  = _merge_data_sources py_str set_list ds name.
Proof.
  intros H. apply merge_ext. intros s field Hf. unfold reported.
  destruct (decide (source = s)) as [->|Hne].
  - rewrite lookup_delete_eq, H. simpl. unfold error_record.
    by rewrite lookup_singleton_ne.
  - by rewrite lookup_delete_ne.
Qed.

Lemma errored_source_is_ignored_witness :
  scenario_error !! "crunchbase"
  = Some (error_record (VStr "No Crunchbase page found for this company")) /\
  _merge_data_sources str_model set_first (delete "crunchbase" scenario_error) "Acme"
  = _merge_data_sources str_model set_first scenario_error "Acme".
Proof.
  split; [by_vm|].
  apply (errored_source_is_ignored str_model set_first scenario_error "Acme" "crunchbase"
           (VStr "No Crunchbase page found for this company")).
  by_vm.
Defined.

(** C3, as stated, fails: for the empty name (and for a blank one) every
    collector is called and a record is returned. *)
Lemma empty_name_reaches_collectors :
  collector_calls (get_comprehensive_data str_model set_first found_aggregator "" None 0).2
  = [("crunchbase", ""); ("linkedin", ""); ("web_search", ""); ("simple_web", "")] /\
  (get_comprehensive_data str_model set_first found_aggregator "" None 0).1
  = Ok {[ "metadata" :=
            VDict {[ "successful_sources" := VInt 4; "total_sources" := VInt 4;
                     "scraped_sources" :=
                       VList [VStr "crunchbase"; VStr "linkedin"; VStr "web_search";
                              VStr "simple_web"];
                     "timestamp" := VFloat (FFin 0) ]};
          "name" := VStr "" ]} /\
  py_strip "   " = "" /\
  collector_calls (get_comprehensive_data str_model set_first found_aggregator "   " None 0).2
  = [("crunchbase", "   "); ("linkedin", "   "); ("web_search", "   ");
     ("simple_web", "   ")].
Proof. split_and!; by_vm. Qed.

(** C3, amended.  [get_comprehensive_data] does not validate the company name:
    whatever the name, the empty one included, and provided the progress
    callback returns normally, each registered collector is called exactly
    once, in registration order, with the name as given; and whenever the call
    returns, the record carries the name verbatim. *)
Theorem every_collector_is_called py_str set_list self company_name progress_callback now :
  callback_returns progress_callback ->
  collector_calls
    (get_comprehensive_data py_str set_list self company_name progress_callback now).2
  = (fun p => (p.1, company_name)) <$> scrapers self /\
  forall record,
    (get_comprehensive_data py_str set_list self company_name progress_callback now).1
    = Ok record ->
    record !! "name" = Some (VStr company_name).
Proof.
  intros Hcb. unfold get_comprehensive_data. simpl. split.
  - unfold collected. by rewrite scrape_all_calls.
  - intros record H. apply bind_Ok in H as (m & Hm & [= <-]).
    rewrite lookup_insert_ne by done. by eapply merge_name.
Qed.

Lemma every_collector_is_called_witness :
  callback_returns None /\
  collector_calls (get_comprehensive_data str_model set_first found_aggregator "" None 0).2
  = (fun p => (p.1, "")) <$> scrapers found_aggregator /\
  forall record,
    (get_comprehensive_data str_model set_first found_aggregator "" None 0).1 = Ok record ->
    record !! "name" = Some (VStr "").
Proof.
  assert (callback_returns None) as H by (intros f message fraction Hf; discriminate Hf).
  split; [exact H|].
  exact (every_collector_is_called str_model set_first found_aggregator "" None 0 H).
Defined.

(** C4. When every registered collector fails (it returns an error
    SourceResult, or an empty mapping, or raises), the call still returns a
    record, and the record holds the name verbatim and the metadata only, with
    [successful_sources = 0] and [total_sources] the number of registered
    collectors.  This holds for every company name. *)
Theorem all_sources_failed_still_returns py_str set_list self company_name progress_callback now :
  (forall source scraper, (source, scraper) ∈ scrapers self ->
     fails (dispatch source scraper company_name)) ->
  exists scraped_sources,
    (get_comprehensive_data py_str set_list self company_name progress_callback now).1
    = Ok {[ "metadata" := VDict {[ "successful_sources" := VInt 0;
                                   "total_sources" := VInt (Z.of_nat (length (scrapers self)));
                                   "scraped_sources" := VList (VStr <$> scraped_sources);
                                   "timestamp" := VFloat (FFin now) ]};
            "name" := VStr company_name ]}.
Proof.
  intros Hfail. unfold get_comprehensive_data. simpl.
  set (st := collected py_str self company_name progress_callback).
  assert (only_errors st) as [Hzero Hall].
  { apply scrape_all_only_errors; [done|]. split; [done|]. intros s r. simpl.
    by rewrite lookup_empty. }
  rewrite (merge_ext py_str set_list (all_data st) ∅).
  - exists (scraped st). unfold metadata. by rewrite Hzero.
  - intros source field Hne. unfold reported. rewrite lookup_empty.
    destruct (all_data st !! source) as [r|] eqn:E; [|done]. simpl.
    destruct (Hall _ _ E) as [e ->]. unfold error_record. by rewrite lookup_singleton_ne.
Qed.

Lemma all_sources_failed_still_returns_witness :
  (forall source scraper, (source, scraper) ∈ scrapers failing_aggregator ->
     fails (dispatch source scraper "Acme")) /\
  exists scraped_sources,
    (get_comprehensive_data str_model set_first failing_aggregator "Acme" None 1730000000).1
    = Ok {[ "metadata" := VDict {[ "successful_sources" := VInt 0;
                                   "total_sources" :=
                                     VInt (Z.of_nat (length (scrapers failing_aggregator)));
                                   "scraped_sources" := VList (VStr <$> scraped_sources);
                                   "timestamp" := VFloat (FFin 1730000000) ]};
            "name" := VStr "Acme" ]}.
Proof.
  assert (forall source scraper, (source, scraper) ∈ scrapers failing_aggregator ->
            fails (dispatch source scraper "Acme")) as H.
  { intros source scraper Hin. simpl in Hin.
    repeat (apply elem_of_cons in Hin as [[= -> ->]|Hin]);
      [..|by apply elem_of_nil in Hin]; simpl; try done;
      right; unfold error_record; rewrite lookup_singleton_eq; by eexists. }
  split; [exact H|].
  exact (all_sources_failed_still_returns str_model set_first failing_aggregator "Acme" None
           1730000000 H).
Defined.

(** C5 (code defect). The claim is that the extraction functions never raise.
    [parse_funding_amount] does raise: once the pattern for the number has
    matched a run of commas, the text left after the commas are removed is
    empty and [float] rejects it.  [_extract_funding_amounts] hands such
    matches on and raises with it. *)
Theorem funding_amount_parser_raises :
  parse_funding_amount ","
  = Raise (ValueError "could not convert string to float: ''") /\
  parse_funding_amount "$,.M"
  = Raise (ValueError "could not convert string to float: '.'") /\
  _extract_funding_amounts "Acme raised $, million last year"
  = Raise (ValueError "could not convert string to float: ''").
Proof. split_and!; by_vm. Qed.

(** C6. When the merged record has [funding_raised], its [funding_stage] is
    the bucket of that number, low bound included and high bound excluded
    (below 1M Pre-Seed, below 5M Seed, below 20M Series A, below 50M Series B,
    below 100M Series C+, otherwise Late Stage); exactly 5,000,000 gives
    Series A.  Without [funding_raised] there is no [funding_stage]. *)
Theorem funding_stage_buckets py_str set_list ds name m :
  _merge_data_sources py_str set_list ds name = Ok m ->
  match m !! "funding_raised" with
  | Some funding =>
      exists x stage, as_number funding = Some x /\
        m !! "funding_stage" = Some (VStr stage) /\ stage_bucket x stage /\
        (funding = VInt 5000000 -> stage = "Series A")
  | None => m !! "funding_stage" = None
  end.
Proof.
  intros Hm. apply merge_inv in Hm as (fo & inv & ro & _ & _ & _ & Hd).
  destruct (derived_metrics_spec _ _ Hd) as (_ & Hstage & _).
  { intros k Hk. by apply merged_fields_lookup_derived. }
  rewrite (derived_metrics_lookup_ne _ _ "funding_raised" Hd) by not_in_list.
  rewrite Hstage, (merged_numeric_lookup ds name fo inv ro "funding_raised")
    by (unfold numeric_fields; repeat constructor).
  destruct (merge_numeric ds "funding_raised") as [funding|] eqn:E; [|done].
  destruct (merge_numeric_number _ _ _ E) as (x & Hx & Hpos).
  assert (ordered x) as Ho by (intros ->; by destruct (of_Z 0)).
  destruct (funding_stage_spec funding x Hx Ho) as (stage & Hs & Hb).
  exists x, stage. simpl.
  assert (py_truthy funding = true) as ->.
  { assert (is_positive_number funding = true) as Hp
      by (apply is_positive_number_spec; by exists x).
    by apply andb_true_iff in Hp as [? _]. }
  rewrite Hs. simpl. split_and!; try done.
  intros ->. vm_compute in Hs. by simplify_eq.
Qed.

Lemma funding_stage_buckets_witness :
  _merge_data_sources str_model set_first scenario_boundary "Acme"
  = Ok scenario_boundary_merged /\
  match scenario_boundary_merged !! "funding_raised" with
  | Some funding =>
      exists x stage, as_number funding = Some x /\
        scenario_boundary_merged !! "funding_stage" = Some (VStr stage) /\
        stage_bucket x stage /\
        (funding = VInt 5000000 -> stage = "Series A")
  | None => scenario_boundary_merged !! "funding_stage" = None
  end.
Proof.
  split; [by_vm|].
  apply (funding_stage_buckets str_model set_first scenario_boundary "Acme").
  by_vm.
Defined.



(** C8, as stated, fails: a round that has neither an amount nor a type is
    kept in the merged [funding_rounds]. *)
Lemma round_without_amount_and_type_is_kept :
  _merge_data_sources str_model set_first scenario_bare_round "Acme"
  = Ok {[ "name" := VStr "Acme"; "funding_rounds" := VList [dated_round] ]} /\
  dated_round = VDict {[ "date" := VStr "2021-03-01" ]} /\
  ({[ "date" := VStr "2021-03-01" ]} : gmap string pyval) !! "amount" = None /\
  ({[ "date" := VStr "2021-03-01" ]} : gmap string pyval) !! "type" = None.
Proof. split_and!; by_vm. Qed.

(** C8, amended.  The merged [funding_rounds] holds mappings only, each one
    reported by a source (entries that are not mappings are dropped, an entry
    with neither amount nor type is kept like any other), and the entries are
    deduplicated by the key made of amount and type: for every mapping that a
    source reports, exactly one merged entry has its key, and two mappings
    with the same amount and type have the same key. *)
Theorem funding_rounds_deduplicated py_str set_list ds name m :
  _merge_data_sources py_str set_list ds name = Ok m ->
  match m !! "funding_rounds" with
  | Some rounds =>
      exists l, rounds = VList l /\
        (forall r, r ∈ l -> exists d, r = VDict d /\ r ∈ all_items ds "funding_rounds") /\
        (forall d, VDict d ∈ all_items ds "funding_rounds" ->
           exists key, round_key py_str d = Ok key /\ exactly_one_with_key py_str l key) /\
        (forall d d', d !! "amount" = d' !! "amount" -> d !! "type" = d' !! "type" ->
           round_key py_str d = round_key py_str d')
  | None => all_items ds "funding_rounds" = []
  end.
Proof.
  intros Hm. apply merge_inv in Hm as (fo & inv & ro & _ & _ & Hro & Hd).
  rewrite (derived_metrics_lookup_ne _ _ "funding_rounds" Hd) by not_in_list.
  rewrite merged_fields_funding_rounds. unfold merge_rounds in Hro.
  destruct (all_items ds "funding_rounds") as [|r all_rounds] eqn:E;
    [by injection Hro as <-|].
  apply bind_Ok in Hro as (rounds & Hrounds & [= <-]).
  destruct (unique_rounds_spec py_str _ _ Hrounds) as [Hfrom Hone].
  eexists. split_and!; [done|done|done|]. apply round_key_same.
Qed.

Lemma funding_rounds_deduplicated_witness :
  _merge_data_sources str_model set_first scenario_rounds "Acme" = Ok scenario_rounds_merged /\
  match scenario_rounds_merged !! "funding_rounds" with
  | Some rounds =>
      exists l, rounds = VList l /\
        (forall r, r ∈ l ->
           exists d, r = VDict d /\ r ∈ all_items scenario_rounds "funding_rounds") /\
        (forall d, VDict d ∈ all_items scenario_rounds "funding_rounds" ->
           exists key, round_key str_model d = Ok key /\
                       exactly_one_with_key str_model l key) /\
        (forall d d', d !! "amount" = d' !! "amount" -> d !! "type" = d' !! "type" ->
           round_key str_model d = round_key str_model d')
  | None => all_items scenario_rounds "funding_rounds" = []
  end.
Proof.
  split; [by_vm|].
  apply (funding_rounds_deduplicated str_model set_first scenario_rounds "Acme").
  by_vm.
Defined.

(** C9, as stated, fails: a name made of blanks only goes through to the
    merged founders. *)
Lemma blank_founder_is_kept :
  _merge_data_sources str_model set_first scenario_names "Acme"
  = Ok {[ "name" := VStr "Acme"; "founders" := VList [VStr "   "; VStr "Ada Lovelace"] ]} /\
  py_strip "   " = "".
Proof. split; by_vm. Qed.

(** C9, amended.  Provided [list(set(xs))] enumerates items of [xs] and omits
    no string of [xs], the merged founders and investors never contain the
    empty string, and every non-empty string a source reports, a blank one
    included, is among them. *)
Theorem names_hold_no_empty_string py_str set_list ds name m field :
  (forall xs x, x ∈ set_list xs -> x ∈ xs) ->
  (forall xs s, VStr s ∈ xs -> VStr s ∈ set_list xs) ->
  field ∈ name_fields ->
  _merge_data_sources py_str set_list ds name = Ok m ->
  match m !! field with
  | Some names =>
      exists l, names = VList l /\ (VStr "" ∉ l) /\
        forall s, s <> "" -> VStr s ∈ all_items ds field -> VStr s ∈ l
  | None => all_items ds field = []
  end.
Proof.
  intros Hsound Hcomplete Hf Hm. apply merge_inv in Hm as (fo & inv & ro & Hfo & Hinv & _ & Hd).
  assert (m !! field = fo /\ merge_names set_list ds field = Ok fo \/
          m !! field = inv /\ merge_names set_list ds field = Ok inv) as Hcase.
  { unfold name_fields in Hf. apply elem_of_cons in Hf as [->|Hf].
    - left. rewrite (derived_metrics_lookup_ne _ _ "founders" Hd) by not_in_list.
      by rewrite merged_fields_founders.
    - apply list_elem_of_singleton in Hf as ->. right.
      rewrite (derived_metrics_lookup_ne _ _ "investors" Hd) by not_in_list.
      by rewrite merged_fields_investors. }
  assert (exists names, m !! field = names /\ merge_names set_list ds field = Ok names)
    as (names & -> & Hnames) by (destruct Hcase as [[??]|[??]]; eauto).
  apply merge_names_spec in Hnames. destruct names as [v|]; [|done]. subst v.
  eexists. split_and!; [done|..].
  - intros Hin%Hsound. apply list_elem_of_In, filter_In in Hin as [_ Hin]. done.
  - intros s Hs Hin. apply Hcomplete, list_elem_of_In, filter_In. split.
    + by apply list_elem_of_In.
    + simpl. by destruct s.
Qed.

Lemma names_hold_no_empty_string_witness :
  (forall xs x, x ∈ set_first xs -> x ∈ xs) /\
  (forall xs s, VStr s ∈ xs -> VStr s ∈ set_first xs) /\
  "founders" ∈ name_fields /\
  _merge_data_sources str_model set_first scenario_names "Acme" = Ok scenario_names_merged /\
  match scenario_names_merged !! "founders" with
  | Some names =>
      exists l, names = VList l /\ (VStr "" ∉ l) /\
        forall s, s <> "" -> VStr s ∈ all_items scenario_names "founders" -> VStr s ∈ l
  | None => all_items scenario_names "founders" = []
  end.
Proof.
  split; [exact set_first_sound|]. split; [exact set_first_complete|].
  split; [repeat constructor|]. split; [by_vm|].
  apply (names_hold_no_empty_string str_model set_first scenario_names "Acme"
           scenario_names_merged "founders" set_first_sound set_first_complete);
    [repeat constructor|by_vm].
Defined.

(** C10. The merged record never has a [market_cap] field, whatever the
    sources report: its fields are among the name, the twelve fields the merge
    engine sets and the three derived ones. *)
Theorem merged_record_has_no_market_cap py_str set_list ds name m :
  _merge_data_sources py_str set_list ds name = Ok m ->
  m !! "market_cap" = None /\ forall k, is_Some (m !! k) -> k ∈ record_fields.
Proof.
  intros Hm. apply merge_inv in Hm as (fo & inv & ro & _ & _ & _ & Hd).
  assert (forall k, is_Some (m !! k) -> k ∈ record_fields) as Hkeys.
  { intros k Hk. unfold record_fields. apply elem_of_app.
    apply (derived_metrics_keys _ _ _ Hd) in Hk as [Hk|Hk]; [by right|left].
    by eapply merged_fields_keys. }
  split; [|done]. apply eq_None_not_Some. intros H%Hkeys. revert H.
  unfold record_fields, base_fields, derived_fields. simpl. not_in_list.
Qed.

Lemma merged_record_has_no_market_cap_witness :
  reported scenario_max "linkedin" "market_cap" = Some (VFloat (FFin 9000000)) /\
  _merge_data_sources str_model set_first scenario_max "Acme" = Ok scenario_max_merged /\
  scenario_max_merged !! "market_cap" = None /\
  forall k, is_Some (scenario_max_merged !! k) -> k ∈ record_fields.
Proof.
  split; [by_vm|]. split; [by_vm|].
  apply (merged_record_has_no_market_cap str_model set_first scenario_max "Acme").
  by_vm.
Defined.

(** * Further properties of the code *)

(** ** The further scenarios, evaluated *)

Example scenario_profile_result :
  _merge_data_sources str_model set_first scenario_profile "Acme" = Ok scenario_profile_merged.
Proof. by_vm. Qed.

Example mixed_aggregator_result :
  (get_comprehensive_data str_model set_first mixed_aggregator "Acme" None 1730000000).1
  = Ok mixed_record.
Proof. by_vm. Qed.

Example search_queries_result :
  WebSearch.search_company_data set_first search_queries "Acme" = Ok search_cleaned.
Proof. by_vm. Qed.

Example scenario_search_result :
  _merge_data_sources str_model set_first scenario_search "Acme" = Ok scenario_search_merged.
Proof. by_vm. Qed.

Example gathered_data_result :
  _clean_and_merge_data set_first gathered_data "Acme" = Ok gathered_cleaned.
Proof. by_vm. Qed.

Lemma set_first_from_complete_eq xs : forall seen x,
  x ∈ xs ->
  exists y, (y ∈ set_first_from seen xs \/ y ∈ seen) /\ (y = x \/ py_eqb x y = true).
Proof.
  induction xs as [|z xs IH]; intros seen x Hin; simpl; [by apply elem_of_nil in Hin|].
  apply elem_of_cons in Hin as [<-|Hin].
  - destruct (existsb (py_eqb x) seen) eqn:E.
    + apply existsb_exists in E as (v & Hv & Heq). exists v. split; [|by right].
      right. by apply list_elem_of_In.
    + exists x. split; [left; apply list_elem_of_here|by left].
  - destruct (existsb (py_eqb z) seen).
    + by apply IH.
    + destruct (IH (z :: seen) x Hin) as (y & [Hy|Hy] & Heq).
      * exists y. split; [left; by apply list_elem_of_further|done].
      * apply elem_of_cons in Hy as [->|Hy].
        -- exists z. split; [left; apply list_elem_of_here|done].
        -- exists y. split; [by right|done].
Qed.

Lemma set_first_complete_eq xs x :
  x ∈ xs -> exists y, y ∈ set_first xs /\ (y = x \/ py_eqb x y = true).
Proof.
  intros Hin. destruct (set_first_from_complete_eq xs [] x Hin) as (y & [Hy|Hy] & Heq).
  - by exists y.
  - by apply elem_of_nil in Hy.
Qed.

(** ** The merge engine *)

Lemma size_bucket_spec v x :
  as_number v = Some x -> ordered x ->
  exists size, employee_size v = Ok size /\ size_bucket x size.
Proof.
  intros Hx Ho. unfold employee_size, bucket, py_lt_int. rewrite Hx. simpl.
  unfold size_bucket.
  assert (forall n, flt_ltb x (of_Z n) = false -> flt_le (of_Z n) x) as Hle.
  { intros n. by apply flt_not_ltb_le. }
  destruct (flt_ltb x (of_Z 10)) eqn:E1.
  { apply flt_ltb_lt in E1. eexists. split; [done|]. by left. }
  destruct (flt_ltb x (of_Z 50)) eqn:E2.
  { apply flt_ltb_lt in E2. eexists. split; [done|]. right; left. split_and!; auto. }
  destruct (flt_ltb x (of_Z 200)) eqn:E3.
  { apply flt_ltb_lt in E3. eexists. split; [done|]. do 2 right; left. split_and!; auto. }
  destruct (flt_ltb x (of_Z 1000)) eqn:E4.
  { apply flt_ltb_lt in E4. eexists. split; [done|]. do 3 right; left. split_and!; auto. }
  eexists. split; [done|]. do 4 right. split_and!; auto.
Qed.

(** X1. When the merged record has [employees], its [employee_size] is the
    bucket of that number, low bound included and high bound excluded: below
    10 Startup, below 50 Small, below 200 Medium, below 1000 Large, otherwise
    Enterprise.  Without [employees] there is no [employee_size]. *)
Theorem employee_size_buckets py_str set_list ds name m :
  _merge_data_sources py_str set_list ds name = Ok m ->
  match m !! "employees" with
  | Some employees =>
      exists x size, as_number employees = Some x /\
        m !! "employee_size" = Some (VStr size) /\ size_bucket x size
  | None => m !! "employee_size" = None
  end.
Proof.
  intros Hm. apply merge_inv in Hm as (fo & inv & ro & _ & _ & _ & Hd).
  destruct (derived_metrics_spec _ _ Hd) as (_ & _ & Hsize).
  { intros k Hk. by apply merged_fields_lookup_derived. }
  rewrite (derived_metrics_lookup_ne _ _ "employees" Hd) by not_in_list.
  rewrite Hsize, (merged_numeric_lookup ds name fo inv ro "employees")
    by (unfold numeric_fields; repeat constructor).
  destruct (merge_numeric ds "employees") as [employees|] eqn:E; [|done].
  destruct (merge_numeric_number _ _ _ E) as (x & Hx & Hpos).
  assert (ordered x) as Ho by (intros ->; by destruct (of_Z 0)).
  destruct (size_bucket_spec employees x Hx Ho) as (size & Hs & Hb).
  exists x, size. simpl.
  assert (py_truthy employees = true) as ->.
  { assert (is_positive_number employees = true) as Hp
      by (apply is_positive_number_spec; by exists x).
    by apply andb_true_iff in Hp as [? _]. }
  rewrite Hs. simpl. done.
Qed.

Lemma employee_size_buckets_witness :
  _merge_data_sources str_model set_first scenario_profile "Acme" = Ok scenario_profile_merged /\
  match scenario_profile_merged !! "employees" with
  | Some employees =>
      exists x size, as_number employees = Some x /\
        scenario_profile_merged !! "employee_size" = Some (VStr size) /\ size_bucket x size
  | None => scenario_profile_merged !! "employee_size" = None
  end.
Proof.
  split; [exact scenario_profile_result|].
  exact (employee_size_buckets str_model set_first scenario_profile "Acme"
           scenario_profile_merged scenario_profile_result).
Defined.

(** *** Text fields *)

Lemma stripped_text_spec v w :
  stripped_text v = Some w <-> exists s, v = VStr s /\ w = VStr (py_strip s) /\ py_strip s <> "".
Proof.
  unfold stripped_text. split.
  - destruct v as [| | | |s| |]; try done.
    destruct (negb (String.eqb s "") && negb (String.eqb (py_strip s) "")) eqn:E; [|done].
    intros [= <-]. exists s. split_and!; [done..|].
    apply andb_true_iff in E as [_ E]. apply negb_true_iff in E. by apply String.eqb_neq.
  - intros (s & -> & -> & Hne).
    assert (String.eqb (py_strip s) "" = false) as -> by by apply String.eqb_neq.
    assert (String.eqb s "" = false) as ->; [|done].
    apply String.eqb_neq. intros ->. by apply Hne.
Qed.

Lemma collect_stripped_text ds field v :
  v ∈ collect ds field stripped_text <-> exists t, v = VStr t /\ reports_text ds field t.
Proof.
  rewrite elem_of_collect. unfold reports_text. split.
  - intros (source & w & Hs & Hr & Hk). apply stripped_text_spec in Hk as (s & -> & -> & Hne).
    exists (py_strip s). split; [done|]. by exists source, s.
  - intros (t & -> & source & s & Hs & Hr & -> & Hne). exists source, (VStr s).
    split_and!; [done..|]. apply stripped_text_spec. by exists s.
Qed.

(** X2. The merged [description] is the stripped text of a description that
    some source of the priority list reports, and no reported description is
    longer once stripped.  The field is absent exactly when no source reports
    a description that is a text with something other than blanks. *)
Theorem description_is_the_longest py_str set_list ds name m :
  _merge_data_sources py_str set_list ds name = Ok m ->
  match m !! "description" with
  | Some d =>
      exists t, d = VStr t /\ reports_text ds "description" t /\
        forall t', reports_text ds "description" t' -> String.length t' <= String.length t
  | None => forall t, ~ reports_text ds "description" t
  end.
Proof.
  intros Hm. apply merge_inv in Hm as (fo & inv & ro & _ & _ & _ & Hd).
  rewrite (derived_metrics_lookup_ne _ _ "description" Hd) by not_in_list.
  assert (merged_fields ds name fo inv ro !! "description" = merge_description ds) as ->.
  { unfold merged_fields. repeat (rewrite lookup_set_opt_ne by done).
    rewrite lookup_set_opt_eq; [done|]. by repeat (rewrite lookup_set_opt_ne by done). }
  unfold merge_description.
  pose proof (py_max_spec
    (fun a b => (String.length (text_of b) <? String.length (text_of a))%nat)
    (fun a b => String.length (text_of a) <= String.length (text_of b))
    (fun _ => True)) as Hmax.
  specialize (Hmax ltac:(intros; simpl; lia) ltac:(simpl; intros; lia)).
  specialize (Hmax ltac:(simpl; intros a b _ _ H%Nat.ltb_lt; lia)).
  specialize (Hmax ltac:(simpl; intros a b _ _ H%Nat.ltb_ge; lia)).
  specialize (Hmax (collect ds "description" stripped_text)
                   ltac:(apply Forall_forall; done)).
  destruct (py_max _ _) as [d|].
  - destruct Hmax as [Hin Hle]. apply collect_stripped_text in Hin as (t & -> & Ht).
    exists t. split_and!; [done..|]. intros t' Ht'.
    apply (Hle (VStr t')). apply collect_stripped_text. by exists t'.
  - intros t Ht. assert (VStr t ∈ collect ds "description" stripped_text) as Hin
      by (apply collect_stripped_text; by exists t).
    rewrite Hmax in Hin. by apply elem_of_nil in Hin.
Qed.

Lemma description_is_the_longest_witness :
  _merge_data_sources str_model set_first scenario_profile "Acme" = Ok scenario_profile_merged /\
  match scenario_profile_merged !! "description" with
  | Some d =>
      exists t, d = VStr t /\ reports_text scenario_profile "description" t /\
        forall t', reports_text scenario_profile "description" t' ->
                   String.length t' <= String.length t
  | None => forall t, ~ reports_text scenario_profile "description" t
  end.
Proof.
  split; [exact scenario_profile_result|].
  exact (description_is_the_longest str_model set_first scenario_profile "Acme"
           scenario_profile_merged scenario_profile_result).
Defined.

(** *** First-valid fields *)

Lemma head_omap_first {A B} (f : A -> option B) (l : list A) v :
  head (omap f l) = Some v <->
  exists i x, l !! i = Some x /\ f x = Some v /\
    forall j y, j < i -> l !! j = Some y -> f y = None.
Proof.
  induction l as [|a l IH]; csimpl.
  - split; [done|]. by intros (i & x & Hi & _).
  - destruct (f a) as [b|] eqn:E; csimpl.
    + split.
      * intros [= <-]. exists 0, a. split_and!; [done..|]. intros j y Hj. lia.
      * intros (i & x & Hi & Hx & Hbefore). destruct i as [|i].
        { injection Hi as <-. congruence. }
        specialize (Hbefore 0 a ltac:(lia) eq_refl). congruence.
    + rewrite IH. split.
      * intros (i & x & Hi & Hx & Hbefore). exists (S i), x. split_and!; [done..|].
        intros [|j] y Hj Hy.
        { injection Hy as <-. done. }
        apply (Hbefore j); [lia|done].
      * intros (i & x & Hi & Hx & Hbefore). destruct i as [|i].
        { injection Hi as <-. congruence. }
        exists i, x. split_and!; [done..|]. intros j y Hj Hy.
        apply (Hbefore (S j)); [lia|done].
Qed.

Lemma merged_fields_first_valid ds name founders investors rounds field keep :
  (field, keep) ∈ first_valid_fields ->
  merged_fields ds name founders investors rounds !! field = first_valid ds field keep.
Proof.
  intros H. unfold merged_fields, first_valid_fields in *.
  repeat (apply elem_of_cons in H as [[= -> ->]|H]);
    [..|by apply elem_of_nil in H];
    repeat (rewrite lookup_set_opt_ne by done);
    rewrite lookup_set_opt_eq; try done;
    repeat (rewrite lookup_set_opt_ne by done); done.
Qed.

Lemma merge_first_valid_lookup py_str set_list ds name m field keep :
  (field, keep) ∈ first_valid_fields ->
  _merge_data_sources py_str set_list ds name = Ok m ->
  m !! field = first_valid ds field keep.
Proof.
  intros Hf Hm. apply merge_inv in Hm as (fo & inv & ro & _ & _ & _ & Hd).
  rewrite (derived_metrics_lookup_ne _ _ field Hd).
  - by apply merged_fields_first_valid.
  - unfold first_valid_fields in Hf.
    repeat (apply elem_of_cons in Hf as [[= -> ->]|Hf]); [..|by apply elem_of_nil in Hf];
      not_in_list.
Qed.

(** X3. For [ceo], [founded_year], [website] and [location] the merged
    record holds what the first source of the priority list with a valid value
    gives (the stripped text, or the year): a source counts only when no
    earlier one has a valid value, and the field is absent exactly when none
    has. *)
Theorem first_valid_source_wins py_str set_list ds name m field keep v :
  (field, keep) ∈ first_valid_fields ->
  _merge_data_sources py_str set_list ds name = Ok m ->
  m !! field = Some v <-> first_by_priority ds field keep v.
Proof.
  intros Hf Hm. rewrite (merge_first_valid_lookup _ _ _ _ _ _ keep Hf Hm).
  unfold first_valid, collect, first_by_priority. apply head_omap_first.
Qed.

Lemma first_valid_source_wins_witness :
  ("ceo", stripped_text) ∈ first_valid_fields /\
  _merge_data_sources str_model set_first scenario_profile "Acme" = Ok scenario_profile_merged /\
  (scenario_profile_merged !! "ceo" = Some (VStr "Ada Lovelace") <->
   first_by_priority scenario_profile "ceo" stripped_text (VStr "Ada Lovelace")).
Proof.
  assert (("ceo", stripped_text) ∈ first_valid_fields) as H by apply list_elem_of_here.
  split; [exact H|]. split; [exact scenario_profile_result|].
  exact (first_valid_source_wins str_model set_first scenario_profile "Acme"
           scenario_profile_merged "ceo" stripped_text (VStr "Ada Lovelace") H
           scenario_profile_result).
Defined.

Lemma rstrip_cons_keep c s : is_py_space c = false -> rstrip (String c s) = String c (rstrip s).
Proof. intros H. simpl. rewrite H. by destruct (rstrip s). Qed.

Lemma prefix_cons_inv a p s :
  String.prefix (String a p) s = true ->
  exists s', s = String a s' /\ String.prefix p s' = true.
Proof.
  destruct s as [|b s]; [done|]. cbn [String.prefix].
  destruct (ascii_dec a b) as [->|]; [|done]. intros H. by exists s.
Qed.

Lemma prefix_cons a p s :
  String.prefix p s = true -> String.prefix (String a p) (String a s) = true.
Proof. intros H. cbn [String.prefix]. by destruct (ascii_dec a a). Qed.

Lemma strip_keeps_http s :
  String.prefix "http" s = true -> String.prefix "http" (py_strip s) = true.
Proof.
  intros H.
  apply prefix_cons_inv in H as (s1 & -> & H). apply prefix_cons_inv in H as (s2 & -> & H).
  apply prefix_cons_inv in H as (s3 & -> & H). apply prefix_cons_inv in H as (s4 & -> & _).
  unfold py_strip. cbn [lstrip]. change (is_py_space "h") with false. cbv iota.
  rewrite !rstrip_cons_keep by reflexivity.
  do 4 apply prefix_cons. by destruct (rstrip s4).
Qed.

(** X4. A merged [website] is a text that starts with [http], also after the
    stripping the merge applies to it. *)
Theorem website_starts_with_http py_str set_list ds name m w :
  _merge_data_sources py_str set_list ds name = Ok m ->
  m !! "website" = Some w ->
  exists t, w = VStr t /\ String.prefix "http" t = true.
Proof.
  intros Hm Hw.
  rewrite (merge_first_valid_lookup _ _ _ _ _ _ valid_website
             ltac:(unfold first_valid_fields; do 2 right; left) Hm) in Hw.
  apply first_valid_elem in Hw as (source & v & _ & _ & Hv).
  unfold valid_website in Hv. destruct v as [| | | |s| |]; try done.
  destruct (_ && _) eqn:E; [|done]. injection Hv as <-.
  apply andb_true_iff in E as [_ E]. exists (py_strip s). split; [done|].
  by apply strip_keeps_http.
Qed.

Lemma website_starts_with_http_witness :
  _merge_data_sources str_model set_first scenario_profile "Acme" = Ok scenario_profile_merged /\
  scenario_profile_merged !! "website" = Some (VStr "https://acme.example") /\
  exists t, VStr "https://acme.example" = VStr t /\ String.prefix "http" t = true.
Proof.
  assert (scenario_profile_merged !! "website" = Some (VStr "https://acme.example")) as H
    by by_vm.
  split; [exact scenario_profile_result|]. split; [exact H|].
  exact (website_starts_with_http str_model set_first scenario_profile "Acme"
           scenario_profile_merged (VStr "https://acme.example") scenario_profile_result H).
Defined.

(** X5. A merged [founded_year] is an integer above 1900 that one of the
    sources of the priority list reports as such. *)
Theorem founded_year_is_after_1900 py_str set_list ds name m year :
  _merge_data_sources py_str set_list ds name = Ok m ->
  m !! "founded_year" = Some year ->
  exists z source, year = VInt z /\ (1900 < z)%Z /\
    source ∈ source_priority /\ reported ds source "founded_year" = Some (VInt z).
Proof.
  intros Hm Hy.
  rewrite (merge_first_valid_lookup _ _ _ _ _ _ valid_year
             ltac:(unfold first_valid_fields; right; left) Hm) in Hy.
  apply first_valid_elem in Hy as (source & v & Hs & Hr & Hv).
  pose proof Hv as Hv'. apply valid_year_spec in Hv' as (z & -> & Hz).
  exists z, source. split_and!; [done..|].
  unfold valid_year in Hv. destruct (as_int v); [|done].
  destruct (_ && _); [|done]. by injection Hv as ->.
Qed.

Lemma founded_year_is_after_1900_witness :
  _merge_data_sources str_model set_first scenario_profile "Acme" = Ok scenario_profile_merged /\
  scenario_profile_merged !! "founded_year" = Some (VInt 2015) /\
  exists z source, VInt 2015 = VInt z /\ (1900 < z)%Z /\
    source ∈ source_priority /\
    reported scenario_profile source "founded_year" = Some (VInt z).
Proof.
  assert (scenario_profile_merged !! "founded_year" = Some (VInt 2015)) as H by by_vm.
  split; [exact scenario_profile_result|]. split; [exact H|].
  exact (founded_year_is_after_1900 str_model set_first scenario_profile "Acme"
           scenario_profile_merged (VInt 2015) scenario_profile_result H).
Defined.

(** *** When the merge raises *)

Lemma unhashable_error_spec xs :
  is_Some (unhashable_error xs) <->
  exists x, x ∈ xs /\ ((exists l, x = VList l) \/ (exists d, x = VDict d)).
Proof.
  induction xs as [|y xs IH]; simpl.
  - split; [by intros [? ?]|]. intros (x & Hx & _). by apply elem_of_nil in Hx.
  - destruct y; try (rewrite IH; split;
      [intros (x & Hx & H); exists x; split; [by apply list_elem_of_further|done]
      |intros (x & [->|Hx]%elem_of_cons & H); [by destruct H as [[??]|[??]]|by exists x]]).
    + split; [|by eexists]. intros _. eexists. split; [apply list_elem_of_here|]. left. by eexists.
    + split; [|by eexists]. intros _. eexists. split; [apply list_elem_of_here|]. right. by eexists.
Qed.

Lemma merge_names_raises set_list ds field :
  (exists e, merge_names set_list ds field = Raise e) <->
  exists x, x ∈ all_items ds field /\ py_truthy x = true /\
    ((exists l, x = VList l) \/ (exists d, x = VDict d)).
Proof.
  unfold merge_names, py_list_set.
  assert (is_Some (unhashable_error (List.filter py_truthy (all_items ds field))) <->
          exists x, x ∈ all_items ds field /\ py_truthy x = true /\
            ((exists l, x = VList l) \/ (exists d, x = VDict d))) as <-.
  { rewrite unhashable_error_spec. split.
    - intros (x & [Hx Ht]%list_elem_of_In%filter_In & H). exists x.
      split_and!; [by apply list_elem_of_In|done..].
    - intros (x & Hx & Ht & H). exists x. split; [|done].
      apply list_elem_of_In, filter_In. split; [by apply list_elem_of_In|done]. }
  destruct (all_items ds field) as [|y l] eqn:E.
  - simpl. split; [by intros [??]|by intros [??]].
  - destruct (unhashable_error _) as [e|]; simpl.
    + split; [by eexists|by eexists].
    + split; [by intros [??]|by intros [??]].
Qed.

Lemma merged_fields_derive ds name fo inv ro :
  exists m, _calculate_derived_metrics (merged_fields ds name fo inv ro) = Ok m.
Proof.
  apply derived_metrics_total.
  - intros v. rewrite merged_fields_founded_year. intros Hv.
    apply first_valid_elem in Hv as (? & w & _ & _ & Hv).
    apply valid_year_spec in Hv as (z & -> & _). by eexists.
  - intros v. rewrite (merged_numeric_lookup ds name fo inv ro "funding_raised")
      by (unfold numeric_fields; repeat constructor).
    intros (x & -> & _)%merge_numeric_number. by eexists.
  - intros v. rewrite (merged_numeric_lookup ds name fo inv ro "employees")
      by (unfold numeric_fields; repeat constructor).
    intros (x & -> & _)%merge_numeric_number. by eexists.
Qed.

Lemma merge_rounds_raises py_str ds :
  (exists e, merge_rounds py_str ds = Raise e) <-> unprintable_round py_str ds.
Proof.
  unfold merge_rounds, unprintable_round, unique_rounds.
  destruct (all_items ds "funding_rounds") as [|r l] eqn:E.
  - split; [by intros [e ?]|]. intros (d & e & Hd & _). by apply elem_of_nil in Hd.
  - rewrite <- (dedup_loop_raises py_str (r :: l) ([], ∅)).
    destruct (dedup_loop py_str (r :: l) ([], ∅)) as [acc|e]; simpl.
    + split; by intros [e ?].
    + split; by eexists.
Qed.

(** X6. The merge raises exactly when the founders or the investors lists of
    the sources hold a truthy item that [set] cannot hash (a list or a
    mapping), or the funding rounds hold a mapping whose amount or type the
    f-string of the deduplication key cannot format; on every other input it
    returns a record. *)
Theorem merge_raises_iff_unhashable_or_unprintable py_str set_list ds name :
  (exists e, _merge_data_sources py_str set_list ds name = Raise e) <->
  unhashable_name ds \/ unprintable_round py_str ds.
Proof.
  rewrite <- merge_rounds_raises.
  assert (unhashable_name ds <->
          (exists e, merge_names set_list ds "founders" = Raise e) \/
          (exists e, merge_names set_list ds "investors" = Raise e)) as ->.
  { rewrite !merge_names_raises. unfold unhashable_name, name_fields. split.
    - intros (field & x & Hf & Hx). apply elem_of_cons in Hf as [->|Hf]; [left; by exists x|].
      apply list_elem_of_singleton in Hf as ->. right. by exists x.
    - intros [(x & Hx)|(x & Hx)].
      + exists "founders", x. split; [repeat constructor|done].
      + exists "investors", x. split; [repeat constructor|done]. }
  unfold _merge_data_sources.
  destruct (merge_names set_list ds "founders") as [fo|e1]; simpl;
    [|split; [intros _; left; left; by eexists|by eexists]].
  destruct (merge_names set_list ds "investors") as [inv|e2]; simpl;
    [|split; [intros _; left; right; by eexists|by eexists]].
  destruct (merge_rounds py_str ds) as [ro|e3]; simpl;
    [|split; [intros _; right; by eexists|by eexists]].
  destruct (merged_fields_derive ds name fo inv ro) as [m ->].
  split; [by intros [e ?]|]. by intros [[[e ?]|[e ?]]|[e ?]].
Qed.

(** *** More on the aggregator loop *)

Lemma scrape_one_all_data py_str name cb total i source scraper st :
  exists data,
    all_data (scrape_one py_str name cb total i source scraper st)
    = <[source := data]> (all_data st) /\
    scraped (scrape_one py_str name cb total i source scraper st)
    = if decide (is_Some (all_data st !! source)) then scraped st else scraped st ++ [source].
Proof.
  unfold scrape_one.
  destruct cb as [f|]; simpl.
  - destruct (f _ _) as [msg|]; [by eexists|].
    destruct (dispatch source scraper name) as [data|msg]; [|by eexists].
    destruct (_ && _); [by eexists|]. destruct (py_str _); by eexists.
  - destruct (dispatch source scraper name) as [data|msg]; [|by eexists].
    destruct (_ && _); [by eexists|]. destruct (py_str _); by eexists.
Qed.

Lemma scrape_all_scraped py_str name cb total items : forall i st,
  NoDup items.*1 ->
  (forall source, source ∈ items.*1 -> all_data st !! source = None) ->
  scraped (scrape_all py_str name cb total i items st) = scraped st ++ items.*1.
Proof.
  induction items as [|[source scraper] items IH]; intros i st Hnd Hfresh; simpl.
  - by rewrite app_nil_r.
  - apply NoDup_cons in Hnd as [Hnin Hnd].
    destruct (scrape_one_all_data py_str name cb total i source scraper st) as (data & Hd & Hs).
    rewrite IH; [|done|].
    + rewrite Hs, decide_False, <- app_assoc; [done|].
      rewrite (Hfresh source); [by intros [??]|]. simpl. apply list_elem_of_here.
    + intros s Hin. rewrite Hd, lookup_insert_ne.
      * apply Hfresh. simpl. by apply list_elem_of_further.
      * intros ->. done.
Qed.

Lemma scrape_one_successes py_str name cb total i source scraper st :
  (successful_sources st <= successful_sources (scrape_one py_str name cb total i source scraper st)
   <= successful_sources st + (if succeeds name (source, scraper) then 1 else 0))%Z /\
  (callback_returns cb ->
   successful_sources (scrape_one py_str name cb total i source scraper st)
   = (successful_sources st + (if succeeds name (source, scraper) then 1 else 0))%Z).
Proof.
  unfold scrape_one, succeeds, callback_returns. simpl.
  destruct cb as [f|]; simpl.
  - destruct (f _ _) as [msg|] eqn:Ef.
    + simpl. split; [destruct (dispatch _ _ _) as [data|]; [destruct (_ && _)|]; lia|].
      intros H. rewrite (H f) in Ef; done.
    + destruct (dispatch source scraper name) as [data|msg]; simpl; [|split; [lia|intros; lia]].
      destruct (_ && _); [|destruct (py_str _)]; simpl; (split; [lia|intros; lia]).
  - destruct (dispatch source scraper name) as [data|msg]; simpl; [|split; [lia|intros; lia]].
    destruct (_ && _); [|destruct (py_str _)]; simpl; (split; [lia|intros; lia]).
Qed.

Lemma scrape_all_successes py_str name cb total items : forall i st,
  (successful_sources st <= successful_sources (scrape_all py_str name cb total i items st)
   <= successful_sources st + Z.of_nat (length (List.filter (succeeds name) items)))%Z /\
  (callback_returns cb ->
   successful_sources (scrape_all py_str name cb total i items st)
   = (successful_sources st + Z.of_nat (length (List.filter (succeeds name) items)))%Z).
Proof.
  induction items as [|[source scraper] items IH]; intros i st; simpl.
  - split; [lia|intros; lia].
  - destruct (IH (S i) (scrape_one py_str name cb total i source scraper st)) as [Hb He].
    destruct (scrape_one_successes py_str name cb total i source scraper st) as [Hb1 He1].
    destruct (succeeds name (source, scraper)); simpl length; split;
      try lia; intros Hcb; rewrite (He Hcb), (He1 Hcb); lia.
Qed.

Lemma filter_length_le {A} (p : A -> bool) l : length (List.filter p l) <= length l.
Proof. induction l as [|x l IH]; simpl; [lia|]. destruct (p x); simpl; lia. Qed.

(** X7. In the record the aggregator returns, [total_sources] is the number
    of registered collectors and [successful_sources] lies between zero and
    the number of collectors that succeed for the company (a non-empty result
    without an [error] key); it is that number when the progress callback
    does not raise. *)
Theorem successful_sources_counts_successes py_str set_list self company_name
    progress_callback now record :
  (get_comprehensive_data py_str set_list self company_name progress_callback now).1
  = Ok record ->
  exists meta s,
    record !! "metadata" = Some (VDict meta) /\
    meta !! "successful_sources" = Some (VInt s) /\
    meta !! "total_sources" = Some (VInt (Z.of_nat (length (scrapers self)))) /\
    (0 <= s)%Z /\
    (s <= Z.of_nat (length (List.filter (succeeds company_name) (scrapers self))))%Z /\
    length (List.filter (succeeds company_name) (scrapers self)) <= length (scrapers self) /\
    (callback_returns progress_callback ->
     s = Z.of_nat (length (List.filter (succeeds company_name) (scrapers self)))).
Proof.
  unfold get_comprehensive_data. simpl. intros H.
  apply bind_Ok in H as (m & _ & [= <-]).
  set (st := collected py_str self company_name progress_callback).
  exists {[ "successful_sources" := VInt (successful_sources st);
            "total_sources" := VInt (Z.of_nat (length (scrapers self)));
            "scraped_sources" := VList (VStr <$> scraped st);
            "timestamp" := VFloat (FFin now) ]}, (successful_sources st).
  rewrite lookup_insert_eq.
  destruct (scrape_all_successes py_str company_name progress_callback (length (scrapers self))
              (scrapers self) 0
              {| all_data := ∅; scraped := []; successful_sources := 0; trace := [] |})
    as [Hb He].
  simpl in Hb, He. fold (collected py_str self company_name progress_callback) in Hb, He. fold st in Hb, He.
  pose proof (filter_length_le (succeeds company_name) (scrapers self)).
  split_and!; [done|done|done|lia|lia|lia|done].
Qed.

Lemma successful_sources_counts_successes_witness :
  (get_comprehensive_data str_model set_first mixed_aggregator "Acme" None 1730000000).1
  = Ok mixed_record /\
  exists meta s,
    mixed_record !! "metadata" = Some (VDict meta) /\
    meta !! "successful_sources" = Some (VInt s) /\
    meta !! "total_sources" = Some (VInt (Z.of_nat (length (scrapers mixed_aggregator)))) /\
    (0 <= s)%Z /\
    (s <= Z.of_nat (length (List.filter (succeeds "Acme") (scrapers mixed_aggregator))))%Z /\
    length (List.filter (succeeds "Acme") (scrapers mixed_aggregator))
    <= length (scrapers mixed_aggregator) /\
    (callback_returns None ->
     s = Z.of_nat (length (List.filter (succeeds "Acme") (scrapers mixed_aggregator)))).
Proof.
  split; [exact mixed_aggregator_result|].
  exact (successful_sources_counts_successes str_model set_first mixed_aggregator "Acme" None
           1730000000 mixed_record mixed_aggregator_result).
Defined.

(** X8. [scraped_sources] lists every registered collector once, in
    registration order, whether it succeeded, failed or was never called. *)
Theorem every_source_is_recorded py_str set_list self company_name progress_callback now
    record :
  NoDup (scrapers self).*1 ->
  (get_comprehensive_data py_str set_list self company_name progress_callback now).1
  = Ok record ->
  exists meta,
    record !! "metadata" = Some (VDict meta) /\
    meta !! "scraped_sources" = Some (VList (VStr <$> (scrapers self).*1)).
Proof.
  unfold get_comprehensive_data. simpl. intros Hnd H.
  apply bind_Ok in H as (m & _ & [= <-]).
  eexists. rewrite lookup_insert_eq. split; [done|].
  unfold collected. rewrite scrape_all_scraped; [done|done|].
  intros source _. simpl. apply lookup_empty.
Qed.

Lemma every_source_is_recorded_witness :
  NoDup (scrapers mixed_aggregator).*1 /\
  (get_comprehensive_data str_model set_first mixed_aggregator "Acme" None 1730000000).1
  = Ok mixed_record /\
  exists meta,
    mixed_record !! "metadata" = Some (VDict meta) /\
    meta !! "scraped_sources" = Some (VList (VStr <$> (scrapers mixed_aggregator).*1)).
Proof.
  assert (NoDup (scrapers mixed_aggregator).*1) as H.
  { simpl. repeat (apply NoDup_cons_2; [not_in_list|]). apply NoDup_nil_2. }
  split; [exact H|]. split; [exact mixed_aggregator_result|].
  exact (every_source_is_recorded str_model set_first mixed_aggregator "Acme" None 1730000000
           mixed_record H mixed_aggregator_result).
Defined.

Lemma progress_reports_app t1 t2 :
  progress_reports (t1 ++ t2) = progress_reports t1 ++ progress_reports t2.
Proof. unfold progress_reports. apply omap_app. Qed.

Lemma scrape_one_progress py_str name f total i source scraper st :
  progress_reports (trace (scrape_one py_str name (Some f) total i source scraper st))
  = progress_reports (trace st)
    ++ [("Scraping " +:+ source +:+ "...", (Z.of_nat (i + 1) # Pos.of_nat total)%Q)].
Proof.
  unfold scrape_one. simpl.
  destruct (f _ _) as [msg|]; [simpl; by rewrite progress_reports_app|].
  destruct (dispatch source scraper name) as [data|msg];
    [destruct (_ && _); [|destruct (py_str _)]|]; simpl;
    rewrite ?progress_reports_app; simpl; by rewrite ?app_nil_r.
Qed.

Lemma scrape_all_progress py_str name f total items : forall i st,
  progress_reports (trace (scrape_all py_str name (Some f) total i items st))
  = progress_reports (trace st)
    ++ imap (fun j item => ("Scraping " +:+ item.1 +:+ "...",
                            (Z.of_nat (i + j + 1) # Pos.of_nat total)%Q)) items.
Proof.
  induction items as [|[source scraper] items IH]; intros i st; simpl.
  - by rewrite app_nil_r.
  - rewrite IH, scrape_one_progress, <- app_assoc. f_equal. simpl.
    rewrite Nat.add_0_r. f_equal. apply imap_ext. intros j item _. simpl.
    by replace (S (i + j + 1)) with (i + S j + 1) by lia.
Qed.

(** X9. With a progress callback, the progress reports of a run are one per
    registered collector, in order: the message names the collector and the
    fraction is its one-based position over the number of collectors. *)
Theorem progress_is_reported_before_each_collector py_str set_list self company_name f now :
  progress_reports
    (get_comprehensive_data py_str set_list self company_name (Some f) now).2
  = imap (fun j item => ("Scraping " +:+ item.1 +:+ "...",
                         (Z.of_nat (j + 1) # Pos.of_nat (length (scrapers self)))%Q))
      (scrapers self).
Proof.
  unfold get_comprehensive_data, collected. simpl. by rewrite scrape_all_progress.
Qed.

Lemma scrape_one_raising_callback py_str name cb total i source scraper st :
  callback_raises cb -> only_errors st ->
  only_errors (scrape_one py_str name cb total i source scraper st) /\
  collector_calls (trace (scrape_one py_str name cb total i source scraper st))
  = collector_calls (trace st).
Proof.
  intros (f & -> & Hf) Hst. unfold scrape_one. simpl.
  destruct (Hf ("Scraping " +:+ source +:+ "...")
              (Z.of_nat (i + 1) # Pos.of_nat total)%Q) as [msg ->].
  split; [by apply store_error_only, log_only_errors|].
  simpl. rewrite collector_calls_app. simpl. by rewrite app_nil_r.
Qed.

Lemma scrape_all_raising_callback py_str name cb total items : forall i st,
  callback_raises cb -> only_errors st ->
  only_errors (scrape_all py_str name cb total i items st) /\
  collector_calls (trace (scrape_all py_str name cb total i items st))
  = collector_calls (trace st).
Proof.
  induction items as [|[source scraper] items IH]; intros i st Hcb Hst; simpl; [done|].
  destruct (scrape_one_raising_callback py_str name cb total i source scraper st Hcb Hst) as [H1 H2].
  destruct (IH (S i) _ Hcb H1) as [H3 H4]. split; [done|]. by rewrite H4.
Qed.

(** A run that recorded nothing but errors returns the name and the metadata. *)
Lemma only_errors_result py_str set_list self company_name progress_callback now :
  only_errors (collected py_str self company_name progress_callback) ->
  exists scraped_sources,
    (get_comprehensive_data py_str set_list self company_name progress_callback now).1
    = Ok {[ "metadata" := VDict {[ "successful_sources" := VInt 0;
                                   "total_sources" := VInt (Z.of_nat (length (scrapers self)));
                                   "scraped_sources" := VList (VStr <$> scraped_sources);
                                   "timestamp" := VFloat (FFin now) ]};
            "name" := VStr company_name ]}.
Proof.
  intros [Hzero Hall]. unfold get_comprehensive_data. simpl.
  set (st := collected py_str self company_name progress_callback) in *.
  rewrite (merge_ext py_str set_list (all_data st) ∅).
  - exists (scraped st). unfold metadata. by rewrite Hzero.
  - intros source field Hne. unfold reported. rewrite lookup_empty.
    destruct (all_data st !! source) as [r|] eqn:E; [|done]. simpl.
    destruct (Hall _ _ E) as [e ->]. unfold error_record. by rewrite lookup_singleton_ne.
Qed.

(** X10. When the progress callback raises at every call, no collector is
    called at all, and the call still returns a record, which holds the name
    and the metadata only, with no successful source. *)
Theorem raising_callback_disables_collectors py_str set_list self company_name
    progress_callback now :
  callback_raises progress_callback ->
  collector_calls
    (get_comprehensive_data py_str set_list self company_name progress_callback now).2 = [] /\
  exists scraped_sources,
    (get_comprehensive_data py_str set_list self company_name progress_callback now).1
    = Ok {[ "metadata" := VDict {[ "successful_sources" := VInt 0;
                                   "total_sources" := VInt (Z.of_nat (length (scrapers self)));
                                   "scraped_sources" := VList (VStr <$> scraped_sources);
                                   "timestamp" := VFloat (FFin now) ]};
            "name" := VStr company_name ]}.
Proof.
  intros Hcb.
  destruct (scrape_all_raising_callback py_str company_name progress_callback
              (length (scrapers self)) (scrapers self) 0
              {| all_data := ∅; scraped := []; successful_sources := 0; trace := [] |} Hcb)
    as [Herr Hcalls].
  { split; [done|]. intros s r. simpl. by rewrite lookup_empty. }
  split; [exact Hcalls|]. by apply only_errors_result.
Qed.

Lemma raising_callback_disables_collectors_witness :
  callback_raises closed_progress_bar /\
  collector_calls
    (get_comprehensive_data str_model set_first found_aggregator "Acme" closed_progress_bar
       1730000000).2 = [] /\
  exists scraped_sources,
    (get_comprehensive_data str_model set_first found_aggregator "Acme" closed_progress_bar
       1730000000).1
    = Ok {[ "metadata" := VDict {[ "successful_sources" := VInt 0;
                                   "total_sources" :=
                                     VInt (Z.of_nat (length (scrapers found_aggregator)));
                                   "scraped_sources" := VList (VStr <$> scraped_sources);
                                   "timestamp" := VFloat (FFin 1730000000) ]};
            "name" := VStr "Acme" ]}.
Proof.
  assert (callback_raises closed_progress_bar) as H.
  { eexists. split; [reflexivity|]. intros message fraction. by eexists. }
  split; [exact H|].
  exact (raising_callback_disables_collectors str_model set_first found_aggregator "Acme"
           closed_progress_bar 1730000000 H).
Defined.

(** *** Patterns that need a character the text lacks *)

Lemma class_only_spec p c x : class_only p c = true -> p x = true -> x = c.
Proof.
  unfold class_only. intros H Hp. rewrite forallb_forall in H.
  assert (In (nat_of_ascii x) (seq 0 256)) as Hin.
  { apply in_seq. pose proof (nat_ascii_bounded x). lia. }
  apply H in Hin. cbv zeta in Hin. rewrite ascii_nat_embedding, Hp in Hin.
  by apply Ascii.eqb_eq.
Qed.

Section Lacks.
Context (c : ascii).

Lemma contains_char_tail x s :
  contains_char c (String x s) = false -> Ascii.eqb x c = false /\ contains_char c s = false.
Proof. simpl. by intros H%orb_false_iff. Qed.

Lemma star_match_dead p s : forall k,
  contains_char c s = false ->
  (forall s', contains_char c s' = false -> k s' = None) ->
  star_match p s k = None.
Proof.
  induction s as [|x s IH]; intros k Hs Hk; simpl; [by apply Hk|].
  apply contains_char_tail in Hs as Hs'. destruct Hs' as [_ Hs'].
  destruct (p x); [|by apply Hk]. rewrite IH by done. by apply Hk.
Qed.

Lemma re_match_dead r : forall s k,
  contains_char c s = false ->
  (forall s', contains_char c s' = false -> k s' = None) ->
  re_match r s k = None.
Proof.
  induction r as [|p|r1 IH1 r2 IH2|r1 IH1 r2 IH2|p]; intros s k Hs Hk; simpl.
  - by apply Hk.
  - destruct s as [|x s]; [done|]. apply contains_char_tail in Hs as [_ Hs].
    destruct (p x); [by apply Hk|done].
  - apply IH1; [done|]. intros s' Hs'. by apply IH2.
  - by rewrite IH1, IH2.
  - by apply star_match_dead.
Qed.

Lemma re_match_requires r : forall s k,
  requires_char c r = true -> contains_char c s = false -> re_match r s k = None.
Proof.
  induction r as [|p|r1 IH1 r2 IH2|r1 IH1 r2 IH2|p]; intros s k Hr Hs; simpl in *; try done.
  - destruct s as [|x s]; [done|]. apply contains_char_tail in Hs as [Hx Hs].
    destruct (p x) eqn:Hp; [|done]. apply (class_only_spec _ _ _ Hr) in Hp as ->.
    by rewrite Ascii.eqb_refl in Hx.
  - apply orb_true_iff in Hr as [Hr|Hr]; [by apply IH1|].
    apply re_match_dead; [done|]. intros s' Hs'. by apply IH2.
  - apply andb_true_iff in Hr as [Hr1 Hr2]. by rewrite IH1, IH2.
Qed.

Lemma match_at_requires r s :
  requires_char c r = true -> contains_char c s = false -> match_at r s = None.
Proof. intros Hr Hs. unfold match_at. by rewrite re_match_requires. Qed.

Lemma re_search_requires r s :
  requires_char c r = true -> contains_char c s = false -> re_search r s = None.
Proof.
  intros Hr. induction s as [|x s IH]; intros Hs; simpl.
  - by rewrite match_at_requires.
  - rewrite match_at_requires by done. apply contains_char_tail in Hs as [_ Hs]. by apply IH.
Qed.

Lemma findall_from_requires r fuel : forall s,
  requires_char c r = true -> contains_char c s = false -> findall_from fuel r s = [].
Proof.
  induction fuel as [|fuel IH]; intros s Hr Hs; simpl; [done|].
  rewrite match_at_requires by done. destruct s as [|x s]; [done|].
  apply contains_char_tail in Hs as [_ Hs]. by apply IH.
Qed.

Lemma extract_with_requires patterns text : forall amounts,
  forallb (requires_char c) patterns = true -> contains_char c text = false ->
  extract_with patterns amounts text = Ok amounts.
Proof.
  induction patterns as [|r patterns IH]; intros amounts Hr Hs; simpl; [done|].
  apply andb_true_iff in Hr as [Hr Hrs]. unfold re_findall.
  rewrite findall_from_requires by done. simpl. by apply IH.
Qed.

Lemma extract_first_requires patterns text :
  forallb (requires_char c) patterns = true -> contains_char c text = false ->
  extract_first patterns text = Ok None.
Proof.
  induction patterns as [|r patterns IH]; intros Hr Hs; simpl; [done|].
  apply andb_true_iff in Hr as [Hr Hrs]. rewrite re_search_requires by done. by apply IH.
Qed.
End Lacks.

(** X11. A text without a dollar sign yields no funding amount, no revenue
    and no market cap: every pattern of the four extractors needs one. *)
Theorem no_dollar_sign_no_amount text :
  contains_char "$" text = false ->
  _extract_funding_amounts text = Ok [] /\
  web_extract_funding_amounts text = Ok [] /\
  _extract_revenue text = Ok None /\
  _extract_market_cap text = Ok None.
Proof.
  intros H. split_and!.
  - apply (extract_with_requires "$"); [by_vm|done].
  - apply (extract_with_requires "$"); [by_vm|done].
  - apply (extract_first_requires "$"); [by_vm|done].
  - apply (extract_first_requires "$"); [by_vm|done].
Qed.

Lemma no_dollar_sign_no_amount_witness :
  contains_char "$" "Acme raised 5 million and is valued at 2 billion" = false /\
  _extract_funding_amounts "Acme raised 5 million and is valued at 2 billion" = Ok [] /\
  web_extract_funding_amounts "Acme raised 5 million and is valued at 2 billion" = Ok [] /\
  _extract_revenue "Acme raised 5 million and is valued at 2 billion" = Ok None /\
  _extract_market_cap "Acme raised 5 million and is valued at 2 billion" = Ok None.
Proof.
  assert (contains_char "$" "Acme raised 5 million and is valued at 2 billion" = false) as H
    by reflexivity.
  split; [exact H|].
  exact (no_dollar_sign_no_amount "Acme raised 5 million and is valued at 2 billion" H).
Defined.

(** *** Amounts are never negative *)

Lemma py_float_nonneg s q : py_float s = Ok q -> (0 <= q)%Q.
Proof.
  unfold py_float. destruct (split_dot s) as [whole fraction].
  destruct (digits_value 0 whole) as [a|]; [|done].
  destruct (digits_value 0 (default EmptyString fraction)) as [b|]; [|done].
  destruct (_ && _); [done|]. intros [= <-]. rewrite Qred_correct.
  unfold Qle. simpl. lia.
Qed.

Lemma parse_funding_amount_nonneg text a :
  parse_funding_amount text = Ok (Some a) -> (0 <= a)%Q.
Proof.
  unfold parse_funding_amount. destruct (String.eqb text ""); [done|].
  destruct (re_search _ _) as [found|]; [|done].
  destruct (py_float _) as [q|] eqn:E; [|done]. simpl. intros [= <-].
  apply py_float_nonneg in E. rewrite Qred_correct.
  repeat case_match; try done; apply Qmult_le_0_compat; done.
Qed.

Lemma parse_matches_positive matches : forall amounts l,
  Forall (fun a => (0 < a)%Q) amounts ->
  parse_matches amounts matches = Ok l -> Forall (fun a => (0 < a)%Q) l.
Proof.
  induction matches as [|m matches IH]; intros amounts l Hpos; simpl.
  - by intros [= <-].
  - destruct (parse_funding_amount m) as [[a|]|] eqn:E; simpl; [|by apply IH|done].
    apply IH. destruct (Qeq_bool a 0) eqn:E0; [done|].
    apply Forall_app. split; [done|]. apply Forall_singleton.
    apply parse_funding_amount_nonneg in E. apply Qle_lt_or_eq in E as [E|E]; [done|].
    apply Qeq_bool_neq in E0. exfalso. apply E0. by symmetry.
Qed.

Lemma extract_with_positive patterns text : forall amounts l,
  Forall (fun a => (0 < a)%Q) amounts ->
  extract_with patterns amounts text = Ok l -> Forall (fun a => (0 < a)%Q) l.
Proof.
  induction patterns as [|r patterns IH]; intros amounts l Hpos; simpl.
  - by intros [= <-].
  - destruct (parse_matches amounts (re_findall r text)) as [amounts'|] eqn:E; [|done].
    simpl. apply IH. by eapply parse_matches_positive.
Qed.

(** X12. Every amount in the list [_extract_funding_amounts] returns is
    positive: a match that parses to zero is dropped. *)
Theorem extracted_amounts_are_positive text l :
  _extract_funding_amounts text = Ok l \/ web_extract_funding_amounts text = Ok l ->
  Forall (fun a => (0 < a)%Q) l.
Proof. intros [H|H]; by eapply extract_with_positive. Qed.

Lemma extracted_amounts_are_positive_witness :
  (_extract_funding_amounts "Acme raised $5M in 2020 and $2.5 billion later"
   = Ok [5000000%Q; 2500000000%Q; 5000000%Q] \/
   web_extract_funding_amounts "Acme raised $5M in 2020 and $2.5 billion later"
   = Ok [5000000%Q; 2500000000%Q; 5000000%Q]) /\
  Forall (fun a => (0 < a)%Q) [5000000%Q; 2500000000%Q; 5000000%Q].
Proof.
  assert (_extract_funding_amounts "Acme raised $5M in 2020 and $2.5 billion later"
          = Ok [5000000%Q; 2500000000%Q; 5000000%Q] \/
          web_extract_funding_amounts "Acme raised $5M in 2020 and $2.5 billion later"
          = Ok [5000000%Q; 2500000000%Q; 5000000%Q]) as H by (left; exact extract_two).
  split; [exact H|].
  exact (extracted_amounts_are_positive "Acme raised $5M in 2020 and $2.5 billion later"
           [5000000%Q; 2500000000%Q; 5000000%Q] H).
Defined.

(** X13. An amount that [parse_funding_amount], [_extract_revenue] or
    [_extract_market_cap] returns is never negative. *)
Theorem parsed_amounts_are_not_negative text a :
  parse_funding_amount text = Ok (Some a) \/ _extract_revenue text = Ok (Some a) \/
  _extract_market_cap text = Ok (Some a) ->
  (0 <= a)%Q.
Proof.
  assert (forall patterns, extract_first patterns text = Ok (Some a) -> (0 <= a)%Q) as H.
  { induction patterns as [|r patterns IH]; simpl; [done|].
    destruct (re_search r text); [apply parse_funding_amount_nonneg|apply IH]. }
  intros [Ha|[Ha|Ha]]; [by eapply parse_funding_amount_nonneg|by apply H in Ha..].
Qed.

Lemma parsed_amounts_are_not_negative_witness :
  (parse_funding_amount "$5.2M" = Ok (Some 5200000%Q) \/
   _extract_revenue "$5.2M" = Ok (Some 5200000%Q) \/
   _extract_market_cap "$5.2M" = Ok (Some 5200000%Q)) /\
  (0 <= 5200000)%Q.
Proof.
  assert (parse_funding_amount "$5.2M" = Ok (Some 5200000%Q) \/
          _extract_revenue "$5.2M" = Ok (Some 5200000%Q) \/
          _extract_market_cap "$5.2M" = Ok (Some 5200000%Q)) as H by (left; exact parse_5_2M).
  split; [exact H|].
  exact (parsed_amounts_are_not_negative "$5.2M" 5200000%Q H).
Defined.

Example revenue_found :
  _extract_revenue "Acme reported annual revenue of $3.5 million in 2023"
  = Ok (Some 3500000%Q).
Proof. by_vm. Qed.

Example market_cap_found :
  _extract_market_cap "with a market capitalization of $2B, valued at $1B"
  = Ok (Some 2000000000%Q).
Proof. by_vm. Qed.

(** *** Runs of one class *)

Lemma drop_chars_length p s : String.length (drop_chars p s) <= String.length s.
Proof. induction s as [|c s IH]; simpl; [lia|]. destruct (p c); simpl; lia. Qed.

Lemma take_drop_substring p s :
  substring 0 (String.length s - String.length (drop_chars p s)) s = take_chars p s.
Proof.
  induction s as [|c s IH]; simpl; [done|]. destruct (p c).
  - pose proof (drop_chars_length p s).
    replace (S (String.length s) - String.length (drop_chars p s))
      with (S (String.length s - String.length (drop_chars p s))) by lia.
    simpl. by rewrite IH.
  - simpl. by rewrite Nat.sub_diag.
Qed.

Lemma star_match_Some p s : star_match p s Some = Some (drop_chars p s).
Proof.
  induction s as [|c s IH]; simpl; [done|]. destruct (p c); [|done]. by rewrite IH.
Qed.

Lemma match_at_plus p c s :
  match_at (plus p) (String c s)
  = if p c then Some (String c (take_chars p s), drop_chars p s) else None.
Proof.
  unfold match_at. simpl. destruct (p c); [|done]. rewrite star_match_Some. simpl.
  pose proof (drop_chars_length p s).
  replace (S (String.length s) - String.length (drop_chars p s))
    with (S (String.length s - String.length (drop_chars p s))) by lia.
  by rewrite take_drop_substring.
Qed.

Lemma all_chars_take p s : all_chars p (take_chars p s) = true.
Proof. induction s as [|c s IH]; simpl; [done|]. destruct (p c) eqn:E; simpl; [by rewrite E|done]. Qed.

Lemma take_chars_length p s : String.length (take_chars p s) <= String.length s.
Proof. induction s as [|c s IH]; simpl; [lia|]. destruct (p c); simpl; lia. Qed.

Lemma keep_chars_length p s : String.length (keep_chars p s) <= String.length s.
Proof. induction s as [|c s IH]; simpl; [lia|]. destruct (p c); simpl; lia. Qed.

Lemma findall_plus_head p fuel : forall s,
  String.length s < fuel ->
  match findall_from fuel (plus p) s with
  | [] => all_chars (fun c => negb (p c)) s = true
  | m :: _ => m <> EmptyString /\ all_chars p m = true /\
              String.length m <= String.length s /\
              all_chars (fun c => negb (p c)) s = false
  end.
Proof.
  induction fuel as [|fuel IH]; intros s Hlen; [lia|]. simpl.
  destruct s as [|c s].
  - by cbn.
  - rewrite match_at_plus. simpl in Hlen. destruct (p c) eqn:E; simpl.
    + pose proof (take_chars_length p s).
      split_and!; [done|simpl; by rewrite E, all_chars_take|simpl; lia|simpl; by rewrite E].
    + rewrite E. simpl. specialize (IH s ltac:(lia)).
      destruct (findall_from fuel (plus p) s) as [|m ms]; [done|].
      destruct IH as (? & ? & ? & ?). split_and!; [done..|simpl; lia|done].
Qed.

Lemma digits_value_Some s : forall acc, all_chars is_digit s = true -> is_Some (digits_value acc s).
Proof.
  induction s as [|c s IH]; intros acc; simpl; [by eexists|].
  intros [Hc Hs]%andb_true_iff. rewrite Hc. by apply IH.
Qed.

Lemma py_int_digits s :
  s <> EmptyString -> all_chars is_digit s = true ->
  String.length s <= int_max_str_digits ->
  exists n, py_int s = Ok n /\ (0 <= n)%Z.
Proof.
  intros Hne Hd Hlen. unfold py_int. destruct (digits_value_Some s 0%N Hd) as [n Hn].
  destruct s as [|c s]; [done|]. rewrite Hn.
  destruct (Nat.ltb_spec int_max_str_digits (String.length (String c s))); [lia|].
  exists (Z.of_N n). split; [done|lia].
Qed.

Lemma all_chars_keep_iff p q s :
  (forall c, q c = false -> p c = true) ->
  all_chars p (keep_chars q s) = all_chars p s.
Proof.
  intros H. induction s as [|c s IH]; simpl; [done|]. destruct (q c) eqn:E; simpl.
  - by rewrite IH.
  - by rewrite IH, (H c E).
Qed.

(** X14. On a text of at most 4300 characters [parse_employee_count] does not
    raise; it answers [None] exactly when the text holds no digit, and
    otherwise an integer that is not negative. *)
Theorem employee_count_is_none_iff_no_digit text :
  String.length text <= int_max_str_digits ->
  exists count,
    parse_employee_count text = Ok count /\
    (count = None <-> all_chars (fun c => negb (is_digit c)) text = true) /\
    (forall n, count = Some n -> (0 <= n)%Z).
Proof.
  intros Hlen. unfold parse_employee_count. destruct (String.eqb text "") eqn:E.
  - apply String.eqb_eq in E as ->. exists None. by split_and!.
  - set (cleaned := keep_chars (fun c => negb (Ascii.eqb c ",")) text).
    assert (all_chars (fun c => negb (is_digit c)) cleaned
            = all_chars (fun c => negb (is_digit c)) text) as Hsame.
    { apply all_chars_keep_iff. intros c Hc. apply negb_false_iff, Ascii.eqb_eq in Hc as ->. done. }
    pose proof (findall_plus_head is_digit (S (String.length cleaned)) cleaned ltac:(lia)) as H.
    unfold re_findall. destruct (findall_from _ _ _) as [|m ms].
    + exists None. rewrite <- Hsame. by split_and!.
    + destruct H as (Hne & Hd & Hm & Hsome).
      pose proof (keep_chars_length (fun c => negb (Ascii.eqb c ",")) text) as Hk.
      fold cleaned in Hk.
      destruct (py_int_digits m Hne Hd ltac:(lia)) as (n & -> & Hn).
      exists (Some n). simpl. rewrite <- Hsame, Hsome. split_and!; [done| |by intros ? [= <-]].
      split; done.
Qed.

Lemma employee_count_is_none_iff_no_digit_witness :
  String.length "About 1,234 employees in 12 offices" <= int_max_str_digits /\
  exists count,
    parse_employee_count "About 1,234 employees in 12 offices" = Ok count /\
    (count = None <->
     all_chars (fun c => negb (is_digit c)) "About 1,234 employees in 12 offices" = true) /\
    (forall n, count = Some n -> (0 <= n)%Z).
Proof.
  assert (String.length "About 1,234 employees in 12 offices" <= int_max_str_digits) as H
    by (apply Nat.leb_le; by_vm).
  split; [exact H|].
  exact (employee_count_is_none_iff_no_digit "About 1,234 employees in 12 offices" H).
Defined.

Example employee_count_with_commas :
  parse_employee_count "About 1,234 employees in 12 offices" = Ok (Some 1234%Z).
Proof. by_vm. Qed.

(** *** Years *)

Lemma digit_value_le c : is_digit c = true -> nat_of_ascii c - 48 <= 9.
Proof. unfold is_digit. intros [_ H]%andb_true_iff. apply Nat.leb_le in H. lia. Qed.

Lemma re_match_chr p s k rest :
  re_match (Chr p) s k = Some rest ->
  exists c s', s = String c s' /\ p c = true /\ k s' = Some rest.
Proof.
  cbn [re_match]. destruct s as [|c s']; [done|]. destruct (p c) eqn:E; [|done].
  intros H. by exists c, s'.
Qed.

Lemma re_match_two p1 p2 s k rest :
  re_match (Cat (Chr p1) (Chr p2)) s k = Some rest ->
  exists c1 c2 s', s = String c1 (String c2 s') /\ p1 c1 = true /\ p2 c2 = true /\
    k s' = Some rest.
Proof.
  cbn [re_match]. intros (c1 & s1 & -> & H1 & H)%re_match_chr.
  apply re_match_chr in H as (c2 & s2 & -> & H2 & H). by exists c1, c2, s2.
Qed.

Lemma re_match_year s k rest :
  re_match year_re s k = Some rest ->
  exists c1 c2 c3 c4 s',
    s = String c1 (String c2 (String c3 (String c4 s'))) /\
    ((c1 = "1" /\ c2 = "9") \/ (c1 = "2" /\ c2 = "0"))%char /\
    is_digit c3 = true /\ is_digit c4 = true /\ k s' = Some rest.
Proof.
  unfold year_re, lit. intros H. change (re_match (Cat ?a ?b) s k)
    with (re_match a s (fun s1 => re_match b s1 k)) in H.
  change (re_match (Alt ?a ?b) s ?k')
    with (match re_match a s k' with Some r => Some r | None => re_match b s k' end) in H.
  destruct (re_match (Cat (Chr (Ascii.eqb "1")) (Chr (Ascii.eqb "9"))) s _) as [r|] eqn:E.
  - injection H as ->.
    apply re_match_two in E as (c1 & c2 & s1 & -> & H1 & H2 & E).
    apply re_match_two in E as (c3 & c4 & s' & -> & H3 & H4 & E).
    apply Ascii.eqb_eq in H1 as <-. apply Ascii.eqb_eq in H2 as <-.
    exists "1"%char, "9"%char, c3, c4, s'. split_and!; auto.
  - apply re_match_two in H as (c1 & c2 & s1 & -> & H1 & H2 & H).
    apply re_match_two in H as (c3 & c4 & s' & -> & H3 & H4 & H).
    apply Ascii.eqb_eq in H1 as <-. apply Ascii.eqb_eq in H2 as <-.
    exists "2"%char, "0"%char, c3, c4, s'. split_and!; auto.
Qed.

Lemma year_found s rest :
  re_match year_re s at_word_end = Some rest ->
  exists c1 c2 c3 c4,
    substring 0 (String.length s - String.length rest) s
    = String c1 (String c2 (String c3 (String c4 EmptyString))) /\
    ((c1 = "1" /\ c2 = "9") \/ (c1 = "2" /\ c2 = "0"))%char /\
    is_digit c3 = true /\ is_digit c4 = true.
Proof.
  intros (c1 & c2 & c3 & c4 & s' & -> & H12 & H3 & H4 & Hk)%re_match_year.
  assert (rest = s') as ->.
  { unfold at_word_end in Hk. destruct s' as [|c s']; [congruence|].
    destruct (is_word_char c); congruence. }
  exists c1, c2, c3, c4. split_and!; [|done..].
  cbn [String.length].
  replace (S (S (S (S (String.length s')))) - String.length s') with 4 by lia.
  cbn [substring]. by destruct s'.
Qed.

Lemma search_word_year s : forall prev found,
  search_word year_re prev s = Some found ->
  exists c1 c2 c3 c4,
    found = String c1 (String c2 (String c3 (String c4 EmptyString))) /\
    ((c1 = "1" /\ c2 = "9") \/ (c1 = "2" /\ c2 = "0"))%char /\
    is_digit c3 = true /\ is_digit c4 = true.
Proof.
  induction s as [|c s IH]; intros prev found H; cbn [search_word] in H.
  - destruct prev; [done|].
    destruct (re_match year_re EmptyString at_word_end) as [rest|] eqn:E; [|done].
    by apply re_match_year in E as (? & ? & ? & ? & ? & ? & _).
  - destruct prev; [by eapply IH|].
    destruct (re_match year_re (String c s) at_word_end) as [rest|] eqn:E.
    + cbn [mbind option_bind] in H. injection H as <-. exact (year_found _ _ E).
    + cbn [mbind option_bind] in H. by eapply IH.
Qed.

(** X15. [parse_year] never raises, and a year it returns lies between 1900
    and 2099. *)
Theorem parsed_year_is_1900_to_2099 text :
  exists year,
    parse_year text = Ok year /\
    forall y, year = Some y -> (1900 <= y <= 2099)%Z.
Proof.
  unfold parse_year. destruct (String.eqb text ""); [by exists None|].
  destruct (search_word year_re false text) as [found|] eqn:E; [|by exists None].
  apply search_word_year in E as (c1 & c2 & c3 & c4 & -> & H12 & H3 & H4).
  pose proof (digit_value_le c3 H3). pose proof (digit_value_le c4 H4).
  unfold py_int. simpl.
  assert (is_digit c1 = true /\ is_digit c2 = true) as [-> ->]
    by (destruct H12 as [[-> ->]|[-> ->]]; done).
  rewrite H3, H4. eexists. split; [done|]. intros y [= <-].
  destruct H12 as [[-> ->]|[-> ->]].
  - change (nat_of_ascii "1") with 49. change (nat_of_ascii "9") with 57. lia.
  - change (nat_of_ascii "2") with 50. change (nat_of_ascii "0") with 48. lia.
Qed.

Example year_in_a_sentence : parse_year "Founded in 2015 by two engineers" = Ok (Some 2015%Z).
Proof. by_vm. Qed.

Example year_inside_a_number : parse_year "order 120191 shipped" = Ok None.
Proof. by_vm. Qed.

(** *** Retries *)

Lemma retry_warning_formats py_str attempt max_retries msg :
  counts_format py_str max_retries -> (Z.of_nat attempt < max_retries)%Z ->
  exists line, retry_warning py_str attempt max_retries msg = Ok line.
Proof.
  intros Hf Hlt. unfold retry_warning.
  destruct (Hf (Z.of_nat attempt + 1)%Z ltac:(lia)) as [number ->].
  destruct (Hf max_retries ltac:(lia)) as [total ->]. by eexists.
Qed.

Lemma retry_loop_spec py_str driver_get max_retries remaining : forall attempt,
  counts_format py_str max_retries ->
  (Z.of_nat (attempt + remaining) <= max_retries)%Z ->
  let r := retry_loop py_str driver_get max_retries attempt remaining in
  attempt <= r.2 <= attempt + remaining /\
  (r.1 = Ok true ->
     attempt < r.2 /\ driver_get (r.2 - 1) = None /\
     forall j, attempt <= j < r.2 - 1 -> driver_get j <> None) /\
  (r.1 = Ok false ->
     r.2 = attempt + remaining /\
     forall j, attempt <= j < attempt + remaining -> driver_get j <> None) /\
  (exists b, r.1 = Ok b).
Proof.
  induction remaining as [|remaining IH]; intros attempt Hf Hle; simpl.
  - split_and!; [lia..|done| |by eexists]. intros _. split; [lia|]. intros j Hj. lia.
  - destruct (driver_get attempt) as [msg|] eqn:E; simpl.
    + destruct (retry_warning_formats py_str attempt max_retries msg Hf ltac:(lia))
        as [line ->].
      destruct (IH (S attempt) Hf ltac:(lia)) as (Hb & Ht & Hfalse & Hok).
      split_and!; [lia..| | |done].
      * intros Hr. destruct (Ht Hr) as (H1 & H2 & H3). split_and!; [lia|done|].
        intros j Hj. destruct (decide (j = attempt)) as [->|Hne]; [by rewrite E|].
        apply H3. lia.
      * intros Hr. destruct (Hfalse Hr) as (H1 & H2). split; [lia|].
        intros j Hj. destruct (decide (j = attempt)) as [->|Hne]; [by rewrite E|].
        apply H2. lia.
    + split_and!; [lia..| |done|by eexists]. intros _. split_and!; [lia| |].
      * by rewrite Nat.sub_0_r.
      * intros j Hj. lia.
Qed.

(** A failed first attempt whose warning cannot be formatted ends the call
    with the exception of the f-string. *)
Lemma navigate_with_retry_raises py_str driver_get max_retries msg number e :
  (0 < max_retries)%Z -> driver_get 0 = Some msg ->
  py_str (VInt 1) = Ok number -> py_str (VInt max_retries) = Raise e ->
  navigate_with_retry py_str driver_get max_retries = (Raise e, 1).
Proof.
  intros Hpos Hget Hone Hmax. unfold navigate_with_retry.
  destruct (Z.to_nat max_retries) as [|n] eqn:En; [lia|]. simpl.
  rewrite Hget. unfold retry_warning. change (Z.of_nat 0 + 1)%Z with 1%Z.
  by rewrite Hone, Hmax.
Qed.

(** With a retry count of 4301 digits the first failure raises: the f-string
    of the warning is inside the [except] branch, where nothing catches it. *)
Example huge_max_retries_raises :
  navigate_with_retry str_model (fun _ => Some "timeout") over_limit
  = (Raise (ValueError
              ("Exceeds the limit (4300 digits) for integer string conversion; "
               +:+ "use sys.set_int_max_str_digits() to increase the limit")), 1).
Proof.
  apply (navigate_with_retry_raises str_model _ _ "timeout" "1").
  - unfold over_limit. apply Z.pow_pos_nonneg; lia.
  - reflexivity.
  - by_vm.
  - apply str_model_over_limit.
Qed.

(** X16. Provided the attempt numbers up to [max_retries] can be formatted
    (they can unless [max_retries] has more than 4300 digits),
    [navigate_with_retry] does not raise and makes at most [max_retries] calls
    of [driver.get]; it answers [True] exactly when one of the first
    [max_retries] calls would return, and then the last call it made is the
    first that returns; it answers [False] only after [max_retries] calls. *)
Theorem navigate_with_retry_stops_at_first_success py_str driver_get max_retries :
  counts_format py_str max_retries ->
  let r := navigate_with_retry py_str driver_get max_retries in
  (exists b, r.1 = Ok b) /\
  r.2 <= Z.to_nat max_retries /\
  (r.1 = Ok true <-> exists k, k < Z.to_nat max_retries /\ driver_get k = None) /\
  (r.1 = Ok true ->
     driver_get (r.2 - 1) = None /\ forall j, j < r.2 - 1 -> driver_get j <> None) /\
  (r.1 = Ok false -> r.2 = Z.to_nat max_retries).
Proof.
  intros Hfmt. unfold navigate_with_retry.
  assert (Z.to_nat max_retries = 0 \/ (Z.of_nat (0 + Z.to_nat max_retries) <= max_retries)%Z)
    as [H0|Hle] by lia.
  { rewrite H0. simpl. split_and!; [by eexists|lia| |done|done].
    split; [done|]. intros (k & Hk & _). lia. }
  destruct (retry_loop_spec py_str driver_get max_retries (Z.to_nat max_retries) 0 Hfmt Hle)
    as (Hb & Ht & Hf & Hok).
  simpl in *. split_and!.
  - done.
  - lia.
  - split.
    + intros Hr. destruct (Ht Hr) as (H1 & H2 & _). eexists. split; [|exact H2]. lia.
    + intros (k & Hk & Hget). destruct Hok as [[|] Hb']; [done|].
      destruct (Hf Hb') as [_ Hall]. exfalso. apply (Hall k); [lia|done].
  - intros Hr. destruct (Ht Hr) as (H1 & H2 & H3). split; [done|].
    intros j Hj. apply H3. lia.
  - intros Hr. by destruct (Hf Hr).
Qed.

Lemma navigate_with_retry_stops_at_first_success_witness :
  counts_format str_model 3 /\
  let r := navigate_with_retry str_model loads_at_second 3 in
  (exists b, r.1 = Ok b) /\
  r.2 <= Z.to_nat 3 /\
  (r.1 = Ok true <-> exists k, k < Z.to_nat 3 /\ loads_at_second k = None) /\
  (r.1 = Ok true ->
     loads_at_second (r.2 - 1) = None /\
     forall j, j < r.2 - 1 -> loads_at_second j <> None) /\
  (r.1 = Ok false -> r.2 = Z.to_nat 3).
Proof.
  assert (counts_format str_model 3) as H.
  { intros k Hk. assert (k = 1 \/ k = 2 \/ k = 3)%Z as [->|[->| ->]] by lia.
    - by exists "1".
    - by exists "2".
    - by exists "3". }
  split; [exact H|].
  exact (navigate_with_retry_stops_at_first_success str_model loads_at_second 3 H).
Defined.

(** *** What the search collectors hand to the merge *)

Lemma clean_entry_lists set_list cleaned key l cleaned' :
  lists_elsewhere cleaned ->
  clean_entry set_list cleaned key (VList l) = Ok cleaned' ->
  lists_elsewhere cleaned'.
Proof.
  intros Hinv. unfold clean_entry. intros H.
  apply bind_Ok in H as (unique & _ & H). destruct unique as [|u unique]; [by simplify_eq|].
  case_bool_decide as Hfin.
  - apply bind_Ok in H as (m & _ & [= <-]). intros k v Hk Hn.
    destruct (decide (key = k)) as [->|Hne]; [done|]. rewrite lookup_insert_ne by done.
    by apply Hinv.
  - injection H as <-. intros k v Hk Hn.
    destruct (decide (key = k)) as [->|Hne].
    + rewrite lookup_insert_eq. intros [= <-]. by eexists.
    + rewrite lookup_insert_ne by done. by apply Hinv.
Qed.

Lemma clean_entries_lists set_list items : forall cleaned cleaned',
  lists_only items -> lists_elsewhere cleaned ->
  clean_entries set_list cleaned items = Ok cleaned' -> lists_elsewhere cleaned'.
Proof.
  induction items as [|[key values] items IH]; intros cleaned cleaned' Hl Hinv; simpl.
  - by intros [= <-].
  - apply Forall_cons in Hl as [[l Hv] Hl]. simpl in Hv. subst values. intros H.
    apply bind_Ok in H as (c & Hc & H). eapply IH; [done| |done].
    by eapply clean_entry_lists.
Qed.

Lemma cleaned_record_lists set_list all_data name r :
  lists_only all_data -> _clean_and_merge_data set_list all_data name = Ok r ->
  lists_elsewhere r.
Proof.
  intros Hl. apply clean_entries_lists; [done|]. intros k v _ Hn.
  by rewrite lookup_singleton_ne.
Qed.

Lemma search_record_lists set_list r field v :
  search_record set_list r -> field ∉ financial_keys -> field <> "name" ->
  field <> "error" -> r !! field = Some v -> exists l, v = VList l.
Proof.
  intros [[e ->]|(queries & cn & Hr)] Hf Hn He.
  - unfold error_record. by rewrite lookup_singleton_ne.
  - unfold WebSearch.search_company_data in Hr. revert Hr.
    generalize (fold_left
      (fun all_data query =>
         match query with
         | Some extracted_data => WebSearch.merge_extracted all_data extracted_data
         | None => all_data
         end) queries []).
    intros all_data Hr Hv.
    assert (lists_only ((fun '(key, l) => (key, VList l)) <$> all_data)) as Hl.
    { apply Forall_forall. intros item ([k l] & -> & _)%list_elem_of_fmap. by exists l. }
    exact (cleaned_record_lists _ _ _ _ Hl Hr field v Hf Hn Hv).
Qed.

(** X17. What the two search collectors return never reaches the merged
    [employees] or [ceo]: [_clean_and_merge_data] stores both as lists, which
    the merge does not take for a number or a text.  A merged [employees] or
    [ceo] therefore comes from the crunchbase or the linkedin record. *)
Theorem search_collectors_never_supply_employees_or_ceo py_str set_list ds name m :
  (forall source r, source ∈ search_sources -> ds !! source = Some r ->
     search_record set_list r) ->
  _merge_data_sources py_str set_list ds name = Ok m ->
  (forall v, m !! "employees" = Some v ->
     exists source, source ∈ page_sources /\ reported ds source "employees" = Some v) /\
  (forall v, m !! "ceo" = Some v ->
     exists source w, source ∈ page_sources /\ reported ds source "ceo" = Some w /\
       stripped_text w = Some v).
Proof.
  intros Hds Hm.
  assert (forall source field v, source ∈ source_priority ->
            field ∉ financial_keys -> field <> "name" -> field <> "error" ->
            reported ds source field = Some v ->
            source ∈ page_sources \/ exists l, v = VList l) as Hlist.
  { intros source field v Hs Hf Hn He. unfold reported.
    destruct (ds !! source) as [r|] eqn:E; [|done]. simpl. intros Hr.
    unfold source_priority in Hs.
    apply elem_of_cons in Hs as [->|Hs]; [left; apply list_elem_of_here|].
    apply elem_of_cons in Hs as [->|Hs];
      [left; apply list_elem_of_further, list_elem_of_here|].
    right. by apply (search_record_lists set_list r field v (Hds _ _ Hs E)). }
  split.
  - intros v Hv. apply merge_inv in Hm as (fo & inv & ro & _ & _ & _ & Hd).
    rewrite (derived_metrics_lookup_ne _ _ "employees" Hd) in Hv by not_in_list.
    rewrite (merged_numeric_lookup ds name fo inv ro "employees") in Hv
      by (unfold numeric_fields; repeat constructor).
    pose proof (merge_numeric_spec ds "employees") as Hspec. rewrite Hv in Hspec.
    destruct Hspec as [(source & Hs & Hr & x & Hx & _) _].
    destruct (Hlist source "employees" v Hs ltac:(not_in_list) ltac:(done) ltac:(done) Hr)
      as [?|[l ->]]; [by exists source|done].
  - intros v Hv.
    rewrite (merge_first_valid_lookup _ _ _ _ _ _ stripped_text
               ltac:(unfold first_valid_fields; left) Hm) in Hv.
    apply first_valid_elem in Hv as (source & w & Hs & Hr & Hk).
    destruct (Hlist source "ceo" w Hs ltac:(not_in_list) ltac:(done) ltac:(done) Hr)
      as [?|[l ->]]; [by exists source, w|done].
Qed.

Lemma search_collectors_never_supply_employees_or_ceo_witness :
  (forall source r, source ∈ search_sources -> scenario_search !! source = Some r ->
     search_record set_first r) /\
  _merge_data_sources str_model set_first scenario_search "Acme" = Ok scenario_search_merged /\
  (forall v, scenario_search_merged !! "employees" = Some v ->
     exists source, source ∈ page_sources /\
       reported scenario_search source "employees" = Some v) /\
  (forall v, scenario_search_merged !! "ceo" = Some v ->
     exists source w, source ∈ page_sources /\
       reported scenario_search source "ceo" = Some w /\ stripped_text w = Some v).
Proof.
  assert (forall source r, source ∈ search_sources -> scenario_search !! source = Some r ->
            search_record set_first r) as H.
  { intros source r Hs. unfold search_sources in Hs.
    apply elem_of_cons in Hs as [->|Hs].
    - assert (scenario_search !! "web_search" = Some search_cleaned) as -> by by_vm.
      intros [= <-]. right. exists search_queries, "Acme". exact search_queries_result.
    - apply elem_of_cons in Hs as [->|Hs]; [|by apply elem_of_nil in Hs].
      assert (scenario_search !! "simple_web"
              = Some (error_record (VStr "connection refused"))) as -> by by_vm.
      intros [= <-]. left. by eexists. }
  split; [exact H|]. split; [exact scenario_search_result|].
  exact (search_collectors_never_supply_employees_or_ceo str_model set_first scenario_search
           "Acme" scenario_search_merged H scenario_search_result).
Defined.

(** *** The financial keys of a cleaned record *)

Lemma max_from_numbers items : forall m,
  finite_float m -> Forall finite_float items ->
  max_from m items
  = Ok (fold_left (fun m item => if num_gt item m then item else m) items m).
Proof.
  induction items as [|x items IH]; intros m Hm Hall; simpl; [done|].
  apply Forall_cons in Hall as [Hx Hall].
  destruct Hm as [a ->]. destruct Hx as [b ->]. unfold py_gt, num_gt. simpl.
  apply IH; [|done]. destruct (Qlt_bool a b); by eexists.
Qed.

Lemma finite_floats_max values v :
  Forall finite_float values -> py_max_values values = Ok v ->
  v ∈ values /\ forall w, w ∈ values -> value_le w v.
Proof.
  intros Hall Hv.
  pose proof (py_max_spec num_gt value_le finite_float) as Hmax.
  specialize (Hmax ltac:(intros a [q ->]; exists (FFin q), (FFin q); split_and!;
                         [done..|apply Qle_refl])).
  specialize (Hmax ltac:(intros a b c (x & y & Hx & Hy & Hxy) (y' & z & Hy' & Hz & Hyz);
                         simplify_eq; exists x, z; eauto using flt_le_trans)).
  specialize (Hmax ltac:(intros a b [x ->] [y ->] Hgt; exists (FFin y), (FFin x);
                         split_and!; [done..|]; by apply flt_lt_le, flt_ltb_lt)).
  specialize (Hmax ltac:(intros a b [x ->] [y ->] Hgt; exists (FFin x), (FFin y);
                         split_and!; [done..|]; by apply flt_not_ltb_le)).
  specialize (Hmax values Hall).
  destruct values as [|x rest]; [done|]. simpl in Hv, Hmax.
  apply Forall_cons in Hall as [Hx Hall]. rewrite max_from_numbers in Hv by done.
  injection Hv as <-. done.
Qed.

Lemma unhashable_error_floats xs : Forall finite_float xs -> unhashable_error xs = None.
Proof.
  induction xs as [|x xs IH]; [done|]. intros [[q ->] Hall]%Forall_cons. simpl. by apply IH.
Qed.

Lemma clean_entry_lookup_ne set_list cleaned k values cleaned' key :
  clean_entry set_list cleaned k values = Ok cleaned' -> k <> key ->
  cleaned' !! key = cleaned !! key.
Proof.
  unfold clean_entry. intros H Hne.
  destruct values; try (injection H as <-; by rewrite lookup_insert_ne).
  apply bind_Ok in H as (unique & _ & H). destruct unique; [by simplify_eq|].
  case_bool_decide.
  - apply bind_Ok in H as (m & _ & [= <-]). by rewrite lookup_insert_ne.
  - injection H as <-. by rewrite lookup_insert_ne.
Qed.

Lemma clean_entries_lookup_notin set_list items key : forall cleaned cleaned',
  clean_entries set_list cleaned items = Ok cleaned' -> key ∉ items.*1 ->
  cleaned' !! key = cleaned !! key.
Proof.
  induction items as [|[k values] items IH]; intros cleaned cleaned'; simpl.
  - by intros [= <-].
  - intros H Hnin. apply bind_Ok in H as (c & Hc & H).
    apply not_elem_of_cons in Hnin as [Hne Hnin].
    rewrite (IH _ _ H Hnin). by eapply clean_entry_lookup_ne.
Qed.

Section FinancialMax.
Context (set_list : list pyval -> list pyval).
Hypothesis set_list_sound : forall xs x, x ∈ set_list xs -> x ∈ xs.
Hypothesis set_list_complete : forall xs x,
  x ∈ xs -> exists y, y ∈ set_list xs /\ (y = x \/ py_eqb x y = true).

Lemma clean_entry_financial cleaned key l cleaned' :
  key ∈ financial_keys -> Forall finite_float l ->
  clean_entry set_list cleaned key (VList l) = Ok cleaned' ->
  match cleaned' !! key with
  | Some v => (v ∈ l /\ py_truthy v = true /\
               forall w, w ∈ l -> py_truthy w = true -> value_le w v) \/
              (cleaned !! key = Some v /\ forall w, w ∈ l -> py_truthy w = false)
  | None => forall w, w ∈ l -> py_truthy w = false
  end.
Proof.
  intros Hkey Hl. unfold clean_entry, py_list_set.
  set (truthy := List.filter py_truthy l).
  assert (Forall finite_float truthy) as Htr.
  { apply Forall_forall. intros x [Hx _]%list_elem_of_In%filter_In.
    rewrite Forall_forall in Hl. by apply Hl, list_elem_of_In. }
  rewrite unhashable_error_floats by done. simpl.
  assert (Forall finite_float (set_list truthy)) as Hun.
  { apply Forall_forall. intros x Hx%set_list_sound. rewrite Forall_forall in Htr. auto. }
  destruct (set_list truthy) as [|u unique] eqn:E.
  - intros [= <-].
    assert (forall w, w ∈ l -> py_truthy w = false) as Hnone.
    { intros w Hw. destruct (py_truthy w) eqn:Ew; [|done].
      destruct (set_list_complete truthy w) as (y & Hy & _).
      { apply list_elem_of_In, filter_In. split; [by apply list_elem_of_In|done]. }
      rewrite E in Hy. by apply elem_of_nil in Hy. }
    destruct (cleaned !! key); [by right|done].
  - rewrite bool_decide_eq_true_2 by done. intros H.
    apply bind_Ok in H as (m & Hm & [= <-]). rewrite lookup_insert_eq. left.
    destruct (finite_floats_max _ _ Hun Hm) as [Hin Hle].
    rewrite <- E in Hin. apply set_list_sound, list_elem_of_In, filter_In in Hin as [Hin Ht].
    split_and!; [by apply list_elem_of_In|done|].
    intros w Hw Hwt. destruct (set_list_complete truthy w) as (y & Hy & Heq).
    { apply list_elem_of_In, filter_In. split; [by apply list_elem_of_In|done]. }
    rewrite E in Hy. specialize (Hle y Hy).
    destruct Heq as [->|Heq]; [done|].
    rewrite Forall_forall in Hl. destruct (Hl w Hw) as [a ->].
    rewrite Forall_forall in Hun. destruct (Hun y Hy) as [b ->].
    simpl in Heq. apply Qeq_bool_iff in Heq.
    destruct Hle as (x & z & Hx & Hz & Hxz). exists (FFin a), z. split_and!; [done..|].
    simpl in Hx. injection Hx as <-. destruct z; simpl in *; try done. by rewrite Heq.
Qed.

(** X18. For a financial key ([funding_raised], [revenue], [market_cap])
    whose gathered values are finite floats, the cleaned record holds the
    largest of the truthy values, which is one of them; the key is absent
    exactly when every gathered value is zero. *)
Theorem financial_key_holds_the_maximum all_data company_name r key l :
  NoDup all_data.*1 -> key ∈ financial_keys -> (key, VList l) ∈ all_data ->
  Forall finite_float l ->
  _clean_and_merge_data set_list all_data company_name = Ok r ->
  match r !! key with
  | Some v => v ∈ l /\ py_truthy v = true /\
              forall w, w ∈ l -> py_truthy w = true -> value_le w v
  | None => forall w, w ∈ l -> py_truthy w = false
  end.
Proof.
  intros Hnd Hkey Hin Hl. unfold _clean_and_merge_data.
  apply list_elem_of_split in Hin as (pre & post & ->).
  rewrite fmap_app in Hnd. simpl in Hnd.
  apply NoDup_app in Hnd as (_ & Hpre & [Hpost _]%NoDup_cons).
  assert (key ∉ pre.*1) as Hnpre.
  { intros Hk. apply (Hpre key Hk), list_elem_of_here. }
  assert (forall c c', clean_entries set_list c (pre ++ (key, VList l) :: post) = Ok c' ->
            exists c1 c2, clean_entries set_list c pre = Ok c1 /\
              clean_entry set_list c1 key (VList l) = Ok c2 /\
              clean_entries set_list c2 post = Ok c') as Hsplit.
  { clear. induction pre as [|[k v] pre IH]; intros c c' H; simpl in *.
    - apply bind_Ok in H as (c2 & H2 & H). by exists c, c2.
    - apply bind_Ok in H as (c0 & H0 & H). destruct (IH _ _ H) as (c1 & c2 & ? & ? & ?).
      exists c1, c2. rewrite H0. done. }
  intros H. apply Hsplit in H as (c1 & c2 & H1 & H2 & H3).
  rewrite (clean_entries_lookup_notin _ _ _ _ _ H3 Hpost).
  assert (c1 !! key = None) as Hc1.
  { rewrite (clean_entries_lookup_notin _ _ _ _ _ H1 Hnpre). apply lookup_singleton_ne.
    intros <-. revert Hkey. unfold financial_keys. not_in_list. }
  pose proof (clean_entry_financial c1 key l c2 Hkey Hl H2) as Hfin.
  destruct (c2 !! key) as [v|]; [|done].
  destruct Hfin as [?|[Hv _]]; [done|congruence].
Qed.
End FinancialMax.

Lemma financial_key_holds_the_maximum_witness :
  (forall xs x, x ∈ set_first xs -> x ∈ xs) /\
  (forall xs x, x ∈ xs -> exists y, y ∈ set_first xs /\ (y = x \/ py_eqb x y = true)) /\
  NoDup gathered_data.*1 /\
  "funding_raised" ∈ financial_keys /\
  ("funding_raised", VList gathered_amounts) ∈ gathered_data /\
  Forall finite_float gathered_amounts /\
  _clean_and_merge_data set_first gathered_data "Acme" = Ok gathered_cleaned /\
  match gathered_cleaned !! "funding_raised" with
  | Some v => v ∈ gathered_amounts /\ py_truthy v = true /\
              forall w, w ∈ gathered_amounts -> py_truthy w = true -> value_le w v
  | None => forall w, w ∈ gathered_amounts -> py_truthy w = false
  end.
Proof.
  assert (NoDup gathered_data.*1) as Hnd.
  { simpl. repeat (apply NoDup_cons_2; [not_in_list|]). apply NoDup_nil_2. }
  assert ("funding_raised" ∈ financial_keys) as Hkey by apply list_elem_of_here.
  assert (("funding_raised", VList gathered_amounts) ∈ gathered_data) as Hin
    by apply list_elem_of_here.
  assert (Forall finite_float gathered_amounts) as Hl.
  { repeat (apply Forall_cons; split; [by eexists|]). apply Forall_nil_2. }
  split; [exact set_first_sound|]. split; [exact set_first_complete_eq|].
  split; [exact Hnd|]. split; [exact Hkey|]. split; [exact Hin|]. split; [exact Hl|].
  split; [exact gathered_data_result|].
  exact (financial_key_holds_the_maximum set_first set_first_sound set_first_complete_eq
           gathered_data "Acme" gathered_cleaned "funding_raised" gathered_amounts
           Hnd Hkey Hin Hl gathered_data_result).
Defined.

(** *** When the parsers raise *)

Lemma star_match_greedy p s : forall k,
  is_Some (k (drop_chars p s)) -> star_match p s k = k (drop_chars p s).
Proof.
  induction s as [|c s IH]; intros k Hk; simpl in *; [done|].
  destruct (p c); [|done]. rewrite IH by done. by destruct Hk as [rest ->].
Qed.

Lemma append_cons c s t : String c s +:+ t = String c (s +:+ t).
Proof. reflexivity. Qed.

Lemma append_empty_l t : "" +:+ t = t.
Proof. reflexivity. Qed.

Lemma take_drop_chars p s : take_chars p s +:+ drop_chars p s = s.
Proof.
  induction s as [|c s IH]; simpl; [done|].
  destruct (p c); [by rewrite append_cons, IH|done].
Qed.

Lemma drop_chars_head p s c s' : drop_chars p s = String c s' -> p c = false.
Proof.
  induction s as [|x s IH]; simpl; [done|]. destruct (p x) eqn:E; [done|].
  intros [= <- <-]. done.
Qed.

Lemma substring_prefix pre rest :
  substring 0 (String.length (pre +:+ rest) - String.length rest) (pre +:+ rest) = pre.
Proof.
  replace (String.length (pre +:+ rest) - String.length rest) with (String.length pre).
  - induction pre as [|c pre IH]; [by destruct rest|].
    rewrite append_cons. simpl. by rewrite IH.
  - assert (String.length (pre +:+ rest) = String.length pre + String.length rest) as ->; [|lia].
    induction pre as [|c pre IH]; [done|]. rewrite append_cons. simpl. by rewrite IH.
Qed.

Lemma append_empty_r s : s +:+ "" = s.
Proof. induction s as [|c s IH]; [done|]. by rewrite append_cons, IH. Qed.

Lemma all_chars_app p s t : all_chars p (s +:+ t) = all_chars p s && all_chars p t.
Proof.
  induction s as [|c s IH]; [done|]. rewrite append_cons. simpl. by rewrite IH, andb_assoc.
Qed.

Lemma all_chars_impl (p q : ascii -> bool) s :
  (forall c, p c = true -> q c = true) -> all_chars p s = true -> all_chars q s = true.
Proof.
  intros Hpq. induction s as [|c s IH]; simpl; [done|]. intros [Hc Hs]%andb_true_iff.
  by rewrite (Hpq c Hc), IH.
Qed.

Lemma keep_chars_all p s : all_chars p s = true -> keep_chars p s = s.
Proof.
  induction s as [|c s IH]; simpl; [done|]. intros [-> Hs]%andb_true_iff. by rewrite IH.
Qed.

Lemma is_digit_plain c :
  is_digit c = true -> Ascii.eqb c "." = false /\ Ascii.eqb c "," = false.
Proof. destruct c as [[] [] [] [] [] [] [] []]; done. Qed.

Lemma upper_char_comma c : Ascii.eqb (upper_char c) "," = Ascii.eqb c ",".
Proof. destruct c as [[] [] [] [] [] [] [] []]; reflexivity. Qed.

Lemma contains_char_no_comma s :
  contains_char "," s = false <-> all_chars (fun c => negb (Ascii.eqb c ",")) s = true.
Proof.
  induction s as [|c s IH]; simpl; [done|].
  rewrite orb_false_iff, andb_true_iff, negb_true_iff. by rewrite IH.
Qed.

Lemma py_upper_no_comma s : contains_char "," s = false -> contains_char "," (py_upper s) = false.
Proof.
  induction s as [|c s IH]; simpl; [done|]. intros [Hc Hs]%orb_false_iff.
  by rewrite upper_char_comma, Hc, IH.
Qed.

Lemma keep_chars_no_comma p s :
  contains_char "," s = false -> contains_char "," (keep_chars p s) = false.
Proof.
  induction s as [|c s IH]; simpl; [done|]. intros [Hc Hs]%orb_false_iff.
  destruct (p c); simpl; [rewrite Hc|]; by apply IH.
Qed.

Lemma substring_no_comma s : forall n,
  contains_char "," s = false -> contains_char "," (substring 0 n s) = false.
Proof.
  induction s as [|c s IH]; intros n; simpl; [by destruct n|].
  intros [Hc Hs]%orb_false_iff. destruct n; simpl; [done|]. by rewrite Hc, IH.
Qed.

Lemma take_chars_no_comma s :
  contains_char "," s = false -> take_chars is_digit_or_comma s = take_chars is_digit s.
Proof.
  induction s as [|c s IH]; simpl; [done|]. intros [Hc Hs]%orb_false_iff.
  unfold is_digit_or_comma at 1. rewrite Hc, orb_false_r. by rewrite IH.
Qed.

Lemma split_dot_digits w f :
  all_chars is_digit w = true ->
  split_dot (w +:+ f) = ((w +:+ (split_dot f).1)%string, (split_dot f).2).
Proof.
  induction w as [|c w IH]; [rewrite !append_empty_l; by destruct (split_dot f)|]. simpl.
  intros [Hc Hw]%andb_true_iff. rewrite !append_cons. simpl.
  destruct (is_digit_plain c Hc) as [-> _]. by rewrite IH.
Qed.

(** A number as [float] accepts it: digits, then nothing or a dot and digits. *)
Lemma py_float_number w f :
  w <> EmptyString -> all_chars is_digit w = true ->
  f = EmptyString \/ (exists d, f = String "." d /\ all_chars is_digit d = true) ->
  exists q, py_float (keep_chars (fun c => negb (Ascii.eqb c ",")) (w +:+ f)) = Ok q.
Proof.
  intros Hne Hw Hf.
  assert (all_chars (fun c => negb (Ascii.eqb c ",")) w = true) as Hw'.
  { revert Hw. apply all_chars_impl. intros c Hc. by destruct (is_digit_plain c Hc) as [_ ->]. }
  assert (exists d : option string,
            all_chars is_digit (default EmptyString d) = true /\
            split_dot f = (EmptyString, d) /\
            all_chars (fun c => negb (Ascii.eqb c ",")) f = true) as (d & Hd & Hs & Hf').
  { destruct Hf as [->|(d & -> & Hd)].
    - by exists None.
    - exists (Some d). split_and!; [done..|]. simpl. revert Hd. apply all_chars_impl.
      intros c Hc. by destruct (is_digit_plain c Hc) as [_ ->]. }
  rewrite keep_chars_all by (by rewrite all_chars_app, Hw', Hf').
  unfold py_float. rewrite split_dot_digits, Hs by done. simpl. rewrite append_empty_r.
  destruct (digits_value_Some w 0 Hw) as [a ->].
  destruct (digits_value_Some _ 0 Hd) as [b ->].
  destruct w as [|c w]; [done|]. simpl. by eexists.
Qed.

Lemma number_tail_match s1 :
  re_match (Cat (opt (lit ".")) (Star is_digit)) s1 Some = Some (number_rest s1).
Proof.
  unfold opt, lit, number_rest. cbn [re_match]. destruct s1 as [|c' s2]; [done|].
  destruct (Ascii.eqb_spec "." c') as [<-|Hne].
  - by rewrite star_match_Some.
  - rewrite star_match_Some. destruct c' as [[] [] [] [] [] [] [] []]; done.
Qed.

Lemma number_match c s :
  re_match number_re (String c s) Some
  = if is_digit_or_comma c then Some (number_rest (drop_chars is_digit_or_comma s)) else None.
Proof.
  change (re_match number_re (String c s) Some)
    with (if is_digit_or_comma c
          then star_match is_digit_or_comma s
                 (fun s1 => re_match (Cat (opt (lit ".")) (Star is_digit)) s1 Some)
          else None).
  destruct (is_digit_or_comma c); [|done].
  rewrite star_match_greedy; by rewrite number_tail_match.
Qed.

Lemma append_assoc (a b c : string) : (a +:+ b) +:+ c = a +:+ (b +:+ c).
Proof. induction a as [|x a IH]; [done|]. by rewrite !append_cons, IH. Qed.

(** What [[\d,]+\.?\d*] matches at the start of a text without commas. *)
Lemma match_at_number c s :
  contains_char "," (String c s) = false ->
  match match_at number_re (String c s) with
  | Some (found, _) =>
      exists w f, found = (w +:+ f)%string /\ w <> EmptyString /\ all_chars is_digit w = true /\
        (f = EmptyString \/ exists d, f = String "." d /\ all_chars is_digit d = true)
  | None => True
  end.
Proof.
  intros Hcs. apply contains_char_tail in Hcs as [Hc Hs].
  unfold match_at. rewrite number_match. unfold is_digit_or_comma at 1.
  rewrite Hc, orb_false_r. destruct (is_digit c) eqn:Ec; [|done]. cbn [mbind option_bind].
  set (w := String c (take_chars is_digit s)).
  assert (all_chars is_digit w = true) as Hw.
  { unfold w. simpl. by rewrite Ec, all_chars_take. }
  pose proof (take_drop_chars is_digit_or_comma s) as Hsplit.
  rewrite take_chars_no_comma in Hsplit by done.
  assert (String c s = w +:+ drop_chars is_digit_or_comma s) as Hcs.
  { unfold w. by rewrite append_cons, Hsplit. }
  destruct (drop_chars is_digit_or_comma s) as [|c' s2] eqn:Ed.
  - exists w, EmptyString. split_and!; [|done..|by left].
    rewrite Hcs. unfold number_rest. simpl drop_chars. rewrite substring_prefix.
    by rewrite append_empty_r.
  - destruct (Ascii.eqb_spec "." c') as [<-|Hne].
    + exists w, (String "." (take_chars is_digit s2)). split_and!; [|done..|].
      * unfold number_rest. rewrite Hcs.
        pose proof (take_drop_chars is_digit s2) as H2.
        set (t := take_chars is_digit s2) in *. set (d := drop_chars is_digit s2) in *.
        rewrite <- H2, <- append_cons, <- append_assoc. apply substring_prefix.
      * right. eexists. split; [done|apply all_chars_take].
    + apply drop_chars_head in Ed as Hc'.
      assert (is_digit c' = false) as Hd.
      { unfold is_digit_or_comma in Hc'. by apply orb_false_iff in Hc' as [? _]. }
      assert (number_rest (String c' s2) = String c' s2) as ->.
      { unfold number_rest. simpl. rewrite Hd.
        destruct c' as [[] [] [] [] [] [] [] []]; done. }
      exists w, EmptyString. split_and!; [|done..|by left].
      rewrite Hcs, append_empty_r. apply substring_prefix.
Qed.

Lemma re_search_number s found :
  contains_char "," s = false -> re_search number_re s = Some found ->
  exists q, py_float (keep_chars (fun c => negb (Ascii.eqb c ",")) found) = Ok q.
Proof.
  induction s as [|c s IH]; intros Hs; [done|]. cbn [re_search].
  pose proof (match_at_number c s Hs) as Hm.
  destruct (match_at number_re (String c s)) as [[m rest]|].
  - intros [= <-]. destruct Hm as (w & f & -> & Hne & Hw & Hf). by apply py_float_number.
  - apply IH. simpl in Hs. by apply orb_false_iff in Hs as [_ ?].
Qed.

Lemma parse_funding_amount_no_comma text :
  contains_char "," text = false -> exists r, parse_funding_amount text = Ok r.
Proof.
  intros Hc. unfold parse_funding_amount. destruct (String.eqb text ""); [by eexists|].
  destruct (re_search _ _) as [found|] eqn:E; [|by eexists].
  apply re_search_number in E as [q ->]; [by eexists|].
  by apply keep_chars_no_comma, py_upper_no_comma.
Qed.

Section Tail.
Context (P : string -> Prop).
Hypothesis P_tail : forall c s, P (String c s) -> P s.

Lemma star_match_tail p s : forall k rest,
  star_match p s k = Some rest -> P s -> exists mid, P mid /\ k mid = Some rest.
Proof.
  induction s as [|c s IH]; intros k rest; simpl; [by exists EmptyString|].
  intros H Hs. destruct (p c); [|by eexists].
  destruct (star_match p s k) as [r|] eqn:E; [|by eexists].
  injection H as ->. eapply IH; [done|]. by eapply P_tail.
Qed.

Lemma re_match_tail r : forall s k rest,
  re_match r s k = Some rest -> P s -> exists mid, P mid /\ k mid = Some rest.
Proof.
  induction r as [|p|r1 IH1 r2 IH2|r1 IH1 r2 IH2|p]; intros s k rest; simpl.
  - by eexists.
  - destruct s as [|c s]; [done|]. destruct (p c); [|done]. intros H Hs.
    exists s. split; [by eapply P_tail|done].
  - intros H Hs. destruct (IH1 _ _ _ H Hs) as (mid & Hmid & H2). by eapply IH2.
  - destruct (re_match r1 s k) as [r|] eqn:E.
    + intros [= ->]. by eapply IH1.
    + by apply IH2.
  - apply star_match_tail.
Qed.

Lemma match_at_tail r s m rest : match_at r s = Some (m, rest) -> P s -> P rest.
Proof.
  unfold match_at. destruct (re_match r s Some) as [rest'|] eqn:E; [|done].
  simpl. intros [= _ <-] Hs. by destruct (re_match_tail _ _ _ _ E Hs) as (mid & Hmid & [= <-]).
Qed.
End Tail.

Lemma match_at_no_comma r s m rest :
  contains_char "," s = false -> match_at r s = Some (m, rest) ->
  contains_char "," m = false /\ contains_char "," rest = false.
Proof.
  intros Hs H. split.
  - unfold match_at in H. destruct (re_match r s Some); [|done]. simpl in H.
    injection H as <- _. by apply substring_no_comma.
  - apply (match_at_tail (fun s => contains_char "," s = false)) in H; [done| |done].
    intros c s'. simpl. by intros [_ ?]%orb_false_iff.
Qed.

Lemma re_search_no_comma r s found :
  contains_char "," s = false -> re_search r s = Some found -> contains_char "," found = false.
Proof.
  induction s as [|c s IH]; intros Hs; cbn [re_search].
  - destruct (match_at r "") as [[m rest]|] eqn:E; [|done]. intros [= <-].
    by apply (match_at_no_comma _ _ _ _ Hs E).
  - destruct (match_at r (String c s)) as [[m rest]|] eqn:E.
    + intros [= <-]. by apply (match_at_no_comma _ _ _ _ Hs E).
    + apply IH. simpl in Hs. by apply orb_false_iff in Hs as [_ ?].
Qed.

Lemma findall_from_no_comma r fuel : forall s,
  contains_char "," s = false ->
  Forall (fun m => contains_char "," m = false) (findall_from fuel r s).
Proof.
  induction fuel as [|fuel IH]; intros s Hs; cbn [findall_from]; [constructor|].
  assert (Forall (fun m => contains_char "," m = false)
            match s with String _ s' => findall_from fuel r s' | EmptyString => [] end) as Hskip.
  { destruct s as [|c s']; [constructor|]. apply IH. simpl in Hs.
    by apply orb_false_iff in Hs as [_ ?]. }
  destruct (match_at r s) as [[m rest]|] eqn:E; [|done].
  destruct (match_at_no_comma _ _ _ _ Hs E) as [Hm Hrest].
  destruct m; [by constructor|]. constructor; [done|by apply IH].
Qed.

Lemma parse_matches_no_comma matches : forall amounts,
  Forall (fun m => contains_char "," m = false) matches ->
  exists l, parse_matches amounts matches = Ok l.
Proof.
  induction matches as [|m matches IH]; intros amounts Hall; simpl; [by eexists|].
  apply Forall_cons in Hall as [Hm Hall].
  destruct (parse_funding_amount_no_comma m Hm) as [[a|] ->]; simpl; by apply IH.
Qed.

Lemma extract_with_no_comma patterns text : forall amounts,
  contains_char "," text = false -> exists l, extract_with patterns amounts text = Ok l.
Proof.
  induction patterns as [|r patterns IH]; intros amounts Hs; simpl; [by eexists|].
  destruct (parse_matches_no_comma (re_findall r text) amounts) as [l ->].
  { by apply findall_from_no_comma. }
  simpl. by apply IH.
Qed.

Lemma extract_first_no_comma patterns text :
  contains_char "," text = false -> exists r, extract_first patterns text = Ok r.
Proof.
  intros Hs. induction patterns as [|r patterns IH]; simpl; [by eexists|].
  destruct (re_search r text) as [found|] eqn:E; [|done].
  apply parse_funding_amount_no_comma. by eapply re_search_no_comma.
Qed.

(** X19. On a text without a comma none of the amount functions raises:
    [parse_funding_amount], the two [_extract_funding_amounts],
    [_extract_revenue] and [_extract_market_cap] all return.  The [ValueError]
    of [float] needs a number made of commas only. *)
Theorem amounts_raise_only_with_a_comma text :
  contains_char "," text = false ->
  (exists r, parse_funding_amount text = Ok r) /\
  (exists l, _extract_funding_amounts text = Ok l) /\
  (exists l, web_extract_funding_amounts text = Ok l) /\
  (exists r, _extract_revenue text = Ok r) /\
  (exists r, _extract_market_cap text = Ok r).
Proof.
  intros Hs. split_and!.
  - by apply parse_funding_amount_no_comma.
  - by apply extract_with_no_comma.
  - by apply extract_with_no_comma.
  - by apply extract_first_no_comma.
  - by apply extract_first_no_comma.
Qed.

Lemma amounts_raise_only_with_a_comma_witness :
  contains_char "," "Acme raised $5.2 million at a valuation of $40 million" = false /\
  (exists r, parse_funding_amount "Acme raised $5.2 million at a valuation of $40 million"
             = Ok r) /\
  (exists l, _extract_funding_amounts "Acme raised $5.2 million at a valuation of $40 million"
             = Ok l) /\
  (exists l, web_extract_funding_amounts
               "Acme raised $5.2 million at a valuation of $40 million" = Ok l) /\
  (exists r, _extract_revenue "Acme raised $5.2 million at a valuation of $40 million"
             = Ok r) /\
  (exists r, _extract_market_cap "Acme raised $5.2 million at a valuation of $40 million"
             = Ok r).
Proof.
  assert (contains_char "," "Acme raised $5.2 million at a valuation of $40 million" = false)
    as H by reflexivity.
  split; [exact H|].
  exact (amounts_raise_only_with_a_comma
           "Acme raised $5.2 million at a valuation of $40 million" H).
Defined.
